(** * Madlan property search server: a shallow embedding and its properties

    The development follows [src/mcp_server.py] (class [NadlanPropertyServer]
    and [main]) and [install.py] ([classify_transaction_type],
    [geocode_with_nominatim], [detect_python]).

    Conventions of the embedding
    - Python floats and ints are exact rationals ([Q]) and integers ([Z]);
      a float [NaN] is [None] where the code can produce one.
    - A Python exception is [None] in an [option], or the left injection of
      a sum, where the code can raise; where it cannot, functions are total.
    - Library calls whose implementation is not part of the repository
      ([numpy.exp], [DataFrame.sort_values], [json.loads], [geodesic],
      the Nominatim request, [subprocess.run], the formatter of the report)
      are Section variables; what is assumed of them is stated as Section
      hypotheses next to the lemma that needs it.
    - DataFrames live in a store indexed by references, so that copying,
      boolean indexing and in-place column assignment are distinguished. *)

From Stdlib Require Import QArith ZArith Qround Lia Lqa List Bool Permutation Sorted.
From Stdlib Require Import String Ascii.
From stdpp Require Import gmap strings.
Import ListNotations.

Local Open Scope Q_scope.

(** ** Python numerics *)

Module Py.

(** [int(x)] on a float: truncation toward zero. *)
Definition int (x : Q) : Z := Z.quot (Qnum x) (Zpos (Qden x)).

(** [x < y], [x <= y] as booleans. *)
Definition ltb (x y : Q) : bool := negb (Qle_bool y x).
Definition leb (x y : Q) : bool := Qle_bool x y.

(** [bool(x)] of a number: zero is falsy. *)
Definition truthy (x : Q) : bool := negb (Qeq_bool x 0).

(** [max(a, b)]: the first argument unless the second is greater;
    [min(a, b)]: the first argument unless the second is smaller. *)
Definition max (a b : Q) : Q := if ltb a b then b else a.
Definition min (a b : Q) : Q := if ltb b a then b else a.

(** Round half to even, to the nearest integer. *)
Definition round_half_even (x : Q) : Z :=
  let f := Qfloor x in
  let r := x - inject_Z f in
  if ltb r (1 # 2) then f
  else if ltb (1 # 2) r then (f + 1)%Z
  else if Z.even f then f else (f + 1)%Z.

(** [round(x, 1)]: one decimal place, ties to even. *)
Definition round1 (x : Q) : Q := round_half_even (x * 10) # 10.


End Py.

(** ** install.py: transaction type from the price *)

Module Install.

Definition classify_transaction_type (price : Q) : string :=
  if Py.ltb price 100000 then "To Let"%string else "For Sale"%string.

End Install.

(** ** Travel times and price per square metre *)

Module Proximity.

Definition base_walk_speed_kmh : Q := 4.5.

(** The walking-time part of the loop body of [get_nearest_amenities],
    as a function of [distance_km]. *)
Definition walk_time_minutes (distance_km : Q) : Z :=
  let walk_time_minutes := Z.max 1 (Py.int ((distance_km / base_walk_speed_kmh) * 60)) in
  if Py.ltb 0.5 distance_km then
    let terrain_penalty := Py.int (distance_km * 3) in
    (walk_time_minutes + terrain_penalty)%Z
  else walk_time_minutes.



End Proximity.

(** ** Strings as the classifier uses them *)

Module Str.

(** [s.lower()], on the ASCII letters. *)
Definition lower_ascii (c : ascii) : ascii :=
  let n := nat_of_ascii c in
  if (65 <=? n)%nat && (n <=? 90)%nat then ascii_of_nat (n + 32) else c.

Fixpoint lower (s : string) : string :=
  match s with
  | EmptyString => EmptyString
  | String c t => String (lower_ascii c) (lower t)
  end.

(** [needle in hay]. *)
Fixpoint contains (needle hay : string) : bool :=
  String.prefix needle hay ||
  match hay with
  | EmptyString => false
  | String _ t => contains needle t
  end.

(** [any(k in text for k in keywords)]. *)
Definition any_in (keywords : list string) (text : string) : bool :=
  existsb (fun k => contains k text) keywords.

(** [bool(s)] of a string: the empty string is falsy. *)
Definition truthy (s : string) : bool := negb (String.eqb s "").

(** [str(b)] of a Python bool. *)
Definition of_bool (b : bool) : string := if b then "True" else "False".

End Str.

(** ** The data model *)

(** One row of [properties_df]. [publish_date] is what [pd.to_datetime]
    makes of the cell: a timestamp in microseconds, or [None] when the
    conversion raises. [madlan_match_score] is [None] until the column is
    assigned. *)
Module Listing.

Record t := mk {
  publish_date : option Z;
  seller_type : string;
  property_rooms : Q;
  property_price : Q;
  property_floors : Z;
  property_builded_area : Q;
  city : string;
  neighbourhood : string;
  street : string;
  property_type : string;
  transaction_type : string;
  bulletin_has_balconies : bool;
  bulletin_has_elevator : bool;
  bulletin_has_parking : bool;
  lat : option Q;
  lon : option Q;
  nearest_school_name : string;
  nearest_school_distance_km : Q;
  nearest_clinic_name : string;
  nearest_clinic_distance_km : Q;
  madlan_match_score : option Q
}.

(** [row[col] = str(row[col]).lower() == 'true'] on the three feature columns. *)
Definition fix_boolean (b : bool) : bool :=
  String.eqb (Str.lower (Str.of_bool b)) "true".

Definition fix_boolean_cols (parking elevator balconies : bool) (r : t) : t :=
  mk (publish_date r) (seller_type r) (property_rooms r) (property_price r)
     (property_floors r) (property_builded_area r) (city r) (neighbourhood r)
     (street r) (property_type r) (transaction_type r)
     (if balconies then fix_boolean (bulletin_has_balconies r) else bulletin_has_balconies r)
     (if elevator then fix_boolean (bulletin_has_elevator r) else bulletin_has_elevator r)
     (if parking then fix_boolean (bulletin_has_parking r) else bulletin_has_parking r)
     (lat r) (lon r) (nearest_school_name r) (nearest_school_distance_km r)
     (nearest_clinic_name r) (nearest_clinic_distance_km r) (madlan_match_score r).

(** The row with its [madlan_match_score] cell set. *)
Definition with_score (s : Q) (r : t) : t :=
  mk (publish_date r) (seller_type r) (property_rooms r) (property_price r)
     (property_floors r) (property_builded_area r) (city r) (neighbourhood r)
     (street r) (property_type r) (transaction_type r)
     (bulletin_has_balconies r) (bulletin_has_elevator r) (bulletin_has_parking r)
     (lat r) (lon r) (nearest_school_name r) (nearest_school_distance_km r)
     (nearest_clinic_name r) (nearest_clinic_distance_km r) (Some s).

(** The sort key: the score cell (0 for a row that has none). *)
Definition score (r : t) : Q :=
  match madlan_match_score r with Some s => s | None => 0 end.

(** [x] may come before [y] in a frame sorted by descending score. *)
Definition by_descending_score (x y : t) : Prop := score y <= score x.

End Listing.

(** A DataFrame: its column labels and its rows, in index order. *)
Module DataFrame.

Record t := mk { columns : list string; rows : list Listing.t }.

Definition empty : t := mk [] [].

Definition has_column (col : string) (df : t) : bool :=
  existsb (String.eqb col) (columns df).

(** [df[mask]]: the rows that satisfy the mask, in order. *)
Definition select (mask : Listing.t -> bool) (df : t) : t :=
  mk (columns df) (List.filter mask (rows df)).

(** [df[col] = ...] for the three feature columns that exist. *)
Definition fix_boolean_cols (df : t) : t :=
  mk (columns df)
     (List.map (Listing.fix_boolean_cols
                  (has_column "bulletin_has_parking" df)
                  (has_column "bulletin_has_elevator" df)
                  (has_column "bulletin_has_balconies" df))
               (rows df)).

(** [df['madlan_match_score'] = match_scores], one score per row. *)
Fixpoint assign_scores (scores : list Q) (rs : list Listing.t) : list Listing.t :=
  match scores, rs with
  | s :: scores', r :: rs' => Listing.with_score s r :: assign_scores scores' rs'
  | _, _ => []
  end.

Definition set_scores (scores : list Q) (df : t) : t :=
  mk (if has_column "madlan_match_score" df then columns df
      else columns df ++ ["madlan_match_score"%string])
     (assign_scores scores (rows df)).

(** [df.head(n)]: the first [n] rows; for a negative [n], all but the
    last [-n] rows. *)
Definition head (n : Z) (df : t) : t :=
  mk (columns df)
     (if (0 <=? n)%Z then firstn (Z.to_nat n) (rows df)
      else firstn (length (rows df) - Z.to_nat (- n)) (rows df)).

End DataFrame.

(** The keyword arguments of [search_properties]; [None] is an absent key. *)
Module Kwargs.

Record t := mk {
  _query_text : option string;
  max_price : option Q;
  min_price : option Q;
  rooms : option Q;
  property_type : option string;
  transaction_type : option string;
  neighborhoods : option (list string);
  near_schools : option bool;
  near_medical : option bool;
  has_parking : option bool;
  has_elevator : option bool;
  has_balcony : option bool;
  sort_by : option string;
  limit : option Z
}.

(** [kwargs.get(key)] used as a condition. *)
Definition truthy_num (o : option Q) : bool :=
  match o with Some q => Py.truthy q | None => false end.
Definition truthy_str (o : option string) : bool :=
  match o with Some s => Str.truthy s | None => false end.
Definition truthy_flag (o : option bool) : bool :=
  match o with Some b => b | None => false end.

(** [kwargs[key]] where the key is known to be present and of that type. *)
Definition num (o : option Q) : Q := match o with Some q => q | None => 0 end.
Definition str (o : option string) : string :=
  match o with Some s => s | None => ""%string end.

(** [{}], and a dictionary with one key set. *)
Definition empty : t :=
  mk None None None None None None None None None None None None None None.


Definition with_transaction_type (tt : string) (kw : t) : t :=
  mk (_query_text kw) (max_price kw) (min_price kw) (rooms kw)
    (property_type kw) (Some tt) (neighborhoods kw)
    (near_schools kw) (near_medical kw) (has_parking kw)
    (has_elevator kw) (has_balcony kw) (sort_by kw) (limit kw).

Definition with_min_price (p : Q) (kw : t) : t :=
  mk (_query_text kw) (max_price kw) (Some p) (rooms kw)
    (property_type kw) (transaction_type kw) (neighborhoods kw)
    (near_schools kw) (near_medical kw) (has_parking kw)
    (has_elevator kw) (has_balcony kw) (sort_by kw) (limit kw).

Definition with_near_schools (b : bool) (kw : t) : t :=
  mk (_query_text kw) (max_price kw) (min_price kw) (rooms kw)
    (property_type kw) (transaction_type kw) (neighborhoods kw)
    (Some b) (near_medical kw) (has_parking kw)
    (has_elevator kw) (has_balcony kw) (sort_by kw) (limit kw).

Definition with_limit (n : Z) (kw : t) : t :=
  mk (_query_text kw) (max_price kw) (min_price kw) (rooms kw)
    (property_type kw) (transaction_type kw) (neighborhoods kw)
    (near_schools kw) (near_medical kw) (has_parking kw)
    (has_elevator kw) (has_balcony kw) (sort_by kw) (Some n).

End Kwargs.

(** ** detect_query_intent_and_amenities *)

Module Intent.

Inductive format_mode_t := data | listings.

Record t := mk {
  format_mode : format_mode_t;
  mentioned_amenities : list string;
  is_listing_query : bool;
  is_data_query : bool;
  detected_transaction : option string
}.

Definition listing_indicators : list string :=
  ["show me"; "find me"; "list"; "properties"; "apartments"; "flats";
   "top"; "best"; "recommendations"; "options"; "listings";
   "search for"; "looking for"; "want to see"]%string.

Definition data_indicators : list string :=
  ["analyze"; "analysis"; "statistics"; "stats"; "average"; "compare";
   "market data"; "trends"; "price analysis"; "how many"; "count";
   "overview"; "summary"; "what is"; "tell me about"]%string.

Definition amenity_patterns : list (string * list string) :=
  [("schools",
    ["school"; "schools"; "education"; "elementary"; "high school";
     "kindergarten"; "בית ספר"; "תיכון"; "חינוך"]);
   ("medical",
    ["medical"; "clinic"; "hospital"; "doctor"; "health"; "healthcare";
     "maccabi"; "clalit"; "leumit"; "מכבי"; "כללית"; "לאומית"; "רופא"; "קליניקה"]);
   ("transport",
    ["transport"; "transportation"; "bus"; "train"; "metro"; "carmelit";
     "station"; "public transport"; "תחבורה"; "אוטובוס"; "רכבת"])]%string.

Definition transaction_keywords : list (string * list string) :=
  [("for_sale", ["for sale"; "buy"; "purchase"; "buying"; "sale"; "למכירה"; "קנייה"]);
   ("to_let", ["to let"; "rent"; "rental"; "renting"; "lease"; "להשכרה"; "השכרה"; "שכירות"])]%string.

(** The loop over [transaction_keywords.items()] with its [break]. *)
Fixpoint detect_transaction (kws : list (string * list string)) (query_text : string)
  : option string :=
  match kws with
  | [] => None
  | (trans_type, keywords) :: rest =>
      if Str.any_in keywords query_text
      then Some (if String.eqb trans_type "for_sale" then "For Sale" else "To Let")%string
      else detect_transaction rest query_text
  end.

Definition mentions (amenity : string) (l : list string) : bool :=
  existsb (String.eqb amenity) l.

Definition detect_query_intent_and_amenities (search_params : Kwargs.t) : t :=
  let query_text := Str.lower (Kwargs.str (Kwargs._query_text search_params)) in
  let is_listing_query := Str.any_in listing_indicators query_text in
  let is_data_query := Str.any_in data_indicators query_text in
  let mentioned_amenities :=
    List.map fst (List.filter (fun p => Str.any_in (snd p) query_text) amenity_patterns) in
  let detected_transaction := detect_transaction transaction_keywords query_text in
  let mentioned_amenities :=
    if Kwargs.truthy_flag (Kwargs.near_schools search_params)
       && negb (mentions "schools" mentioned_amenities)
    then mentioned_amenities ++ ["schools"%string] else mentioned_amenities in
  let mentioned_amenities :=
    if Kwargs.truthy_flag (Kwargs.near_medical search_params)
       && negb (mentions "medical" mentioned_amenities)
    then mentioned_amenities ++ ["medical"%string] else mentioned_amenities in
  let format_mode :=
    if is_data_query && negb is_listing_query
       && match mentioned_amenities with [] => true | _ => false end
    then data else listings in
  mk format_mode mentioned_amenities is_listing_query is_data_query detected_transaction.

End Intent.

(** ** Floats that may be NaN *)

Module Float.

(** [None] is NaN; arithmetic propagates it. *)
Definition t := option Q.

Definition lift2 (f : Q -> Q -> Q) (a b : t) : t :=
  match a, b with
  | Some x, Some y => Some (f x y)
  | _, _ => None
  end.

Definition add : t -> t -> t := lift2 Qplus.
Definition sub : t -> t -> t := lift2 Qminus.
Definition mul : t -> t -> t := lift2 Qmult.

(** [(col < v).mean()]: the share of the column below [v]; NaN on an
    empty column. *)
Definition share_below (col : list Q) (v : Q) : t :=
  match col with
  | [] => None
  | _ :: _ =>
      Some (inject_Z (Z.of_nat (length (List.filter (fun x => Py.ltb x v) col)))
            / inject_Z (Z.of_nat (length col)))
  end.

(** [min(100, round(x, 1))]: every comparison with NaN is false, so the
    first argument stays. *)
Definition min100_round1 (x : t) : Q :=
  match x with
  | Some q => Py.min 100 (Py.round1 q)
  | None => 100
  end.

(** [x] is not above [y], where a NaN on the right stands for the top
    score (see [min100_round1]) and a NaN on the left needs one on
    the right. *)
Definition le (x y : t) : Prop :=
  match y with
  | None => True
  | Some q => match x with Some p => p <= q | None => False end
  end.

Definition nonneg (x : t) : Prop :=
  match x with Some q => 0 <= q | None => True end.

End Float.

(** ** The store of DataFrame objects *)

Module Store.

Definition ref := positive.

(** A computation that reads and updates the store. *)
Definition M (A : Type) : Type := gmap ref DataFrame.t -> A * gmap ref DataFrame.t.

Definition ret {A} (a : A) : M A := fun h => (a, h).
Definition bind {A B} (m : M A) (k : A -> M B) : M B :=
  fun h => let (a, h') := m h in k a h'.

(** A new object. *)
Definition alloc (d : DataFrame.t) : M ref :=
  fun h => let r := fresh (dom h) in (r, <[r := d]> h).

(** The object behind a reference (an empty frame for a dangling one). *)
Definition read (r : ref) : M DataFrame.t :=
  fun h => (default DataFrame.empty (h !! r), h).

(** An update of the object in place. *)
Definition modify (r : ref) (f : DataFrame.t -> DataFrame.t) : M unit :=
  fun h => (tt, <[r := f (default DataFrame.empty (h !! r))]> h).

(** A triple for store computations: from a store that satisfies [P], the
    result and the final store satisfy [Q]. *)
Definition triple {A} (P : gmap ref DataFrame.t -> Prop) (m : M A)
    (Q : A -> gmap ref DataFrame.t -> Prop) : Prop :=
  forall h, P h -> Q (fst (m h)) (snd (m h)).

(** [r] is an object created since the store was [h0], holding [d]; the
    objects of [h0] are as they were. *)
Definition request_local (h0 : gmap ref DataFrame.t) (r : ref) (d : DataFrame.t)
    (h : gmap ref DataFrame.t) : Prop :=
  h0 ⊆ h /\ h0 !! r = None /\ h !! r = Some d.

End Store.

#[global] Instance store_ret : MRet Store.M := @Store.ret.
#[global] Instance store_bind : MBind Store.M := fun A B k m => Store.bind m k.

(** ** The search engine *)

Module Server.

(** The description of an applied filter, as appended to [filters]. *)
Inductive FilterDesc :=
| TransactionFilter (transaction_filter : string)
| AutoDetected (detected_transaction : string)
| MaxPrice (p : Q)
| MinPrice (p : Q)
| MinRooms (r : Q)
| NearSchools
| NearMedical
| MustHaveParking
| MustHaveElevator
| MustHaveBalcony.

Record MarketStats := mkStats {
  avg_price : Z;
  min_price : Z;
  max_price : Z;
  avg_area : Q
}.

Record SearchResult := mkResult {
  properties : list Listing.t;
  filters : list FilterDesc;
  total_found : nat;
  search_params : Kwargs.t;
  market_stats : MarketStats;
  _intent_data : Intent.t
}.

(** [self]: the flag and the reference held in [self.properties_df]. *)
Record t := mk { data_loaded : bool; properties_df : Store.ref }.

Definition microseconds_per_day : Z := 86400000000.

(** [Series.mean()], [Series.min()], [Series.max()] on a column that is
    not empty. *)
Definition mean (col : list Q) : Q :=
  fold_right Qplus 0 col / inject_Z (Z.of_nat (length col)).

Definition col_min (col : list Q) : Q :=
  match col with
  | [] => 0
  | x :: rest => fold_left (fun m y => if Py.ltb y m then y else m) rest x
  end.

Definition col_max (col : list Q) : Q :=
  match col with
  | [] => 0
  | x :: rest => fold_left (fun m y => if Py.ltb m y then y else m) rest x
  end.

(** The [market_stats] entry, computed from the rows of the frame it is
    given. *)
Definition market_stats_of (page : list Listing.t) : MarketStats :=
  match page with
  | [] => mkStats 0 0 0 0
  | _ :: _ =>
      let prices := List.map Listing.property_price page in
      let areas := List.map Listing.property_builded_area page in
      mkStats (Py.int (mean prices)) (Py.int (col_min prices)) (Py.int (col_max prices))
              (Py.round1 (mean areas))
  end.

Section WithLibraries.

(** [numpy.exp]. *)
Variable np_exp : Q -> Q.

(** [DataFrame.sort_values('madlan_match_score', ascending=False)] on the
    rows, with the default sorting algorithm of the library. *)
Variable sort_values : list Listing.t -> list Listing.t.

(** [datetime.now()], in microseconds; one reading serves a whole request. *)
Variable now : Z.

Definition calculate_madlan_match_score
    (property_row : Listing.t) (search_params : Kwargs.t)
    (all_properties_df : DataFrame.t) : Q :=
  let pool := DataFrame.rows all_properties_df in
  let metadata_score : Float.t := Some 0 in
  (* Price competitiveness (15 points) *)
  let metadata_score :=
    if (1 <? length pool)%nat then
      let price := Listing.property_price property_row in
      let price_percentile :=
        Float.share_below (List.map Listing.property_price pool) price in
      Float.add metadata_score
        (Float.mul (Some 15) (Float.sub (Some 1) price_percentile))
    else metadata_score in
  (* Size value (10 points) *)
  let area := Listing.property_builded_area property_row in
  let metadata_score :=
    if Py.ltb 0 area then
      let area_percentile :=
        Float.share_below (List.map Listing.property_builded_area pool) area in
      Float.add metadata_score (Float.mul (Some 10) area_percentile)
    else metadata_score in
  (* Features bonus (15 points total) *)
  let metadata_score :=
    if Listing.bulletin_has_parking property_row
    then Float.add metadata_score (Some 5) else metadata_score in
  let metadata_score :=
    if Listing.bulletin_has_elevator property_row
    then Float.add metadata_score (Some 5) else metadata_score in
  let metadata_score :=
    if Listing.bulletin_has_balconies property_row
    then Float.add metadata_score (Some 5) else metadata_score in
  (* Recency bonus (10 points) *)
  let metadata_score :=
    match Listing.publish_date property_row with
    | Some pub_date =>
        let days_old := ((now - pub_date) / microseconds_per_day)%Z in
        Float.add metadata_score
          (Some (Py.max 0 (10 * (1 - inject_Z days_old / 365))))
    | None => Float.add metadata_score (Some 5)
    end in
  (* Context score (50 points) *)
  let context_score : Q := 0 in
  let context_score :=
    if Kwargs.truthy_flag (Kwargs.near_schools search_params) then
      let school_dist := Listing.nearest_school_distance_km property_row in
      if Py.ltb school_dist 999
      then context_score + Py.min 50 (50 * np_exp (- school_dist * 2))
      else context_score
    else context_score + 25 in
  Float.min100_round1 (Float.add metadata_score (Some context_score)).

(** *** The blocks of [calculate_madlan_match_score]

    Each block as a function of the running [metadata_score];
    [calculate_madlan_match_score_blocks] below shows that the function is
    their composition. *)

Definition price_block (property_row : Listing.t) (all_properties_df : DataFrame.t)
    (metadata_score : Float.t) : Float.t :=
  let pool := DataFrame.rows all_properties_df in
  if (1 <? length pool)%nat then
    Float.add metadata_score
      (Float.mul (Some 15)
         (Float.sub (Some 1)
            (Float.share_below (List.map Listing.property_price pool)
               (Listing.property_price property_row))))
  else metadata_score.

Definition size_block (property_row : Listing.t) (all_properties_df : DataFrame.t)
    (metadata_score : Float.t) : Float.t :=
  let area := Listing.property_builded_area property_row in
  if Py.ltb 0 area then
    Float.add metadata_score
      (Float.mul (Some 10)
         (Float.share_below
            (List.map Listing.property_builded_area (DataFrame.rows all_properties_df))
            area))
  else metadata_score.

Definition feature_block (has_feature : bool) (metadata_score : Float.t) : Float.t :=
  if has_feature then Float.add metadata_score (Some 5) else metadata_score.

Definition recency_points (property_row : Listing.t) : Q :=
  match Listing.publish_date property_row with
  | Some pub_date =>
      let days_old := ((now - pub_date) / microseconds_per_day)%Z in
      Py.max 0 (10 * (1 - inject_Z days_old / 365))
  | None => 5
  end.

Definition context_score (property_row : Listing.t) (search_params : Kwargs.t) : Q :=
  if Kwargs.truthy_flag (Kwargs.near_schools search_params) then
    let school_dist := Listing.nearest_school_distance_km property_row in
    if Py.ltb school_dist 999
    then 0 + Py.min 50 (50 * np_exp (- school_dist * 2))
    else 0
  else 0 + 25.

Definition metadata_score (property_row : Listing.t) (all_properties_df : DataFrame.t)
  : Float.t :=
  Float.add
    (feature_block (Listing.bulletin_has_balconies property_row)
       (feature_block (Listing.bulletin_has_elevator property_row)
          (feature_block (Listing.bulletin_has_parking property_row)
             (size_block property_row all_properties_df
                (price_block property_row all_properties_df (Some 0))))))
    (Some (recency_points property_row)).

(** [a] is strictly cheaper, strictly larger, strictly newer than [b], and
    has parking, elevator and balcony. *)
Definition dominates (a b : Listing.t) : Prop :=
  Listing.property_price a < Listing.property_price b /\
  Listing.property_builded_area b < Listing.property_builded_area a /\
  (exists ta tb, Listing.publish_date a = Some ta /\
                 Listing.publish_date b = Some tb /\ (tb < ta)%Z) /\
  Listing.bulletin_has_parking a = true /\
  Listing.bulletin_has_elevator a = true /\
  Listing.bulletin_has_balconies a = true.

(** One [if cond: df = df[mask]; filters.append(desc)] block of the
    pipeline: the condition (which may look at the columns of the current
    frame), the mask and the description appended to [filters]. *)
Record Step := mkStep {
  step_cond : DataFrame.t -> bool;
  step_mask : Listing.t -> bool;
  step_desc : FilterDesc
}.

(** Running one block; the state is the current [df] and [filters]. *)
Definition filter_step (s : Step) (st : Store.ref * list FilterDesc)
  : Store.M (Store.ref * list FilterDesc) :=
  d ← Store.read (fst st);
  if step_cond s d then
    df ← Store.alloc (DataFrame.select (step_mask s) d);
    mret (df, snd st ++ [step_desc s])
  else mret st.

(** [if kwargs.get('transaction_type'): if 'transaction_type' in df.columns: ...] *)
Definition transaction_step (kwargs : Kwargs.t) : Step :=
  let transaction_filter := Kwargs.str (Kwargs.transaction_type kwargs) in
  mkStep (fun df => Kwargs.truthy_str (Kwargs.transaction_type kwargs)
                    && DataFrame.has_column "transaction_type" df)
         (fun r => String.eqb (Listing.transaction_type r) transaction_filter)
         (TransactionFilter transaction_filter).

(** [if detected_transaction and not kwargs.get('transaction_type'): ...] *)
Definition auto_detect_step (kwargs : Kwargs.t) (intent_data : Intent.t) : Step :=
  let detected_transaction := Intent.detected_transaction intent_data in
  mkStep (fun df => Kwargs.truthy_str detected_transaction
                    && negb (Kwargs.truthy_str (Kwargs.transaction_type kwargs))
                    && DataFrame.has_column "transaction_type" df)
         (fun r => String.eqb (Listing.transaction_type r) (Kwargs.str detected_transaction))
         (AutoDetected (Kwargs.str detected_transaction)).

Definition max_price_step (kwargs : Kwargs.t) : Step :=
  mkStep (fun _ => Kwargs.truthy_num (Kwargs.max_price kwargs))
         (fun r => Py.leb (Listing.property_price r) (Kwargs.num (Kwargs.max_price kwargs)))
         (MaxPrice (Kwargs.num (Kwargs.max_price kwargs))).

Definition min_price_step (kwargs : Kwargs.t) : Step :=
  mkStep (fun _ => Kwargs.truthy_num (Kwargs.min_price kwargs))
         (fun r => Py.leb (Kwargs.num (Kwargs.min_price kwargs)) (Listing.property_price r))
         (MinPrice (Kwargs.num (Kwargs.min_price kwargs))).

Definition rooms_step (kwargs : Kwargs.t) : Step :=
  mkStep (fun _ => Kwargs.truthy_num (Kwargs.rooms kwargs))
         (fun r => Py.leb (Kwargs.num (Kwargs.rooms kwargs)) (Listing.property_rooms r))
         (MinRooms (Kwargs.num (Kwargs.rooms kwargs))).

Definition near_schools_step (kwargs : Kwargs.t) : Step :=
  mkStep (fun _ => Kwargs.truthy_flag (Kwargs.near_schools kwargs))
         (fun r => Py.leb (Listing.nearest_school_distance_km r) 1.5)
         NearSchools.

Definition near_medical_step (kwargs : Kwargs.t) : Step :=
  mkStep (fun _ => Kwargs.truthy_flag (Kwargs.near_medical kwargs))
         (fun r => Py.leb (Listing.nearest_clinic_distance_km r) 2.0)
         NearMedical.

Definition has_parking_step (kwargs : Kwargs.t) : Step :=
  mkStep (fun _ => Kwargs.truthy_flag (Kwargs.has_parking kwargs))
         (fun r => Bool.eqb (Listing.bulletin_has_parking r) true)
         MustHaveParking.

Definition has_elevator_step (kwargs : Kwargs.t) : Step :=
  mkStep (fun _ => Kwargs.truthy_flag (Kwargs.has_elevator kwargs))
         (fun r => Bool.eqb (Listing.bulletin_has_elevator r) true)
         MustHaveElevator.

Definition has_balcony_step (kwargs : Kwargs.t) : Step :=
  mkStep (fun _ => Kwargs.truthy_flag (Kwargs.has_balcony kwargs))
         (fun r => Bool.eqb (Listing.bulletin_has_balconies r) true)
         MustHaveBalcony.

Definition search_properties (self : t) (kwargs : Kwargs.t) : Store.M SearchResult :=
  (* df = self.properties_df.copy() *)
  d ← Store.read (properties_df self);
  df ← Store.alloc d;
  let filters : list FilterDesc := [] in
  (* Fix boolean columns from string format to actual boolean *)
  _ ← Store.modify df DataFrame.fix_boolean_cols;
  (* Detect query intent and amenities (including transaction type) *)
  let intent_data := Intent.detect_query_intent_and_amenities kwargs in
  (* Transaction type filtering *)
  st ← filter_step (transaction_step kwargs) (df, filters);
  (* Auto-detect transaction type from query if not explicitly set *)
  st ← filter_step (auto_detect_step kwargs intent_data) st;
  (* Apply other filters *)
  st ← filter_step (max_price_step kwargs) st;
  st ← filter_step (min_price_step kwargs) st;
  st ← filter_step (rooms_step kwargs) st;
  st ← filter_step (near_schools_step kwargs) st;
  st ← filter_step (near_medical_step kwargs) st;
  st ← filter_step (has_parking_step kwargs) st;
  st ← filter_step (has_elevator_step kwargs) st;
  st ← filter_step (has_balcony_step kwargs) st;
  let df := fst st in
  let filters := snd st in
  (* Calculate match scores *)
  d ← Store.read df;
  all_properties_df ← Store.read (properties_df self);
  let match_scores :=
    List.map (fun row => calculate_madlan_match_score row kwargs all_properties_df)
             (DataFrame.rows d) in
  _ ← Store.modify df (DataFrame.set_scores match_scores);
  (* df = df.sort_values('madlan_match_score', ascending=False) *)
  d ← Store.read df;
  df ← Store.alloc (DataFrame.mk (DataFrame.columns d) (sort_values (DataFrame.rows d)));
  (* df = df.head(limit) *)
  let limit := match Kwargs.limit kwargs with Some n => n | None => 10%Z end in
  d ← Store.read df;
  df ← Store.alloc (DataFrame.head limit d);
  d ← Store.read df;
  let page := DataFrame.rows d in
  mret (mkResult page filters (length page) kwargs (market_stats_of page) intent_data).

(** *** The same pipeline on values

    What [search_properties] computes from the frame behind
    [self.properties_df], without the store; [search_properties_run]
    below proves the two agree. *)

Definition apply_step (s : Step) (st : DataFrame.t * list FilterDesc)
  : DataFrame.t * list FilterDesc :=
  if step_cond s (fst st)
  then (DataFrame.select (step_mask s) (fst st), snd st ++ [step_desc s])
  else st.

(** The frame and the descriptions after the transaction-type blocks. *)
Definition after_transaction (kwargs : Kwargs.t) (d : DataFrame.t)
  : DataFrame.t * list FilterDesc :=
  let intent_data := Intent.detect_query_intent_and_amenities kwargs in
  apply_step (auto_detect_step kwargs intent_data)
    (apply_step (transaction_step kwargs) (DataFrame.fix_boolean_cols d, [])).

(** The frame and the descriptions after all the filters. *)
Definition candidates (kwargs : Kwargs.t) (d : DataFrame.t)
  : DataFrame.t * list FilterDesc :=
  apply_step (has_balcony_step kwargs)
    (apply_step (has_elevator_step kwargs)
      (apply_step (has_parking_step kwargs)
        (apply_step (near_medical_step kwargs)
          (apply_step (near_schools_step kwargs)
            (apply_step (rooms_step kwargs)
              (apply_step (min_price_step kwargs)
                (apply_step (max_price_step kwargs)
                  (after_transaction kwargs d)))))))).

(** The candidates with their scores, each computed against [pool]. *)
Definition scored (kwargs : Kwargs.t) (pool : DataFrame.t) (cand : DataFrame.t)
  : DataFrame.t :=
  DataFrame.set_scores
    (List.map (fun row => calculate_madlan_match_score row kwargs pool)
              (DataFrame.rows cand))
    cand.

Definition limit_of (kwargs : Kwargs.t) : Z :=
  match Kwargs.limit kwargs with Some n => n | None => 10%Z end.

(** The page: scored against [pool], sorted, truncated. *)
Definition page_of (kwargs : Kwargs.t) (pool : DataFrame.t) (cand : DataFrame.t)
  : list Listing.t :=
  let sc := scored kwargs pool cand in
  DataFrame.rows
    (DataFrame.head (limit_of kwargs)
       (DataFrame.mk (DataFrame.columns sc) (sort_values (DataFrame.rows sc)))).

Definition search_result (kwargs : Kwargs.t) (d : DataFrame.t) : SearchResult :=
  let cf := candidates kwargs d in
  let page := page_of kwargs d (fst cf) in
  mkResult page (snd cf) (length page) kwargs (market_stats_of page)
           (Intent.detect_query_intent_and_amenities kwargs).

End WithLibraries.

End Server.

(** ** The protocol loop *)

(** A value as [json.loads] returns it; an object is a dictionary. *)
Module Json.

#[warnings="-register-all"]
Inductive t :=
| Null
| Bool (b : bool)
| Num (q : Q)
| Str (s : string)
| Arr (items : list t)
| Obj (members : gmap string t).

(** [v == s] for a string literal [s]. *)
Definition is_str (s : string) (v : t) : bool :=
  match v with
  | Str s' => String.eqb s' s
  | _ => false
  end.

End Json.

Module Dispatcher.

(** An exception, with [str(e)]; [json.JSONDecodeError] is told apart
    because [main] catches it on its own. *)
Inductive Exception :=
| JSONDecodeError (msg : string)
| OtherException (msg : string).

Definition message_of (e : Exception) : string :=
  match e with JSONDecodeError msg => msg | OtherException msg => msg end.

(** The [message] of an error response, before formatting. *)
Inductive Message :=
| UnknownMethod (method : Json.t)
| UnknownTool (tool_name : Json.t)
| ParseError (detail : string)
| InternalError (detail : string).

Inductive ResultBody :=
| ServerInfo
| ToolList
| Content (text : string).

(** What [handle_request] returns: the marker ["SKIP_RESPONSE"], a result
    or an error, each with the request identifier. *)
Inductive Response :=
| SKIP_RESPONSE
| Result (id : Json.t) (result : ResultBody)
| Error (id : Json.t) (code : Z) (message : Message).


(** [line.strip()], for the ASCII whitespace characters. *)
Definition is_space (c : ascii) : bool :=
  let n := nat_of_ascii c in
  ((9 <=? n)%nat && (n <=? 13)%nat) || ((28 <=? n)%nat && (n <=? 32)%nat).

Fixpoint lstrip (s : string) : string :=
  match s with
  | String c t => if is_space c then lstrip t else s
  | EmptyString => EmptyString
  end.

Fixpoint rstrip (s : string) : string :=
  match s with
  | String c t =>
      match rstrip t with
      | EmptyString => if is_space c then EmptyString else String c EmptyString
      | t' => String c t'
      end
  | EmptyString => EmptyString
  end.

Definition strip (s : string) : string := rstrip (lstrip s).

(** [d.get(key, default)]: [AttributeError] on a value that is not a
    dictionary. *)
Definition get (key : string) (default : Json.t) (d : Json.t) : Exception + Json.t :=
  match d with
  | Json.Obj members =>
      inr (match members !! key with Some v => v | None => default end)
  | _ => inl (OtherException "object has no attribute 'get'")
  end.

(** [d[key]] on a dictionary: [KeyError] when the key is missing,
    [TypeError] on a value that is not a dictionary. *)
Definition getitem (key : string) (d : Json.t) : Exception + Json.t :=
  match d with
  | Json.Obj members =>
      match members !! key with
      | Some v => inr v
      | None => inl (OtherException key)
      end
  | _ => inl (OtherException "indices must be integers or the object is not subscriptable")
  end.

Section WithServer.

(** The server object, its [data_loaded] flag, and the tool:
    [search_properties] on the arguments, followed by the formatting of the
    result into the text of the reply, or the exception raised. *)
Variable State : Type.
Variable data_loaded : State -> bool.
Variable call_tool : State -> Json.t -> (Exception + string) * State.

(** [json.loads]. *)
Variable json_loads : string -> Exception + Json.t.

(** The body of the [try] of [handle_request]. *)
Definition handle_request_body (self : State) (request : Json.t)
  : (Exception + Response) * State :=
  match get "method" (Json.Str "") request with
  | inl e => (inl e, self)
  | inr method =>
  match get "id" Json.Null request with
  | inl e => (inl e, self)
  | inr request_id =>
      if Json.is_str "initialize" method then
        (inr (Result request_id ServerInfo), self)
      else if Json.is_str "notifications/initialized" method then
        (inr SKIP_RESPONSE, self)
      else if Json.is_str "tools/list" method then
        (inr (Result request_id ToolList), self)
      else if Json.is_str "tools/call" method then
        if negb (data_loaded self) then
          (inr (Result request_id
                  (Content "Data not loaded. Please run install.py first.")), self)
        else
          match getitem "params" request with
          | inl e => (inl e, self)
          | inr params =>
          match getitem "name" params with
          | inl e => (inl e, self)
          | inr tool_name =>
          match get "arguments" (Json.Obj ∅) params with
          | inl e => (inl e, self)
          | inr arguments =>
              if Json.is_str "Madlan_MCP" tool_name then
                match call_tool self arguments with
                | (inr text, self') => (inr (Result request_id (Content text)), self')
                | (inl e, self') => (inl e, self')
                end
              else
                (inr (Error request_id (-32601) (UnknownTool tool_name)), self)
          end end end
      else
        (inr (Error request_id (-32601) (UnknownMethod method)), self)
  end end.

(** [handle_request]: the [try] and its [except Exception] handler, which
    itself reads [request.get("id")]. *)
Definition handle_request (self : State) (request : Json.t)
  : (Exception + Response) * State :=
  match handle_request_body self request with
  | (inr response, self') => (inr response, self')
  | (inl e, self') =>
      match get "id" Json.Null request with
      | inr request_id =>
          (inr (Error request_id (-32603) (InternalError (message_of e))), self')
      | inl e' => (inl e', self')
      end
  end.

(** One iteration of the loop of [main]: the responses printed for the
    line and the server afterwards. *)
Definition handle_line (server : State) (line : string) : list Response * State :=
  let line := strip line in
  if String.eqb line "" then ([], server)
  else
    match json_loads line with
    | inr request =>
        match handle_request server request with
        | (inr SKIP_RESPONSE, server') => ([], server')
        | (inr response, server') => ([response], server')
        | (inl e, server') =>
            ([Error Json.Null (-32603) (InternalError (message_of e))], server')
        end
    | inl (JSONDecodeError msg) =>
        ([Error Json.Null (-32700) (ParseError msg)], server)
    | inl (OtherException msg) =>
        ([Error Json.Null (-32603) (InternalError msg)], server)
    end.

(** [main]: the loop over the lines of standard input. *)
Fixpoint main (server : State) (stdin : list string) : list Response * State :=
  match stdin with
  | [] => ([], server)
  | line :: rest =>
      let (printed, server') := handle_line server line in
      let (printed', server'') := main server' rest in
      (printed ++ printed', server'')
  end.

End WithServer.

End Dispatcher.

(** ** Instances for running the model *)

Module Example.

(** A rational function standing for [numpy.exp] in examples: it is 1 at 0,
    monotone, and on the negative axis it bounds the exponential from
    above by [1 / (1 - x)]. *)
Definition exp_bound (x : Q) : Q :=
  if Py.ltb x 0 then 1 / (1 - x) else 1 + x.

(** Two sorts by descending score, by insertion. The first puts a row
    before the rows of equal score that follow it in the input, the second
    after them. *)
Fixpoint insert_desc (r : Listing.t) (l : list Listing.t) : list Listing.t :=
  match l with
  | [] => [r]
  | x :: rest =>
      if Py.leb (Listing.score x) (Listing.score r) then r :: l
      else x :: insert_desc r rest
  end.

Definition sort_desc (l : list Listing.t) : list Listing.t :=
  fold_right insert_desc [] l.

Fixpoint insert_desc_after (r : Listing.t) (l : list Listing.t) : list Listing.t :=
  match l with
  | [] => [r]
  | x :: rest =>
      if Py.ltb (Listing.score x) (Listing.score r) then r :: l
      else x :: insert_desc_after r rest
  end.

Definition sort_desc_ties_reversed (l : list Listing.t) : list Listing.t :=
  fold_right insert_desc_after [] l.

(** A day number (days since 1970-01-01) as a timestamp at midnight. *)
Definition day (n : Z) : Z := (n * Server.microseconds_per_day)%Z.

(** The three rows of [create_fallback_data]. *)
Definition fallback_rows : list Listing.t :=
  [ Listing.mk (Some (day 20177)) "agent" 4.0 1290000 3 100
      "חיפה" "הדר הכרמל" "הרצליה" "FLAT" "For Sale"
      true true false (Some 32.811234) (Some 34.991456)
      "בית ספר יסודי נורדאו" 0.14 "קליניקה רפואית כרמל" 0.39 None;
    Listing.mk (Some (day 20123)) "agent" 3.5 1590000 2 68
      "חיפה" "נוה פז" "שפרע" "FLAT" "For Sale"
      false true true (Some 32.790123) (Some 35.010456)
      "בית ספר יסודי נוה שאנן" 0.08 "לאומית - נוה פז" 0.12 None;
    Listing.mk (Some (day 20103)) "owner" 3.0 1750000 1 80
      "חיפה" "ואדי ניסנאס" "כורי" "FLAT" "For Sale"
      true false true (Some 32.803456) (Some 34.987890)
      "מקצועי מקס שיין" 0.05 "מכבי - הדר" 0.33 None ]%string.

Definition fallback_columns : list string :=
  [ "publish_date"; "seller_type"; "property_rooms"; "property_price";
    "property_floors"; "property_builded_area"; "city"; "neighbourhood";
    "street"; "property_type"; "transaction_type"; "bulletin_has_balconies";
    "bulletin_has_elevator"; "bulletin_has_parking"; "lat"; "lon";
    "nearest_school_name"; "nearest_school_distance_km";
    "nearest_clinic_name"; "nearest_clinic_distance_km" ]%string.

Definition fallback_data : DataFrame.t := DataFrame.mk fallback_columns fallback_rows.

(** A server whose dataset is the only object of the store. *)
Definition self : Server.t := Server.mk true 1%positive.
Definition store_of (d : DataFrame.t) : gmap Store.ref DataFrame.t := {[ 1%positive := d ]}.

(** Two listings for the score: the first is cheaper, larger, newer and
    has every feature, but is 1.5 km from a school; the second is 50 m
    from one. *)
Definition cheap_far : Listing.t :=
  Listing.mk (Some (day 19840)) "owner" 4.0 1000000 2 100
    "חיפה" "הדר הכרמל" "הרצליה" "FLAT" "For Sale"
    true true true (Some 32.811234) (Some 34.991456)
    "תיכון רמב״ם" 1.5 "מכבי - הדר" 0.4 None.

Definition dear_near : Listing.t :=
  Listing.mk (Some (day 19740)) "agent" 2.0 2000000 1 50
    "חיפה" "נוה פז" "שפרע" "FLAT" "For Sale"
    false false false (Some 32.790123) (Some 35.010456)
    "בית ספר יסודי הדר" 0.05 "לאומית - נוה פז" 0.1 None.

Definition two_listings : DataFrame.t :=
  DataFrame.mk fallback_columns [cheap_far; dear_near].

(** A server without state whose tool always answers, and a decoder that
    knows two lines and rejects every other. *)
Definition constant_tool (self : unit) (arguments : Json.t)
  : (Dispatcher.Exception + string) * unit :=
  (inr "Found 0 properties"%string, self).

Definition two_line_decoder (line : string) : Dispatcher.Exception + Json.t :=
  if String.eqb line "{}" then inr (Json.Obj ∅)
  else if String.eqb line "[]" then inr (Json.Arr [])
  else inl (Dispatcher.JSONDecodeError "Expecting value: line 1 column 1 (char 0)").

(** Two listings that differ in their street only. *)
Definition twin (street : string) : Listing.t :=
  Listing.mk (Some (day 20177)) "agent" 4.0 1290000 3 100
    "חיפה" "הדר הכרמל" street "FLAT" "For Sale"
    true true false (Some 32.811234) (Some 34.991456)
    "בית ספר יסודי נורדאו" 0.14 "קליניקה רפואית כרמל" 0.39 None.

Definition twins : DataFrame.t :=
  DataFrame.mk fallback_columns [twin "Herzliya 1"; twin "Herzliya 2"].

(** Noon of 2025-06-01. *)
Definition noon_2025_06_01 : Z := (day 20240 + 43200000000)%Z.

End Example.

(** ** get_nearest_amenities *)

Module Amenities.

(** [round(x, ndigits)]: ties to even. *)
Definition round_ndigits (x : Q) (ndigits : nat) : Q :=
  Py.round_half_even (x * inject_Z (10 ^ Z.of_nat ndigits))
  # Z.to_pos (10 ^ Z.of_nat ndigits).

(** [l[:n]]: the first [n] items; for a negative [n], all but the last
    [-n]. *)
Definition slice_to {A} (n : Z) (l : list A) : list A :=
  if (0 <=? n)%Z then firstn (Z.to_nat n) l
  else firstn (length l - Z.to_nat (- n)) l.

(** The travel-time formulas of the loop body, as functions of
    [distance_km]; the walking time is [Proximity.walk_time_minutes]. *)
Definition distance_meters (distance_km : Q) : Z := Py.int (distance_km * 1000).

Definition base_drive_speed_kmh : Q := 22.

Definition drive_time_minutes (distance_km : Q) : Z :=
  let drive_time_minutes :=
    Z.max 2 (Py.int ((distance_km / base_drive_speed_kmh) * 60)) in
  if Py.ltb 0.8 distance_km then
    let traffic_penalty := Py.int (distance_km * 2) in
    (drive_time_minutes + traffic_penalty)%Z
  else drive_time_minutes.

(** [None] is Python's [None]: no public transport estimate. *)
Definition public_transport_time (distance_km : Q) : option Z :=
  if Py.ltb 1.5 distance_km then
    let wait_time := 10%Z in
    let bus_speed_kmh : Q := 18 in
    let bus_travel_time := Py.int ((distance_km / bus_speed_kmh) * 60) in
    let walk_to_stop_time := 6%Z in
    Some (wait_time + bus_travel_time + walk_to_stop_time)%Z
  else None.

Definition accessibility_rating (distance_km : Q) : string :=
  if Py.ltb distance_km 0.3 then "Excellent - Very close"
  else if Py.ltb distance_km 0.8 then "Very Good - Walking distance"
  else if Py.ltb distance_km 1.5 then "Good - Short commute"
  else "Fair - Longer commute".

(** The walking time of the comparison section of
    [format_desktop_optimized] ("Closest to schools", "Closest to medical
    facilities"). *)
Definition closest_walk_time (closest_distance : Q) : Z :=
  (Z.max 1 (Py.int ((closest_distance / 4.5) * 60)) + Py.int (closest_distance * 3))%Z.

(** An entry of [AMENITY_DATA]. *)
Record Amenity := mkAmenity {
  name : string;
  lat : Q;
  lon : Q;
  address : string;
  website : string;
  phone : string;
  type : string
}.

(** An entry of the list returned by [get_nearest_amenities]. *)
Record AmenityInfo := mkInfo {
  info_name : string;
  info_address : string;
  info_website : string;
  info_phone : string;
  info_type : string;
  distance_km : Q;
  info_distance_meters : Z;
  walk_time_min : Z;
  drive_time_min : Z;
  public_transport_min : option Z;
  info_accessibility_rating : string
}.

Definition AMENITY_DATA : list (string * list Amenity) :=
  [ ("schools",
     [ mkAmenity "בית ספר יסודי הדר" 32.805123 34.985234
         "רחוב הרצל 15, הדר, חיפה" "www.education.gov.il/hadar-elementary"
         "04-8234567" "Elementary School";
       mkAmenity "בית ספר יסודי נורדאו" 32.812345 34.991234
         "רחוב נורדאו 28, כרמל מרכז, חיפה" "www.nordau-school.org.il"
         "04-8345678" "Elementary School";
       mkAmenity "בית ספר יסודי גבעת האונס" 32.820567 35.000123
         "רחוב האונס 42, גבעת האונס, חיפה" "www.givat-haons-school.co.il"
         "04-8456789" "Elementary School";
       mkAmenity "תיכון לאמנויות" 32.815678 35.005789
         "רחוב הציונות 18, כרמל, חיפה" "www.arts-highschool-haifa.org.il"
         "04-8567890" "Arts High School";
       mkAmenity "תיכון רמב״ם" 32.800234 34.995678
         "רחוב רמב״ם 33, הדר העליון, חיפה" "www.rambam-high.edu.il"
         "04-8678901" "Academic High School";
       mkAmenity "מקצועי מקס שיין" 32.809876 34.985432
         "רחוב מקס שיין 5, הדר, חיפה" "www.max-shein-tech.org.il"
         "04-8890123" "Vocational High School" ]);
    ("medical",
     [ mkAmenity "מכבי שירותי בריאות - הדר" 32.805000 34.985000
         "רחוב הרצל 45, הדר, חיפה" "www.maccabi4u.co.il"
         "04-8111222" "General Clinic";
       mkAmenity "כללית - רמת ויזניץ" 32.785123 34.995678
         "רחוב ויזניץ 12, רמת ויזניץ, חיפה" "www.clalit.co.il"
         "04-8222333" "General Clinic";
       mkAmenity "לאומית - נוה פז" 32.790000 35.010000
         "רחוב פז 8, נוה פז, חיפה" "www.leumit.co.il"
         "04-8333444" "General Clinic";
       mkAmenity "קליניקה רפואית כרמל" 32.812000 34.995000
         "רחוב יפה נוף 14, כרמל, חיפה" "www.carmel-clinic.co.il"
         "04-8555666" "Private Clinic" ]);
    ("transport",
     [ mkAmenity "תחנת אוטובוס מרכזית חיפה" 32.809876 34.985432
         "רחוב יפו 142, הדר, חיפה" "www.egged.co.il"
         "04-8666777" "Central Bus Station";
       mkAmenity "רכבת ישראל - חיפה מרכז" 32.815234 34.999123
         "כיכר פלומר, כרמל מרכז, חיפה" "www.rail.co.il"
         "04-8777888" "Train Station";
       mkAmenity "מטרונית - כרמלית" 32.818901 34.998234
         "כיכר פריס, כרמל מרכז, חיפה" "www.carmelit.co.il"
         "04-8888999" "Underground Metro" ]) ]%string.

(** [AMENITY_DATA.get(amenity_type, [])]. *)
Fixpoint get_or_empty (data : list (string * list Amenity)) (amenity_type : string)
  : list Amenity :=
  match data with
  | [] => []
  | (k, v) :: rest => if String.eqb k amenity_type then v else get_or_empty rest amenity_type
  end.

(** [list.sort(key=lambda x: x['distance_km'])]: ascending and stable, by
    insertion from the right. *)
Fixpoint insert_by_distance (x : AmenityInfo) (l : list AmenityInfo) : list AmenityInfo :=
  match l with
  | [] => [x]
  | y :: rest =>
      if Py.leb (distance_km x) (distance_km y) then x :: l
      else y :: insert_by_distance x rest
  end.

Definition sort_by_distance (l : list AmenityInfo) : list AmenityInfo :=
  fold_right insert_by_distance [] l.

Section WithGeodesic.

(** [geodesic(a, b).kilometers]. *)
Variable geodesic_km : Q * Q -> Q * Q -> Q.

(** The body of the loop: the entry built for one amenity. *)
Definition amenity_info (property_coords : Q * Q) (amenity : Amenity) : AmenityInfo :=
  let amenity_coords := (lat amenity, lon amenity) in
  let distance_km := geodesic_km property_coords amenity_coords in
  mkInfo (name amenity) (address amenity) (website amenity) (phone amenity)
    (type amenity)
    (round_ndigits distance_km 3)
    (distance_meters distance_km)
    (Proximity.walk_time_minutes distance_km)
    (drive_time_minutes distance_km)
    (public_transport_time distance_km)
    (accessibility_rating distance_km).

Definition get_nearest_amenities (property_coords : Q * Q) (amenity_type : string)
    (limit : Z) : list AmenityInfo :=
  let amenities := get_or_empty AMENITY_DATA amenity_type in
  let amenity_distances := List.map (amenity_info property_coords) amenities in
  slice_to limit (sort_by_distance amenity_distances).

End WithGeodesic.

End Amenities.

(** ** The helpers of the report *)

Module Report.

Definition get_score_level (score : Q) : string :=
  if Py.leb 80 score then "Excellent Match"
  else if Py.leb 70 score then "Good Match"
  else if Py.leb 50 score then "Fair Match"
  else "Basic Match".

(** The loop over [results.get('filters', [])]: the last description that
    mentions a transaction type decides. *)
Definition current_transaction (filters : list string) : option string :=
  fold_left
    (fun current_transaction filter_desc =>
       if Str.contains "For Sale" filter_desc then Some "For Sale"%string
       else if Str.contains "To Let" filter_desc then Some "To Let"%string
       else current_transaction)
    filters None.

Definition transaction_suggestions (current_transaction : option string) : list string :=
  let equals value :=
    match current_transaction with Some t => String.eqb t value | None => false end in
  if equals "For Sale"%string then
    ["Switch to rental properties (To Let) in the same area"]%string
  else if equals "To Let"%string then
    ["Switch to properties for sale in the same area"]%string
  else
    ["Filter by transaction type (For Sale vs To Let)";
     "Compare rental vs purchase options"]%string.

Definition school_suggestions : list string :=
  ["Refine search by specific school distance (e.g., within 500m of a particular school)";
   "Filter by school type (elementary vs high school vs vocational)";
   "Show only properties near top-rated schools"]%string.

Definition medical_suggestions : list string :=
  ["Filter by health fund provider (Clalit, Maccabi, Leumit)";
   "Show properties near hospitals vs clinics";
   "Find properties near specialized medical centers"]%string.

Definition transport_suggestions : list string :=
  ["Focus on train station proximity vs bus access";
   "Show properties near multiple transport options"]%string.

Definition few_results_suggestions : list string :=
  ["Expand budget range to see more options";
   "Include additional neighborhoods in search";
   "Reduce minimum room requirements"]%string.

Definition many_results_suggestions : list string :=
  ["Narrow search with additional filters";
   "Focus on top 3 properties for detailed comparison"]%string.

(** The suggestions under the comment "Always include these". *)
Definition general_suggestions : list string :=
  ["Sort results by different criteria (price, distance, area)";
   "Get detailed market analysis for this area";
   "Compare specific properties side-by-side";
   "Analyze neighborhood trends and pricing history";
   "Search in different neighborhoods with similar criteria"]%string.

(** [results] enters through its [filters] and its [properties];
    [search_params] is not used by the function. *)
Definition get_enhanced_suggestions (filters : list string) (properties : list Listing.t)
    (mentioned_amenities : list string) : list string :=
  let suggestions := [] in
  let suggestions := suggestions ++ transaction_suggestions (current_transaction filters) in
  let suggestions :=
    if Intent.mentions "schools" mentioned_amenities
    then suggestions ++ school_suggestions else suggestions in
  let suggestions :=
    if Intent.mentions "medical" mentioned_amenities
    then suggestions ++ medical_suggestions else suggestions in
  let suggestions :=
    if Intent.mentions "transport" mentioned_amenities
    then suggestions ++ transport_suggestions else suggestions in
  let suggestions :=
    if (length properties <? 5)%nat
    then suggestions ++ few_results_suggestions else suggestions in
  let suggestions :=
    if (8 <? length properties)%nat
    then suggestions ++ many_results_suggestions else suggestions in
  let suggestions := suggestions ++ general_suggestions in
  firstn 8 suggestions.

(** The suggestions that [format_desktop_optimized] prints:
    [suggestions[:6]]. *)
Definition printed_suggestions (filters : list string) (properties : list Listing.t)
    (mentioned_amenities : list string) : list string :=
  firstn 6 (get_enhanced_suggestions filters properties mentioned_amenities).

End Report.

(** ** calculate_nearest_facilities *)

Module Facilities.

Definition HAIFA_SCHOOLS : list (string * (Q * Q)) :=
  [ ("בית ספר יסודי הדר", (32.805123, 34.985234));
    ("בית ספר יסודי נורדאו", (32.812345, 34.991234));
    ("תיכון רמב״ם", (32.800234, 34.995678));
    ("תיכון לאמנויות", (32.815678, 35.005789)) ]%string.

Definition HAIFA_CLINICS : list (string * (Q * Q)) :=
  [ ("מכבי - הדר", (32.805000, 34.985000));
    ("כללית - רמת ויזניץ", (32.785123, 34.995678));
    ("לאומית - נוה פז", (32.790000, 35.010000)) ]%string.

(** [min(l, key=lambda x: x['distance_km'])]: the first entry of the
    smallest distance; [None] stands for the empty list, on which the
    code does not call [min]. *)
Definition min_by_distance (l : list (string * Q)) : option (string * Q) :=
  match l with
  | [] => None
  | x :: rest =>
      Some (fold_left (fun best y => if Py.ltb (snd y) (snd best) then y else best)
                      rest x)
  end.

(** The row with the four facility cells set. *)
Definition with_facilities (school_name : string) (school_km : Q)
    (clinic_name : string) (clinic_km : Q) (r : Listing.t) : Listing.t :=
  Listing.mk (Listing.publish_date r) (Listing.seller_type r) (Listing.property_rooms r)
    (Listing.property_price r) (Listing.property_floors r)
    (Listing.property_builded_area r) (Listing.city r) (Listing.neighbourhood r)
    (Listing.street r) (Listing.property_type r) (Listing.transaction_type r)
    (Listing.bulletin_has_balconies r) (Listing.bulletin_has_elevator r)
    (Listing.bulletin_has_parking r) (Listing.lat r) (Listing.lon r)
    school_name school_km clinic_name clinic_km (Listing.madlan_match_score r).

(** [df[col] = value] on the labels: a new column goes last. *)
Definition add_column (col : string) (columns : list string) : list string :=
  if existsb (String.eqb col) columns then columns else columns ++ [col].

Section WithGeodesic.

(** [geodesic(a, b).kilometers]. *)
Variable geodesic_km : Q * Q -> Q * Q -> Q.

Definition distances_from (property_coords : Q * Q) (facilities : list (string * (Q * Q)))
  : list (string * Q) :=
  List.map (fun facility => (fst facility, geodesic_km property_coords (snd facility)))
           facilities.

(** What the function leaves in one row: the cells start at ['Unknown']
    and [999.0], and the body of the loop fills them for a row that has
    both coordinates. *)
Definition calculate_row (property_row : Listing.t) : Listing.t :=
  let unknown := with_facilities "Unknown" 999.0 "Unknown" 999.0 property_row in
  match Listing.lat property_row, Listing.lon property_row with
  | Some prop_lat, Some prop_lon =>
      let property_coords := (prop_lat, prop_lon) in
      let school_distances := distances_from property_coords HAIFA_SCHOOLS in
      let row :=
        match min_by_distance school_distances with
        | Some nearest_school =>
            with_facilities (fst nearest_school)
              (Amenities.round_ndigits (snd nearest_school) 2)
              (Listing.nearest_clinic_name unknown)
              (Listing.nearest_clinic_distance_km unknown) unknown
        | None => unknown
        end in
      let clinic_distances := distances_from property_coords HAIFA_CLINICS in
      match min_by_distance clinic_distances with
      | Some nearest_clinic =>
          with_facilities (Listing.nearest_school_name row)
            (Listing.nearest_school_distance_km row)
            (fst nearest_clinic) (Amenities.round_ndigits (snd nearest_clinic) 2) row
      | None => row
      end
  | _, _ => unknown
  end.

(** The frame behind [self.properties_df] after the call. *)
Definition calculate_nearest_facilities (df : DataFrame.t) : DataFrame.t :=
  DataFrame.mk
    (add_column "nearest_clinic_distance_km"
       (add_column "nearest_clinic_name"
          (add_column "nearest_school_distance_km"
             (add_column "nearest_school_name" (DataFrame.columns df)))))
    (List.map calculate_row (DataFrame.rows df)).

End WithGeodesic.

End Facilities.

(** ** The installer: geocoding *)

Module Geocode.

(** The three queries tried in turn. *)
Definition search_queries (street neighborhood city country : string) : list string :=
  [ street ++ ", " ++ neighborhood ++ ", " ++ city ++ ", " ++ country;
    street ++ ", " ++ city ++ ", " ++ country;
    neighborhood ++ ", " ++ city ++ ", " ++ country ]%string.

Definition base_lat : Q := 32.794046.
Definition base_lon : Q := 34.989571.

Section WithNominatim.

(** One request: the [lat], [lon] and [importance] (0.5 when absent) of
    the first result as floats, or [None] when the request or a
    conversion raises or no result comes back. *)
Variable nominatim : string -> option (Q * Q * Q).

(** The two draws of [random.uniform(-0.05, 0.05)]. *)
Variable uniform_lat uniform_lon : Q.

Fixpoint first_result (queries : list string) : option (Q * Q * Q) :=
  match queries with
  | [] => None
  | query :: rest =>
      match nominatim query with
      | Some (lat, lon, confidence) =>
          Some (Amenities.round_ndigits lat 6, Amenities.round_ndigits lon 6, confidence)
      | None => first_result rest
      end
  end.

Definition geocode_with_nominatim (street neighborhood city country : string)
  : Q * Q * Q :=
  match first_result (search_queries street neighborhood city country) with
  | Some found => found
  | None =>
      let lat := Amenities.round_ndigits (base_lat + uniform_lat) 6 in
      let lon := Amenities.round_ndigits (base_lon + uniform_lon) 6 in
      (lat, lon, 0.1)
  end.

End WithNominatim.

End Geocode.

(** ** The installer: finding Python *)

Module Installer.

Definition python_commands : list string := ["python3"; "python"; "py"]%string.

Section WithSubprocess.

(** [cmd --version]: the major and minor numbers it prints, or [None]
    when the command cannot be run, exits with an error, or prints
    something else. *)
Variable version_of : string -> option (Z * Z).

(** The loop of [detect_python] over the commands. *)
Fixpoint detect_python_among (commands : list string)
  : option string * option (Z * Z) * bool :=
  match commands with
  | [] => (None, None, false)
  | cmd :: rest =>
      match version_of cmd with
      | Some (major, minor) =>
          if (3 <=? major)%Z && (8 <=? minor)%Z
          then (Some cmd, Some (major, minor), true)
          else (Some cmd, Some (major, minor), false)
      | None => detect_python_among rest
      end
  end.

Definition detect_python : option string * option (Z * Z) * bool :=
  detect_python_among python_commands.

End WithSubprocess.

End Installer.

(** ** Instances for the amenities and the facilities *)

Module Samples.

(** A stand-in for [geodesic(a, b).kilometers] on nearby points: the
    taxicab distance at 100 km per degree. *)
Definition taxicab_km (a b : Q * Q) : Q :=
  (Py.max (fst a - fst b) (fst b - fst a) + Py.max (snd a - snd b) (snd b - snd a)) * 100.

(** A listing whose address could not be placed. *)
Definition unplaced : Listing.t :=
  Listing.mk (Some (Example.day 20177)) "agent" 4.0 1290000 3 100
    "חיפה" "הדר הכרמל" "הרצליה" "FLAT" "For Sale"
    true true false None None "" 0 "" 0 None.

(** The fallback rows and the unplaced listing, before the facility
    columns are computed. *)
Definition raw_data : DataFrame.t :=
  DataFrame.mk Example.fallback_columns (Example.fallback_rows ++ [unplaced]).

(** A geocoder that knows no address. *)
Definition no_answer (query : string) : option (Q * Q * Q) := None.

End Samples.

(** * Properties *)

(** ** Numerics *)

Lemma ltb_lt (x y : Q) : Py.ltb x y = true <-> x < y.
Proof.
  unfold Py.ltb. rewrite negb_true_iff.
  destruct (Qle_bool y x) eqn:E.
  - apply Qle_bool_iff in E. split; [discriminate | intros H; lra].
  - split; [intros _ | reflexivity].
    apply Qnot_le_lt. intros H. apply Qle_bool_iff in H. congruence.
Qed.

Lemma ltb_ge (x y : Q) : Py.ltb x y = false <-> y <= x.
Proof.
  unfold Py.ltb. rewrite negb_false_iff. apply Qle_bool_iff.
Qed.

Lemma int_nonneg_floor (x : Q) : 0 <= x -> Py.int x = Qfloor x.
Proof.
  destruct x as [n d]. unfold Qle, Py.int, Qfloor. simpl.
  intros H. rewrite Z.mul_1_r in H.
  apply Z.quot_div_nonneg; lia.
Qed.

Lemma int_nonpos_ceiling (x : Q) : x <= 0 -> Py.int x = Qceiling x.
Proof.
  destruct x as [n d]. unfold Qle, Py.int, Qceiling, Qfloor. simpl.
  intros H. rewrite Z.mul_1_r in H.
  rewrite <- (Z.opp_involutive n) at 1.
  rewrite Z.quot_opp_l by lia.
  f_equal. apply Z.quot_div_nonneg; lia.
Qed.


Lemma div_nonneg (x y : Q) : 0 <= x -> 0 < y -> 0 <= x / y.
Proof.
  intros Hx Hy. apply Qle_shift_div_l; [exact Hy | lra].
Qed.


(** ** Transaction type from the price *)

(** C8: a price below 100,000 is classified [To Let], a price of 100,000 or
    more [For Sale]; so 1,500,000 is [For Sale], 8,000 is [To Let] and
    exactly 100,000 is [For Sale]. *)
Theorem classify_transaction_type_threshold :
  (forall price : Q,
      (price < 100000 -> Install.classify_transaction_type price = "To Let"%string) /\
      (100000 <= price -> Install.classify_transaction_type price = "For Sale"%string)) /\
  Install.classify_transaction_type 1500000 = "For Sale"%string /\
  Install.classify_transaction_type 8000 = "To Let"%string /\
  Install.classify_transaction_type 100000 = "For Sale"%string.
Proof.
  split; [| repeat split; reflexivity].
  intros price. unfold Install.classify_transaction_type. split; intros H.
  - apply ltb_lt in H. rewrite H. reflexivity.
  - apply ltb_ge in H. rewrite H. reflexivity.
Qed.

Lemma classify_transaction_type_threshold_witness :
  Install.classify_transaction_type 99999 = "To Let"%string /\
  Install.classify_transaction_type 250000 = "For Sale"%string.
Proof.
  split.
  - apply (proj1 (proj1 classify_transaction_type_threshold 99999)). reflexivity.
  - apply (proj2 (proj1 classify_transaction_type_threshold 250000)).
    unfold Qle. simpl. lia.
Defined.

(** ** Walking time *)

Lemma walk_minutes_nonneg (d : Q) :
  0 <= d -> 0 <= d / Proximity.base_walk_speed_kmh * 60.
Proof.
  intros H. assert (0 <= d / Proximity.base_walk_speed_kmh).
  { apply div_nonneg; [exact H | reflexivity]. }
  lra.
Qed.




(** ** Price per square metre *)



(** ** The store: rules for the triples *)

Section StoreRules.

Implicit Types (h : gmap Store.ref DataFrame.t) (r : Store.ref) (d : DataFrame.t).

Lemma triple_bind {A B} (m : Store.M A) (k : A -> Store.M B) P Q R :
  Store.triple P m Q ->
  (forall a, Store.triple (Q a) (k a) R) ->
  Store.triple P (m ≫= k) R.
Proof.
  intros Hm Hk h HP. specialize (Hm h HP).
  unfold mbind, store_bind, Store.bind.
  destruct (m h) as [a h'] eqn:E. simpl in Hm.
  apply (Hk a h' Hm).
Qed.

Lemma triple_weaken {A} (m : Store.M A) (P P' : gmap Store.ref DataFrame.t -> Prop) Q :
  (forall h, P' h -> P h) -> Store.triple P m Q -> Store.triple P' m Q.
Proof. intros HP Hm h H. apply Hm, HP, H. Qed.

(** Reading a request-local object returns its frame. *)
Lemma triple_read_local h0 r d :
  Store.triple (Store.request_local h0 r d) (Store.read r)
    (fun a h => a = d /\ Store.request_local h0 r d h).
Proof.
  intros h (Hsub & Hnew & Hr). unfold Store.read. simpl.
  rewrite Hr. repeat split; assumption.
Qed.

(** A new object is request-local. *)
Lemma triple_alloc h0 d (P : gmap Store.ref DataFrame.t -> Prop) :
  (forall h, P h -> h0 ⊆ h) ->
  Store.triple P (Store.alloc d) (fun r h => Store.request_local h0 r d h).
Proof.
  intros Hsub h HP. unfold Store.alloc. simpl.
  assert (Hfresh : h !! fresh (dom h) = None).
  { apply not_elem_of_dom, is_fresh. }
  split; [| split].
  - transitivity h; [apply Hsub, HP | apply insert_subseteq, Hfresh].
  - destruct (h0 !! fresh (dom h)) eqn:E; [| reflexivity].
    rewrite (lookup_weaken h0 h _ _ E (Hsub h HP)) in Hfresh. discriminate.
  - apply lookup_insert_eq.
Qed.

(** An update in place of a request-local object leaves the initial store
    as it was. *)
Lemma triple_modify h0 r d (f : DataFrame.t -> DataFrame.t) :
  Store.triple (Store.request_local h0 r d) (Store.modify r f)
    (fun _ h => Store.request_local h0 r (f d) h).
Proof.
  intros h (Hsub & Hnew & Hr). unfold Store.modify. simpl.
  rewrite Hr. simpl. split; [| split].
  - apply insert_subseteq_r; assumption.
  - exact Hnew.
  - apply lookup_insert_eq.
Qed.

Lemma request_local_sub h0 r d h : Store.request_local h0 r d h -> h0 ⊆ h.
Proof. intros (H & _). exact H. Qed.

End StoreRules.

(** ** search_properties on the store *)

Section SearchRun.

Variable np_exp : Q -> Q.
Variable sort_values : list Listing.t -> list Listing.t.
Variable now : Z.

Abbreviation search_properties := (Server.search_properties np_exp sort_values now).
Abbreviation search_result := (Server.search_result np_exp sort_values now).

(** One filter block: a new object holds the narrowed frame, or the state
    is unchanged. *)
Lemma filter_step_triple h0 (s : Server.Step) r fs d :
  Store.triple (Store.request_local h0 r d) (Server.filter_step s (r, fs))
    (fun st h =>
       Store.request_local h0 (fst st) (fst (Server.apply_step s (d, fs))) h /\
       snd st = snd (Server.apply_step s (d, fs))).
Proof.
  unfold Server.filter_step, Server.apply_step. simpl.
  eapply triple_bind; [apply triple_read_local |].
  intros a. cbv beta.
  destruct (Server.step_cond s d) eqn:Hc.
  - intros h [-> Hl]. rewrite Hc.
    pose proof (triple_alloc h0 (DataFrame.select (Server.step_mask s) d)
                  (Store.request_local h0 r d) (request_local_sub h0 r d) h Hl) as Ha.
    unfold mbind, store_bind, Store.bind.
    destruct (Store.alloc (DataFrame.select (Server.step_mask s) d) h) as [r' h'] eqn:E.
    simpl in *. split; [exact Ha | reflexivity].
  - intros h [-> Hl]. rewrite Hc. simpl. split; [exact Hl | reflexivity].
Qed.

Lemma triple_pure_r {A} (phi : Prop) (P : gmap Store.ref DataFrame.t -> Prop)
    (m : Store.M A) Q :
  (phi -> Store.triple P m Q) -> Store.triple (fun h => P h /\ phi) m Q.
Proof. intros H h [HP Hphi]. apply (H Hphi h HP). Qed.

(** The same, on a state given as a pair and with the frame and the
    descriptions kept together. *)
Lemma filter_step_chain h0 (s : Server.Step) (cur : DataFrame.t * list Server.FilterDesc) :
  forall st,
    Store.triple
      (fun h => Store.request_local h0 (fst st) (fst cur) h /\ snd st = snd cur)
      (Server.filter_step s st)
      (fun st' h =>
         Store.request_local h0 (fst st') (fst (Server.apply_step s cur)) h /\
         snd st' = snd (Server.apply_step s cur)).
Proof.
  intros [r fs] h [Hl Hfs]. simpl in Hl, Hfs. subst fs.
  destruct cur as [d fs]. apply (filter_step_triple h0 s r fs d h Hl).
Qed.

(** Reading an object whose frame is known. *)
Lemma triple_read_bind {B} r (d : DataFrame.t) (k : DataFrame.t -> Store.M B)
    (P : gmap Store.ref DataFrame.t -> Prop) R :
  (forall h, P h -> h !! r = Some d) ->
  Store.triple P (k d) R ->
  Store.triple P (Store.read r ≫= k) R.
Proof.
  intros Hr Hk h HP. unfold mbind, store_bind, Store.bind, Store.read.
  rewrite (Hr h HP). simpl. apply (Hk h HP).
Qed.

Lemma request_local_lookup h0 r d h : Store.request_local h0 r d h -> h !! r = Some d.
Proof. intros (_ & _ & H). exact H. Qed.

Lemma request_local_shared h0 r d r0 d0 h :
  h0 !! r0 = Some d0 -> Store.request_local h0 r d h -> h !! r0 = Some d0.
Proof. intros H0 (Hsub & _). apply (lookup_weaken h0 h r0 d0 H0 Hsub). Qed.

Lemma search_properties_triple (self : Server.t) (kwargs : Kwargs.t)
    (h0 : gmap Store.ref DataFrame.t) (d0 : DataFrame.t) :
  h0 !! Server.properties_df self = Some d0 ->
  Store.triple (fun h => h0 ⊆ h) (search_properties self kwargs)
    (fun res h => res = search_result kwargs d0 /\ h0 ⊆ h).
Proof.
  intros H0. unfold Server.search_properties.
  apply (triple_read_bind _ d0); [intros h Hsub; apply (lookup_weaken h0 h _ _ H0 Hsub) |].
  eapply triple_bind; [apply (triple_alloc h0 d0); auto |].
  intros df.
  eapply triple_bind; [apply triple_modify |].
  intros ?u.
  eapply triple_bind.
  { eapply triple_weaken; [| apply (filter_step_chain h0 _ (DataFrame.fix_boolean_cols d0, []))].
    intros h Hl. split; [exact Hl | reflexivity]. }
  do 9 (intros ?st; eapply triple_bind; [apply filter_step_chain |]).
  intros stf. cbv zeta beta.
  fold (Server.after_transaction kwargs d0).
  fold (Server.candidates kwargs d0).
  set (cf := Server.candidates kwargs d0).
  apply triple_pure_r. intros Hfs.
  apply (triple_read_bind _ (fst cf)); [intros h; apply request_local_lookup |].
  apply (triple_read_bind _ d0); [intros h; apply request_local_shared, H0 |].
  eapply triple_bind; [apply triple_modify |].
  intros ?u.
  eapply triple_read_bind; [intros h; apply request_local_lookup |].
  eapply triple_bind; [apply (triple_alloc h0); intros h; apply request_local_sub |].
  intros df1.
  eapply triple_read_bind; [intros h; apply request_local_lookup |].
  eapply triple_bind; [apply (triple_alloc h0); intros h; apply request_local_sub |].
  intros df2.
  eapply triple_read_bind; [intros h; apply request_local_lookup |].
  intros h Hl. simpl. split; [| apply (request_local_sub _ _ _ _ Hl)].
  unfold Server.search_result. fold cf. rewrite Hfs. reflexivity.
Qed.

(** [search_properties] returns [search_result] of the frame behind
    [self.properties_df], and every object of the initial store is
    unchanged in the final one. *)
Lemma search_properties_run (self : Server.t) (kwargs : Kwargs.t)
    (h0 : gmap Store.ref DataFrame.t) (d0 : DataFrame.t) :
  h0 !! Server.properties_df self = Some d0 ->
  fst (search_properties self kwargs h0) = search_result kwargs d0 /\
  h0 ⊆ snd (search_properties self kwargs h0).
Proof.
  intros H0. apply (search_properties_triple self kwargs h0 d0 H0 h0). reflexivity.
Qed.

End SearchRun.

(** ** Frames and filter blocks *)

Lemma assign_scores_map (f : Listing.t -> Q) (rs : list Listing.t) :
  DataFrame.assign_scores (List.map f rs) rs
  = List.map (fun r => Listing.with_score (f r) r) rs.
Proof.
  induction rs as [| r rs IH]; simpl; [reflexivity |].
  rewrite IH. reflexivity.
Qed.

Lemma firstn_incl {A} (n : nat) (l : list A) : incl (firstn n l) l.
Proof.
  intros x Hx. rewrite <- (firstn_skipn n l). apply in_or_app. left. exact Hx.
Qed.

Lemma head_incl (n : Z) (d : DataFrame.t) :
  incl (DataFrame.rows (DataFrame.head n d)) (DataFrame.rows d).
Proof.
  unfold DataFrame.head. simpl.
  destruct (0 <=? n)%Z; apply firstn_incl.
Qed.

Lemma apply_step_rows_incl (s : Server.Step) (st : DataFrame.t * list Server.FilterDesc) :
  incl (DataFrame.rows (fst (Server.apply_step s st))) (DataFrame.rows (fst st)).
Proof.
  unfold Server.apply_step. destruct (Server.step_cond s (fst st)); simpl.
  - intros r Hr. apply filter_In in Hr. tauto.
  - apply incl_refl.
Qed.


(** A block that runs leaves only rows that satisfy its mask. *)
Lemma apply_step_mask (s : Server.Step) (st : DataFrame.t * list Server.FilterDesc)
    (r : Listing.t) :
  Server.step_cond s (fst st) = true ->
  In r (DataFrame.rows (fst (Server.apply_step s st))) ->
  Server.step_mask s r = true.
Proof.
  unfold Server.apply_step. intros ->. simpl. intros Hr.
  apply filter_In in Hr. tauto.
Qed.


Lemma fix_boolean_id (b : bool) : Listing.fix_boolean b = b.
Proof. destruct b; reflexivity. Qed.

Lemma fix_boolean_cols_id (d : DataFrame.t) : DataFrame.fix_boolean_cols d = d.
Proof.
  destruct d as [cols rs]. unfold DataFrame.fix_boolean_cols. simpl. f_equal.
  generalize (DataFrame.has_column "bulletin_has_parking" (DataFrame.mk cols rs))
             (DataFrame.has_column "bulletin_has_elevator" (DataFrame.mk cols rs))
             (DataFrame.has_column "bulletin_has_balconies" (DataFrame.mk cols rs)).
  intros p e b. induction rs as [| r rs IH]; simpl; [reflexivity |].
  rewrite IH. f_equal. destruct r. unfold Listing.fix_boolean_cols. simpl.
  repeat rewrite fix_boolean_id. destruct p, e, b; reflexivity.
Qed.

(** The rows that survive all the blocks are rows of the frame after the
    transaction-type blocks, and those are rows of the dataset. *)
Lemma candidates_incl_after_transaction (kwargs : Kwargs.t) (d : DataFrame.t) :
  incl (DataFrame.rows (fst (Server.candidates kwargs d)))
       (DataFrame.rows (fst (Server.after_transaction kwargs d))).
Proof.
  unfold Server.candidates.
  do 8 (eapply incl_tran; [apply apply_step_rows_incl |]).
  apply incl_refl.
Qed.

Lemma after_transaction_incl (kwargs : Kwargs.t) (d : DataFrame.t) :
  incl (DataFrame.rows (fst (Server.after_transaction kwargs d))) (DataFrame.rows d).
Proof.
  unfold Server.after_transaction.
  do 2 (eapply incl_tran; [apply apply_step_rows_incl |]).
  rewrite fix_boolean_cols_id. apply incl_refl.
Qed.

Lemma candidates_incl (kwargs : Kwargs.t) (d : DataFrame.t) :
  incl (DataFrame.rows (fst (Server.candidates kwargs d))) (DataFrame.rows d).
Proof.
  eapply incl_tran;
    [apply candidates_incl_after_transaction | apply after_transaction_incl].
Qed.







Section SearchClaims.

Variable np_exp : Q -> Q.
Variable sort_values : list Listing.t -> list Listing.t.
Variable now : Z.

(** What the library promises of [sort_values]: the rows are rearranged,
    none is added, dropped or changed. *)
Hypothesis sort_values_perm : forall l, Permutation l (sort_values l).

Abbreviation search_properties := (Server.search_properties np_exp sort_values now).
Abbreviation calculate_madlan_match_score :=
  (Server.calculate_madlan_match_score np_exp now).
Abbreviation scored := (Server.scored np_exp now).
Abbreviation page_of := (Server.page_of np_exp sort_values now).

Lemma scored_rows (kwargs : Kwargs.t) (pool cand : DataFrame.t) :
  DataFrame.rows (scored kwargs pool cand)
  = List.map (fun c => Listing.with_score (calculate_madlan_match_score c kwargs pool) c)
             (DataFrame.rows cand).
Proof. unfold Server.scored. simpl. apply assign_scores_map. Qed.

(** Every row of the page is a candidate with its score. *)
Lemma page_of_rows (kwargs : Kwargs.t) (pool cand : DataFrame.t) (r : Listing.t) :
  In r (page_of kwargs pool cand) ->
  exists c, In c (DataFrame.rows cand) /\
            r = Listing.with_score (calculate_madlan_match_score c kwargs pool) c.
Proof using sort_values_perm.
  unfold Server.page_of. intros Hr. apply head_incl in Hr. cbn [DataFrame.rows] in Hr.
  apply (Permutation_in _ (Permutation_sym (sort_values_perm _))) in Hr.
  rewrite scored_rows in Hr. apply in_map_iff in Hr.
  destruct Hr as (c & <- & Hc). exists c. split; [exact Hc | reflexivity].
Qed.

(** C9: a search leaves the dataset behind [self.properties_df], and
    every other object that existed before the call, as it was: the
    filters, scores, sort and truncation act on objects created by the
    call. A second identical request therefore sees the same dataset and
    returns the same result. (The amenity catalogs are literals local to
    [get_nearest_amenities]; no object of the store holds them.) *)
Theorem search_properties_preserves_dataset
    (self : Server.t) (kwargs : Kwargs.t)
    (h0 : gmap Store.ref DataFrame.t) (d0 : DataFrame.t) :
  h0 !! Server.properties_df self = Some d0 ->
  let h1 := snd (search_properties self kwargs h0) in
  h1 !! Server.properties_df self = Some d0 /\
  (forall r d, h0 !! r = Some d -> h1 !! r = Some d) /\
  fst (search_properties self kwargs h1) = fst (search_properties self kwargs h0).
Proof using Type.
  intros H0 h1.
  destruct (search_properties_run np_exp sort_values now self kwargs h0 d0 H0)
    as [Hres Hsub].
  fold h1 in Hsub.
  assert (H1 : h1 !! Server.properties_df self = Some d0).
  { apply (lookup_weaken h0 h1 _ _ H0 Hsub). }
  split; [exact H1 |]. split.
  - intros r d Hr. apply (lookup_weaken h0 h1 _ _ Hr Hsub).
  - destruct (search_properties_run np_exp sort_values now self kwargs h1 d0 H1)
      as [Hres1 _].
    rewrite Hres1, Hres. reflexivity.
Qed.

(** C3: the statistics of the result are those of the page, that is of
    the candidates after scoring, sorting and truncation to the limit:
    the truncated mean, minimum and maximum price and the rounded mean
    area of exactly the rows returned in [properties] (all zero for an
    empty page). *)
Theorem market_stats_over_truncated_page
    (self : Server.t) (kwargs : Kwargs.t)
    (h0 : gmap Store.ref DataFrame.t) (d0 : DataFrame.t) :
  h0 !! Server.properties_df self = Some d0 ->
  let res := fst (search_properties self kwargs h0) in
  let sc := scored kwargs d0 (fst (Server.candidates kwargs d0)) in
  let page := Server.properties res in
  page = DataFrame.rows
           (DataFrame.head (Server.limit_of kwargs)
              (DataFrame.mk (DataFrame.columns sc) (sort_values (DataFrame.rows sc)))) /\
  Server.total_found res = length page /\
  match page with
  | [] => Server.market_stats res = Server.mkStats 0 0 0 0
  | _ :: _ =>
      let prices := List.map Listing.property_price page in
      let areas := List.map Listing.property_builded_area page in
      Server.avg_price (Server.market_stats res) = Py.int (Server.mean prices) /\
      Server.min_price (Server.market_stats res) = Py.int (Server.col_min prices) /\
      Server.max_price (Server.market_stats res) = Py.int (Server.col_max prices) /\
      Server.avg_area (Server.market_stats res) = Py.round1 (Server.mean areas)
  end.
Proof using Type.
  intros H0 res sc page.
  destruct (search_properties_run np_exp sort_values now self kwargs h0 d0 H0)
    as [Hres _].
  fold res in Hres. subst page. rewrite Hres.
  unfold Server.search_result. cbn [Server.properties Server.total_found Server.market_stats].
  split; [reflexivity |]. split; [reflexivity |].
  unfold Server.market_stats_of.
  destruct (Server.page_of np_exp sort_values now kwargs d0 (Server.candidates kwargs d0).1);
    [reflexivity |].
  cbn [Server.avg_price Server.min_price Server.max_price Server.avg_area].
  repeat split; reflexivity.
Qed.

(** C2 (amended): every candidate is scored before sorting and
    truncation, and its percentile ranks are taken over the whole dataset
    behind [self.properties_df], not over the filtered candidates: each
    returned row is a candidate [c] carrying
    [calculate_madlan_match_score c kwargs dataset]. *)
Theorem match_score_over_whole_dataset
    (self : Server.t) (kwargs : Kwargs.t)
    (h0 : gmap Store.ref DataFrame.t) (d0 : DataFrame.t) :
  h0 !! Server.properties_df self = Some d0 ->
  let res := fst (search_properties self kwargs h0) in
  let cand := fst (Server.candidates kwargs d0) in
  let sc := scored kwargs d0 cand in
  DataFrame.rows sc
    = List.map (fun c => Listing.with_score (calculate_madlan_match_score c kwargs d0) c)
               (DataFrame.rows cand) /\
  Server.properties res
    = DataFrame.rows
        (DataFrame.head (Server.limit_of kwargs)
           (DataFrame.mk (DataFrame.columns sc) (sort_values (DataFrame.rows sc)))) /\
  forall r, In r (Server.properties res) ->
    exists c, In c (DataFrame.rows cand) /\
      r = Listing.with_score (calculate_madlan_match_score c kwargs d0) c.
Proof using sort_values_perm.
  intros H0 res cand sc.
  destruct (search_properties_run np_exp sort_values now self kwargs h0 d0 H0)
    as [Hres _].
  fold res in Hres. rewrite Hres.
  split; [apply scored_rows |]. split; [reflexivity |].
  intros r Hr. apply (page_of_rows kwargs d0 cand r Hr).
Qed.


End SearchClaims.

(** ** The example instances *)

Lemma insert_desc_perm (r : Listing.t) (l : list Listing.t) :
  Permutation (r :: l) (Example.insert_desc r l).
Proof.
  induction l as [| x l IH]; simpl; [apply Permutation_refl |].
  destruct (Py.leb (Listing.score x) (Listing.score r)).
  - apply Permutation_refl.
  - eapply Permutation_trans; [apply perm_swap |].
    apply perm_skip, IH.
Qed.

Lemma sort_desc_perm (l : list Listing.t) : Permutation l (Example.sort_desc l).
Proof.
  induction l as [| r l IH]; simpl; [apply perm_nil |].
  eapply Permutation_trans; [apply perm_skip, IH | apply insert_desc_perm].
Qed.

Lemma example_dataset_lookup (d : DataFrame.t) :
  Example.store_of d !! Server.properties_df Example.self = Some d.
Proof. apply lookup_singleton_eq. Qed.

(** ** Witnesses and counterexamples of the search claims *)

Lemma search_properties_preserves_dataset_witness :
  let search :=
    Server.search_properties Example.exp_bound Example.sort_desc
      Example.noon_2025_06_01 Example.self
      (Kwargs.with_min_price 1500000 Kwargs.empty) in
  let h0 := Example.store_of Example.fallback_data in
  let h1 := snd (search h0) in
  h1 !! Server.properties_df Example.self = Some Example.fallback_data /\
  (forall r d, h0 !! r = Some d -> h1 !! r = Some d) /\
  fst (search h1) = fst (search h0).
Proof.
  exact (search_properties_preserves_dataset Example.exp_bound Example.sort_desc
           Example.noon_2025_06_01 Example.self
           (Kwargs.with_min_price 1500000 Kwargs.empty)
           (Example.store_of Example.fallback_data) Example.fallback_data
           (example_dataset_lookup Example.fallback_data)).
Defined.

Lemma market_stats_over_truncated_page_witness :
  let res :=
    fst (Server.search_properties Example.exp_bound Example.sort_desc
           Example.noon_2025_06_01 Example.self
           (Kwargs.with_limit 1 Kwargs.empty)
           (Example.store_of Example.fallback_data)) in
  List.map Listing.street (Server.properties res) = ["הרצליה"%string] /\
  Server.market_stats res = Server.mkStats 1290000 1290000 1290000 100.0.
Proof.
  pose proof (market_stats_over_truncated_page Example.exp_bound Example.sort_desc
                Example.noon_2025_06_01 Example.self
                (Kwargs.with_limit 1 Kwargs.empty)
                (Example.store_of Example.fallback_data) Example.fallback_data
                (example_dataset_lookup Example.fallback_data)) as H.
  cbv zeta in H. destruct H as (Hpage & _ & Hstats).
  split.
  - rewrite Hpage. vm_compute. reflexivity.
  - vm_compute. reflexivity.
Defined.

(** C2 (as stated, refuted on the fallback dataset with [min_price =
    1,500,000]): two rows pass the filter; the code scores them 51.8 and
    49.6, with percentiles over all three rows of the dataset, where
    percentiles over the two filtered candidates would give 56.8 and
    53.7. *)
Lemma match_score_not_over_filtered_pool :
  let kwargs := Kwargs.with_min_price 1500000 Kwargs.empty in
  let res :=
    fst (Server.search_properties Example.exp_bound Example.sort_desc
           Example.noon_2025_06_01 Example.self kwargs
           (Example.store_of Example.fallback_data)) in
  let cand := fst (Server.candidates kwargs Example.fallback_data) in
  List.map Listing.property_price (DataFrame.rows cand) = [1590000; 1750000] /\
  List.map Listing.property_price (Server.properties res) = [1590000; 1750000] /\
  List.map Listing.madlan_match_score (Server.properties res) = [Some 51.8; Some 49.6] /\
  List.map (fun c => Server.calculate_madlan_match_score Example.exp_bound
                       Example.noon_2025_06_01 c kwargs cand)
           (DataFrame.rows cand) = [56.8; 53.7] /\
  ~ 51.8 == 56.8 /\ ~ 49.6 == 53.7.
Proof.
  cbv zeta. repeat split; try (vm_compute; reflexivity);
    intros H; vm_compute in H; discriminate H.
Qed.

Lemma match_score_over_whole_dataset_witness :
  let kwargs := Kwargs.with_min_price 1500000 Kwargs.empty in
  let res :=
    fst (Server.search_properties Example.exp_bound Example.sort_desc
           Example.noon_2025_06_01 Example.self kwargs
           (Example.store_of Example.fallback_data)) in
  List.Forall
    (fun r =>
       exists c, In c (DataFrame.rows (fst (Server.candidates kwargs Example.fallback_data))) /\
         r = Listing.with_score
               (Server.calculate_madlan_match_score Example.exp_bound
                  Example.noon_2025_06_01 c kwargs Example.fallback_data) c)
    (Server.properties res).
Proof.
  cbv zeta. apply List.Forall_forall.
  exact (proj2 (proj2
    (match_score_over_whole_dataset Example.exp_bound Example.sort_desc
       Example.noon_2025_06_01 sort_desc_perm Example.self
       (Kwargs.with_min_price 1500000 Kwargs.empty)
       (Example.store_of Example.fallback_data) Example.fallback_data
       (example_dataset_lookup Example.fallback_data)))).
Defined.


(** ** Rounding and comparisons *)

Lemma round_half_even_bounds (x : Q) :
  (Qfloor x <= Py.round_half_even x <= Qfloor x + 1)%Z.
Proof.
  unfold Py.round_half_even.
  destruct (Py.ltb (x - inject_Z (Qfloor x)) (1 # 2)); [lia |].
  destruct (Py.ltb (1 # 2) (x - inject_Z (Qfloor x))); [lia |].
  destruct (Z.even (Qfloor x)); lia.
Qed.

Lemma round_half_even_mono (x y : Q) :
  x <= y -> (Py.round_half_even x <= Py.round_half_even y)%Z.
Proof.
  intros Hxy.
  pose proof (Qfloor_resp_le x y Hxy) as Hf.
  destruct (Z.eq_dec (Qfloor x) (Qfloor y)) as [Heq | Hne].
  - unfold Py.round_half_even. rewrite <- Heq.
    set (f := Qfloor x).
    destruct (Py.ltb (x - inject_Z f) (1 # 2)) eqn:Ex.
    + destruct (Py.ltb (y - inject_Z f) (1 # 2)); [lia |].
      destruct (Py.ltb (1 # 2) (y - inject_Z f)); [lia |].
      destruct (Z.even f); lia.
    + apply ltb_ge in Ex.
      assert (Ey : Py.ltb (y - inject_Z f) (1 # 2) = false) by (apply ltb_ge; lra).
      rewrite Ey.
      destruct (Py.ltb (1 # 2) (x - inject_Z f)) eqn:Ex'.
      * apply ltb_lt in Ex'.
        assert (Ey' : Py.ltb (1 # 2) (y - inject_Z f) = true) by (apply ltb_lt; lra).
        rewrite Ey'. lia.
      * destruct (Py.ltb (1 # 2) (y - inject_Z f)); [destruct (Z.even f); lia |].
        destruct (Z.even f); lia.
  - pose proof (round_half_even_bounds x). pose proof (round_half_even_bounds y). lia.
Qed.

Lemma round1_mono (x y : Q) : x <= y -> Py.round1 x <= Py.round1 y.
Proof.
  intros Hxy. unfold Py.round1, Qle. simpl.
  apply Z.mul_le_mono_nonneg_r; [lia |].
  apply round_half_even_mono. lra.
Qed.

Lemma round1_nonneg (x : Q) : 0 <= x -> 0 <= Py.round1 x.
Proof.
  intros Hx. unfold Py.round1, Qle. simpl.
  pose proof (round_half_even_bounds (x * 10)) as [Hlo _].
  assert (0 <= Qfloor (x * 10))%Z.
  { change 0%Z with (Qfloor 0). apply Qfloor_resp_le. lra. }
  lia.
Qed.

Lemma min_le_l (a b : Q) : Py.min a b <= a.
Proof.
  unfold Py.min. destruct (Py.ltb b a) eqn:E.
  - apply ltb_lt in E. lra.
  - lra.
Qed.

Lemma min_glb (a b c : Q) : c <= a -> c <= b -> c <= Py.min a b.
Proof. intros Ha Hb. unfold Py.min. destruct (Py.ltb b a); assumption. Qed.

Lemma min_mono_r (a b b' : Q) : b <= b' -> Py.min a b <= Py.min a b'.
Proof.
  intros H. unfold Py.min.
  destruct (Py.ltb b a) eqn:E, (Py.ltb b' a) eqn:E';
    try apply ltb_lt in E; try apply ltb_lt in E';
    try apply ltb_ge in E; try apply ltb_ge in E'; lra.
Qed.

Lemma max_ge_l (a b : Q) : a <= Py.max a b.
Proof.
  unfold Py.max. destruct (Py.ltb a b) eqn:E.
  - apply ltb_lt in E. lra.
  - lra.
Qed.

Lemma max_mono_r (a b b' : Q) : b <= b' -> Py.max a b <= Py.max a b'.
Proof.
  intros H. unfold Py.max.
  destruct (Py.ltb a b) eqn:E, (Py.ltb a b') eqn:E';
    try apply ltb_lt in E; try apply ltb_lt in E';
    try apply ltb_ge in E; try apply ltb_ge in E'; lra.
Qed.

(** ** Floats with NaN: order and sign *)

Lemma float_le_refl (x : Float.t) : Float.le x x.
Proof. destruct x; simpl; [lra | exact I]. Qed.

Lemma float_le_add (a b c d : Float.t) :
  Float.le a b -> Float.le c d -> Float.le (Float.add a c) (Float.add b d).
Proof.
  destruct a, b, c, d; simpl; try tauto. intros. lra.
Qed.

Lemma float_le_add_nonneg (a b d : Float.t) :
  Float.le a b -> Float.nonneg d -> Float.le a (Float.add b d).
Proof.
  destruct a, b, d; simpl; try tauto. intros. lra.
Qed.

Lemma float_nonneg_add (a b : Float.t) :
  Float.nonneg a -> Float.nonneg b -> Float.nonneg (Float.add a b).
Proof. destruct a, b; simpl; try tauto. intros. lra. Qed.

Lemma min100_round1_le_100 (x : Float.t) : Float.min100_round1 x <= 100.
Proof. destruct x; simpl; [apply min_le_l | lra]. Qed.

Lemma min100_round1_nonneg (x : Float.t) :
  Float.nonneg x -> 0 <= Float.min100_round1 x.
Proof.
  destruct x; simpl; [| lra]. intros H.
  apply min_glb; [lra | apply round1_nonneg, H].
Qed.

Lemma min100_round1_mono (x y : Float.t) :
  Float.le x y -> Float.min100_round1 x <= Float.min100_round1 y.
Proof.
  destruct y as [q |]; simpl.
  - destruct x as [p |]; [| tauto]. intros H. simpl.
    apply min_mono_r, round1_mono, H.
  - intros _. apply min100_round1_le_100.
Qed.

(** ** The match score *)

Section ScoreBlocks.

Variable np_exp : Q -> Q.
Variable now : Z.

Lemma calculate_madlan_match_score_blocks
    (property_row : Listing.t) (search_params : Kwargs.t) (all_properties_df : DataFrame.t) :
  Server.calculate_madlan_match_score np_exp now property_row search_params all_properties_df
  = Float.min100_round1
      (Float.add (Server.metadata_score now property_row all_properties_df)
                 (Some (Server.context_score np_exp property_row search_params))).
Proof.
  unfold Server.calculate_madlan_match_score, Server.metadata_score,
    Server.context_score, Server.recency_points, Server.feature_block,
    Server.size_block, Server.price_block.
  cbv zeta.
  destruct (Listing.publish_date property_row); reflexivity.
Qed.

End ScoreBlocks.

(** ** Percentile shares *)

Lemma count_below_le_length (col : list Q) (v : Q) :
  (length (List.filter (fun x => Py.ltb x v) col) <= length col)%nat.
Proof.
  induction col as [| x col IH]; simpl; [lia |].
  destruct (Py.ltb x v); simpl; lia.
Qed.

Lemma count_below_mono (col : list Q) (v w : Q) :
  v <= w ->
  (length (List.filter (fun x => Py.ltb x v) col)
   <= length (List.filter (fun x => Py.ltb x w) col))%nat.
Proof.
  intros Hvw. induction col as [| x col IH]; simpl; [lia |].
  destruct (Py.ltb x v) eqn:Ev.
  - apply ltb_lt in Ev.
    assert (Ew : Py.ltb x w = true) by (apply ltb_lt; lra).
    rewrite Ew. simpl. lia.
  - destruct (Py.ltb x w); simpl; lia.
Qed.

Lemma ratio_le (a b n : nat) :
  (a <= b)%nat -> (0 < n)%nat ->
  inject_Z (Z.of_nat a) / inject_Z (Z.of_nat n)
  <= inject_Z (Z.of_nat b) / inject_Z (Z.of_nat n).
Proof.
  intros Hab Hn. unfold Qdiv.
  apply Qmult_le_compat_r.
  - rewrite <- Zle_Qle. lia.
  - apply Qinv_le_0_compat. change 0 with (inject_Z 0). rewrite <- Zle_Qle. lia.
Qed.

Lemma ratio_bounds (a n : nat) :
  (a <= n)%nat -> (0 < n)%nat ->
  0 <= inject_Z (Z.of_nat a) / inject_Z (Z.of_nat n) <= 1.
Proof.
  intros Han Hn.
  assert (Hpos : 0 < inject_Z (Z.of_nat n)).
  { change 0 with (inject_Z 0). rewrite <- Zlt_Qlt. lia. }
  split.
  - apply Qle_shift_div_l; [exact Hpos |]. rewrite Qmult_0_l.
    change 0 with (inject_Z 0). rewrite <- Zle_Qle. lia.
  - apply Qle_shift_div_r; [exact Hpos |]. rewrite Qmult_1_l.
    rewrite <- Zle_Qle. lia.
Qed.

Lemma share_below_bounds (col : list Q) (v p : Q) :
  Float.share_below col v = Some p -> 0 <= p <= 1.
Proof.
  destruct col as [| x col]; simpl; [discriminate |].
  intros [= <-]. apply ratio_bounds.
  - apply (count_below_le_length (x :: col) v).
  - simpl. lia.
Qed.

Lemma share_below_mono (col : list Q) (v w : Q) :
  v <= w -> Float.le (Float.share_below col v) (Float.share_below col w).
Proof.
  intros Hvw. destruct col as [| x col]; [exact I |].
  unfold Float.share_below, Float.le.
  apply ratio_le.
  - apply (count_below_mono (x :: col) v w Hvw).
  - simpl. lia.
Qed.

Lemma share_below_some (col : list Q) (v : Q) :
  (1 < length col)%nat -> exists p, Float.share_below col v = Some p.
Proof.
  destruct col as [| x col]; simpl; [lia |]. intros _. eexists. reflexivity.
Qed.

(** ** The blocks of the score: sign and monotonicity *)

Section ScoreBlockProperties.

Variable now : Z.
Implicit Types (a b row : Listing.t) (pool : DataFrame.t) (m : Float.t).

Lemma price_block_nonneg row pool m :
  Float.nonneg m -> Float.nonneg (Server.price_block row pool m).
Proof.
  intros Hm. unfold Server.price_block. cbv zeta.
  destruct (1 <? length (DataFrame.rows pool))%nat; [| exact Hm].
  apply float_nonneg_add; [exact Hm |].
  destruct (Float.share_below _ _) as [p |] eqn:E; simpl; [| exact I].
  apply share_below_bounds in E. nra.
Qed.

Lemma size_block_nonneg row pool m :
  Float.nonneg m -> Float.nonneg (Server.size_block row pool m).
Proof.
  intros Hm. unfold Server.size_block. cbv zeta.
  destruct (Py.ltb 0 (Listing.property_builded_area row)); [| exact Hm].
  apply float_nonneg_add; [exact Hm |].
  destruct (Float.share_below _ _) as [p |] eqn:E; simpl; [| exact I].
  apply share_below_bounds in E. nra.
Qed.

Lemma feature_block_nonneg (f : bool) m :
  Float.nonneg m -> Float.nonneg (Server.feature_block f m).
Proof.
  intros Hm. unfold Server.feature_block. destruct f; [| exact Hm].
  apply float_nonneg_add; [exact Hm | simpl; lra].
Qed.

Lemma recency_points_nonneg row : 0 <= Server.recency_points now row.
Proof.
  unfold Server.recency_points. destruct (Listing.publish_date row); [| lra].
  apply max_ge_l.
Qed.

Lemma metadata_score_nonneg row pool :
  Float.nonneg (Server.metadata_score now row pool).
Proof.
  unfold Server.metadata_score.
  apply float_nonneg_add; [| apply recency_points_nonneg].
  do 3 apply feature_block_nonneg.
  apply size_block_nonneg, price_block_nonneg. simpl. lra.
Qed.

(** A cheaper row gets at least the price points of a dearer one. *)
Lemma price_block_mono a b pool (ma mb : Float.t) :
  Listing.property_price a <= Listing.property_price b ->
  Float.le mb ma ->
  Float.le (Server.price_block b pool mb) (Server.price_block a pool ma).
Proof.
  intros Hp Hm. unfold Server.price_block. cbv zeta.
  destruct (1 <? length (DataFrame.rows pool))%nat eqn:Hlen; [| exact Hm].
  apply float_le_add; [exact Hm |].
  pose proof (share_below_mono (List.map Listing.property_price (DataFrame.rows pool))
                _ _ Hp) as Hs.
  apply Nat.ltb_lt in Hlen.
  destruct (share_below_some (List.map Listing.property_price (DataFrame.rows pool))
              (Listing.property_price a)) as [pa Ea];
    [rewrite length_map; exact Hlen |].
  destruct (share_below_some (List.map Listing.property_price (DataFrame.rows pool))
              (Listing.property_price b)) as [pb Eb];
    [rewrite length_map; exact Hlen |].
  rewrite Ea, Eb in *. simpl in *. lra.
Qed.

(** A larger row gets at least the size points of a smaller one. *)
Lemma size_block_mono a b pool (ma mb : Float.t) :
  Listing.property_builded_area b <= Listing.property_builded_area a ->
  Float.le mb ma ->
  Float.le (Server.size_block b pool mb) (Server.size_block a pool ma).
Proof.
  intros Ha Hm. unfold Server.size_block. cbv zeta.
  pose proof (share_below_mono
                (List.map Listing.property_builded_area (DataFrame.rows pool))
                _ _ Ha) as Hs.
  destruct (Py.ltb 0 (Listing.property_builded_area b)) eqn:Eb.
  - apply ltb_lt in Eb.
    assert (Ea : Py.ltb 0 (Listing.property_builded_area a) = true)
      by (apply ltb_lt; lra).
    rewrite Ea. apply float_le_add; [exact Hm |].
    destruct (Float.share_below _ (Listing.property_builded_area a)) as [pa |],
             (Float.share_below _ (Listing.property_builded_area b)) as [pb |];
      simpl in *; try tauto. lra.
  - destruct (Py.ltb 0 (Listing.property_builded_area a)); [| exact Hm].
    apply float_le_add_nonneg; [exact Hm |].
    destruct (Float.share_below _ (Listing.property_builded_area a)) as [pa |] eqn:E;
      simpl; [| exact I].
    apply share_below_bounds in E. nra.
Qed.

Lemma feature_block_mono (fa fb : bool) (ma mb : Float.t) :
  (fb = true -> fa = true) ->
  Float.le mb ma ->
  Float.le (Server.feature_block fb mb) (Server.feature_block fa ma).
Proof.
  intros Hf Hm. unfold Server.feature_block.
  destruct fb.
  - rewrite (Hf eq_refl). apply float_le_add; [exact Hm | simpl; lra].
  - destruct fa; [| exact Hm].
    apply float_le_add_nonneg; [exact Hm | simpl; lra].
Qed.

(** A newer row gets at least the recency points of an older one. *)
Lemma recency_points_mono a b (ta tb : Z) :
  Listing.publish_date a = Some ta ->
  Listing.publish_date b = Some tb ->
  (tb <= ta)%Z ->
  Server.recency_points now b <= Server.recency_points now a.
Proof.
  intros Ha Hb Ht. unfold Server.recency_points. rewrite Ha, Hb. cbv zeta.
  apply max_mono_r.
  assert (Hd : ((now - ta) / Server.microseconds_per_day
                <= (now - tb) / Server.microseconds_per_day)%Z).
  { apply Z.div_le_mono; [reflexivity | lia]. }
  rewrite Zle_Qle in Hd.
  unfold Qdiv. change (/ 365) with (1 # 365). lra.
Qed.

End ScoreBlockProperties.

Lemma min_le_r (a b : Q) : Py.min a b <= b.
Proof.
  unfold Py.min. destruct (Py.ltb b a) eqn:E.
  - lra.
  - apply ltb_ge in E. exact E.
Qed.

Section MatchScore.

Variable np_exp : Q -> Q.
Variable now : Z.

(** What is used of [numpy.exp]: it is never negative and it is monotone. *)
Hypothesis np_exp_nonneg : forall x, 0 <= np_exp x.
Hypothesis np_exp_mono : forall x y, x <= y -> np_exp x <= np_exp y.

Abbreviation calculate_madlan_match_score :=
  (Server.calculate_madlan_match_score np_exp now).

Lemma context_score_nonneg (row : Listing.t) (kwargs : Kwargs.t) :
  0 <= Server.context_score np_exp row kwargs.
Proof using np_exp_nonneg.
  unfold Server.context_score.
  destruct (Kwargs.truthy_flag (Kwargs.near_schools kwargs)); [| lra].
  cbv zeta. destruct (Py.ltb (Listing.nearest_school_distance_km row) 999); [| lra].
  pose proof (np_exp_nonneg (- Listing.nearest_school_distance_km row * 2)).
  assert (0 <= Py.min 50 (50 * np_exp (- Listing.nearest_school_distance_km row * 2))).
  { apply min_glb; lra. }
  lra.
Qed.

(** When proximity to schools is requested, a row at least as close to a
    school gets at least the context points of the other; when it is not,
    both get the same. *)
Lemma context_score_mono (a b : Listing.t) (kwargs : Kwargs.t) :
  (Kwargs.truthy_flag (Kwargs.near_schools kwargs) = true ->
   Listing.nearest_school_distance_km a <= Listing.nearest_school_distance_km b) ->
  Server.context_score np_exp b kwargs <= Server.context_score np_exp a kwargs.
Proof using np_exp_nonneg np_exp_mono.
  intros Hd. pose proof (context_score_nonneg a kwargs) as Hna.
  unfold Server.context_score in *.
  destruct (Kwargs.truthy_flag (Kwargs.near_schools kwargs)); [| lra].
  specialize (Hd eq_refl). cbv zeta in *.
  destruct (Py.ltb (Listing.nearest_school_distance_km b) 999) eqn:Eb; [| exact Hna].
  apply ltb_lt in Eb.
  assert (Ea : Py.ltb (Listing.nearest_school_distance_km a) 999 = true)
    by (apply ltb_lt; lra).
  rewrite Ea.
  assert (Py.min 50 (50 * np_exp (- Listing.nearest_school_distance_km b * 2))
          <= Py.min 50 (50 * np_exp (- Listing.nearest_school_distance_km a * 2))).
  { apply min_mono_r.
    assert (np_exp (- Listing.nearest_school_distance_km b * 2)
            <= np_exp (- Listing.nearest_school_distance_km a * 2))
      by (apply np_exp_mono; lra).
    lra. }
  lra.
Qed.

Lemma metadata_score_mono (a b : Listing.t) (pool : DataFrame.t) :
  Server.dominates a b ->
  Float.le (Server.metadata_score now b pool) (Server.metadata_score now a pool).
Proof using Type.
  intros (Hprice & Harea & (ta & tb & Hta & Htb & Hnew) & Hp & He & Hb).
  unfold Server.metadata_score.
  apply float_le_add.
  - rewrite Hp, He, Hb.
    do 3 (apply feature_block_mono; [reflexivity |]).
    apply size_block_mono; [lra |].
    apply price_block_mono; [lra |].
    apply float_le_refl.
  - simpl. apply (recency_points_mono now a b ta tb Hta Htb). lia.
Qed.

(** C4 (amended): the match score lies within [0,100]; and a record that
    is strictly cheaper, strictly larger, strictly newer and fully
    featured compared with every peer of the pool, and that, when the
    request asks for proximity to schools, is at least as close to its
    nearest school as every peer, attains the maximum score of the pool. *)
Theorem match_score_bounded_and_maximal :
  (forall (row : Listing.t) (kwargs : Kwargs.t) (pool : DataFrame.t),
      0 <= calculate_madlan_match_score row kwargs pool <= 100) /\
  (forall (kwargs : Kwargs.t) (pool : DataFrame.t) (a : Listing.t),
      (forall b, In b (DataFrame.rows pool) ->
         b = a \/
         (Server.dominates a b /\
          (Kwargs.truthy_flag (Kwargs.near_schools kwargs) = true ->
           Listing.nearest_school_distance_km a <= Listing.nearest_school_distance_km b))) ->
      forall b, In b (DataFrame.rows pool) ->
        calculate_madlan_match_score b kwargs pool
        <= calculate_madlan_match_score a kwargs pool).
Proof using np_exp_nonneg np_exp_mono.
  split.
  - intros row kwargs pool. rewrite calculate_madlan_match_score_blocks. split.
    + apply min100_round1_nonneg, float_nonneg_add.
      * apply metadata_score_nonneg.
      * apply context_score_nonneg.
    + apply min100_round1_le_100.
  - intros kwargs pool a Hpeers b Hb.
    destruct (Hpeers b Hb) as [-> | [Hdom Hnear]]; [apply Qle_refl |].
    rewrite !calculate_madlan_match_score_blocks.
    apply min100_round1_mono, float_le_add.
    + apply metadata_score_mono, Hdom.
    + apply context_score_mono, Hnear.
Qed.

End MatchScore.

(** ** The example stand-in for [numpy.exp] *)

Lemma exp_bound_nonneg (x : Q) : 0 <= Example.exp_bound x.
Proof.
  unfold Example.exp_bound. destruct (Py.ltb x 0) eqn:E.
  - apply ltb_lt in E. apply div_nonneg; lra.
  - apply ltb_ge in E. lra.
Qed.

Lemma exp_bound_mono (x y : Q) : x <= y -> Example.exp_bound x <= Example.exp_bound y.
Proof.
  intros Hxy. unfold Example.exp_bound.
  destruct (Py.ltb x 0) eqn:Ex, (Py.ltb y 0) eqn:Ey;
    try apply ltb_lt in Ex; try apply ltb_lt in Ey;
    try apply ltb_ge in Ex; try apply ltb_ge in Ey.
  - apply Qle_shift_div_l; [lra |].
    assert (H : 1 / (1 - x) * (1 - y) <= 1 / (1 - x) * (1 - x)).
    { apply Qmult_le_l; [| lra]. apply Qlt_shift_div_l; lra. }
    assert (H' : 1 / (1 - x) * (1 - x) == 1) by (field; lra).
    lra.
  - assert (1 / (1 - x) <= 1); [| lra].
    apply Qle_shift_div_r; lra.
  - lra.
  - lra.
Qed.

(** ** C4: the claim as stated, and a witness of the amended one *)

(** C4 (as stated, refuted when the request asks for proximity to
    schools): [cheap_far] is strictly cheaper, larger, newer than
    [dear_near] and fully featured, both are within 1.5 km of a school,
    yet [dear_near] scores higher, whatever [numpy.exp] computes between
    the classical bounds [1 + x] and [1 / (1 - x)] of the exponential on
    [x <= 0]: at most 47.5 against at least 52.5. *)
Lemma max_score_fails_near_schools :
  let kwargs := Kwargs.with_near_schools true Kwargs.empty in
  Server.dominates Example.cheap_far Example.dear_near /\
  Server.step_mask (Server.near_schools_step kwargs) Example.cheap_far = true /\
  Server.step_mask (Server.near_schools_step kwargs) Example.dear_near = true /\
  forall np_exp : Q -> Q,
    (forall x, x <= 0 -> 1 + x <= np_exp x /\ np_exp x <= 1 / (1 - x)) ->
    Server.calculate_madlan_match_score np_exp Example.noon_2025_06_01
      Example.cheap_far kwargs Example.two_listings <= 47.5 /\
    52.5 <= Server.calculate_madlan_match_score np_exp Example.noon_2025_06_01
              Example.dear_near kwargs Example.two_listings.
Proof.
  cbv zeta. split; [| split; [reflexivity | split; [reflexivity |]]].
  - unfold Server.dominates. repeat split; try reflexivity.
    exists (Example.day 19840), (Example.day 19740). repeat split; reflexivity.
  - intros np_exp Hexp.
    rewrite !calculate_madlan_match_score_blocks. split.
    + assert (Hm : exists m, Server.metadata_score Example.noon_2025_06_01
                               Example.cheap_far Example.two_listings = Some m /\ m == 35).
      { eexists. split; [vm_compute; reflexivity | reflexivity]. }
      destruct Hm as (m & -> & Hm).
      assert (Hc : Server.context_score np_exp Example.cheap_far
                     (Kwargs.with_near_schools true Kwargs.empty) <= 12.5).
      { unfold Server.context_score. simpl.
        set (e := np_exp _).
        assert (He : e <= 1 # 4).
        { destruct (Hexp (- 1.5 * 2)) as [_ Hu]; [unfold Qle; simpl; lia |].
          eapply Qle_trans; [exact Hu |]. unfold Qle. simpl. lia. }
        pose proof (min_le_r 50 (50 * e)). lra. }
      eapply Qle_trans.
      * apply min100_round1_mono with (y := Some 47.5). simpl. lra.
      * unfold Qle. vm_compute. discriminate.
    + assert (Hm : exists m, Server.metadata_score Example.noon_2025_06_01
                               Example.dear_near Example.two_listings = Some m /\ m == 7.5).
      { eexists. split; [vm_compute; reflexivity | reflexivity]. }
      destruct Hm as (m & -> & Hm).
      assert (Hc : 45 <= Server.context_score np_exp Example.dear_near
                           (Kwargs.with_near_schools true Kwargs.empty)).
      { unfold Server.context_score. simpl.
        set (e := np_exp _).
        assert (He : 9 # 10 <= e).
        { destruct (Hexp (- 0.05 * 2)) as [Hl _]; [unfold Qle; simpl; lia |].
          eapply Qle_trans; [| exact Hl]. unfold Qle. simpl. lia. }
        assert (45 <= Py.min 50 (50 * e)) by (apply min_glb; lra).
        lra. }
      eapply Qle_trans.
      * assert (H : 52.5 <= Float.min100_round1 (Some 52.5)).
        { unfold Qle. vm_compute. discriminate. }
        exact H.
      * apply min100_round1_mono. simpl. lra.
Qed.

Lemma match_score_bounded_and_maximal_witness :
  let kwargs := Kwargs.empty in
  0 <= Server.calculate_madlan_match_score Example.exp_bound Example.noon_2025_06_01
         Example.dear_near kwargs Example.two_listings <= 100 /\
  Server.calculate_madlan_match_score Example.exp_bound Example.noon_2025_06_01
    Example.dear_near kwargs Example.two_listings
  <= Server.calculate_madlan_match_score Example.exp_bound Example.noon_2025_06_01
       Example.cheap_far kwargs Example.two_listings.
Proof.
  cbv zeta.
  destruct (match_score_bounded_and_maximal Example.exp_bound Example.noon_2025_06_01
              exp_bound_nonneg exp_bound_mono) as [Hbounds Hmax].
  split; [apply Hbounds |].
  apply Hmax; [| right; left; reflexivity].
  intros b [<- | [<- | []]]; [left; reflexivity | right].
  split; [| discriminate].
  unfold Server.dominates. repeat split; try reflexivity.
  exists (Example.day 19840), (Example.day 19740). repeat split; reflexivity.
Defined.

(** ** The protocol loop *)

Lemma is_str_false (s : string) (v : Json.t) :
  v <> Json.Str s -> Json.is_str s v = false.
Proof.
  intros H. destruct v; simpl; try reflexivity.
  destruct (String.eqb_spec s0 s); [subst; congruence | reflexivity].
Qed.

Section DispatcherClaims.

Variable State : Type.
Variable data_loaded : State -> bool.
Variable call_tool : State -> Json.t -> (Dispatcher.Exception + string) * State.
Variable json_loads : string -> Dispatcher.Exception + Json.t.

Abbreviation handle_request := (Dispatcher.handle_request State data_loaded call_tool).
Abbreviation handle_line :=
  (Dispatcher.handle_line State data_loaded call_tool json_loads).
Abbreviation main := (Dispatcher.main State data_loaded call_tool json_loads).


Lemma main_cons (server : State) (line : string) (rest : list string) :
  main server (line :: rest)
  = (fst (handle_line server line) ++ fst (main (snd (handle_line server line)) rest),
     snd (main (snd (handle_line server line)) rest)).
Proof using Type.
  simpl. destruct (Dispatcher.handle_line _ _ _ _ server line) as [printed server'].
  simpl. destruct (Dispatcher.main _ _ _ _ server' rest). reflexivity.
Qed.


End DispatcherClaims.


(** ** The order of the page *)

Lemma firstn_strongly_sorted {A} (R : A -> A -> Prop) (n : nat) (l : list A) :
  StronglySorted R l -> StronglySorted R (firstn n l).
Proof.
  intros Hs. revert n. induction Hs as [| x l Hs IH Hx]; intros [| n]; simpl;
    try constructor.
  - apply IH.
  - apply List.Forall_forall. intros y Hy.
    apply (proj1 (List.Forall_forall _ _) Hx). apply (firstn_incl n l y Hy).
Qed.

Section PageOrder.

Variable np_exp : Q -> Q.
Variable sort_values : list Listing.t -> list Listing.t.
Variable now : Z.

(** What the library promises of [sort_values] with [ascending=False]. *)
Hypothesis sort_values_sorted :
  forall l, StronglySorted Listing.by_descending_score (sort_values l).

(** The page is in descending order of score. Nothing here says in which
    order rows of equal score come: that is left to [sort_values]. *)
Lemma page_sorted_by_descending_score
    (kwargs : Kwargs.t) (pool cand : DataFrame.t) :
  StronglySorted Listing.by_descending_score
    (Server.page_of np_exp sort_values now kwargs pool cand).
Proof using sort_values_sorted.
  unfold Server.page_of, DataFrame.head. cbn [DataFrame.rows].
  destruct (0 <=? Server.limit_of kwargs)%Z;
    apply firstn_strongly_sorted, sort_values_sorted.
Qed.

End PageOrder.

Lemma insert_desc_in (r x : Listing.t) (l : list Listing.t) :
  In x (Example.insert_desc r l) -> x = r \/ In x l.
Proof.
  intros H. apply (Permutation_in _ (Permutation_sym (insert_desc_perm r l))) in H.
  destruct H as [<- | H]; [left; reflexivity | right; exact H].
Qed.

Lemma insert_desc_sorted (r : Listing.t) (l : list Listing.t) :
  StronglySorted Listing.by_descending_score l ->
  StronglySorted Listing.by_descending_score (Example.insert_desc r l).
Proof.
  intros Hs. induction Hs as [| x l Hs IH Hx]; simpl.
  - constructor; constructor.
  - destruct (Py.leb (Listing.score x) (Listing.score r)) eqn:E.
    + apply Qle_bool_iff in E. constructor; [constructor; assumption |].
      constructor; [exact E |].
      apply List.Forall_forall. intros y Hy.
      pose proof (proj1 (List.Forall_forall _ _) Hx y Hy) as Hxy.
      unfold Listing.by_descending_score in *. lra.
    + constructor; [exact IH |].
      apply List.Forall_forall. intros y Hy.
      apply insert_desc_in in Hy. destruct Hy as [-> | Hy].
      * unfold Listing.by_descending_score, Py.leb in *.
        destruct (Qlt_le_dec (Listing.score r) (Listing.score x)) as [Hlt | Hle];
          [lra |].
        apply Qle_bool_iff in Hle. congruence.
      * apply (proj1 (List.Forall_forall _ _) Hx y Hy).
Qed.

Lemma sort_desc_sorted (l : list Listing.t) :
  StronglySorted Listing.by_descending_score (Example.sort_desc l).
Proof.
  induction l as [| r l IH]; simpl; [constructor | apply insert_desc_sorted, IH].
Qed.

Lemma insert_desc_after_perm (r : Listing.t) (l : list Listing.t) :
  Permutation (r :: l) (Example.insert_desc_after r l).
Proof.
  induction l as [| x l IH]; simpl; [apply Permutation_refl |].
  destruct (Py.ltb (Listing.score x) (Listing.score r)).
  - apply Permutation_refl.
  - eapply Permutation_trans; [apply perm_swap |].
    apply perm_skip, IH.
Qed.

Lemma sort_desc_ties_reversed_perm (l : list Listing.t) :
  Permutation l (Example.sort_desc_ties_reversed l).
Proof.
  induction l as [| r l IH]; simpl; [apply perm_nil |].
  eapply Permutation_trans; [apply perm_skip, IH | apply insert_desc_after_perm].
Qed.

Lemma insert_desc_after_sorted (r : Listing.t) (l : list Listing.t) :
  StronglySorted Listing.by_descending_score l ->
  StronglySorted Listing.by_descending_score (Example.insert_desc_after r l).
Proof.
  intros Hs. induction Hs as [| x l Hs IH Hx]; simpl.
  - constructor; constructor.
  - destruct (Py.ltb (Listing.score x) (Listing.score r)) eqn:E.
    + apply ltb_lt in E. constructor; [constructor; assumption |].
      constructor; [unfold Listing.by_descending_score; lra |].
      apply List.Forall_forall. intros y Hy.
      pose proof (proj1 (List.Forall_forall _ _) Hx y Hy) as Hxy.
      unfold Listing.by_descending_score in *. lra.
    + apply ltb_ge in E. constructor; [exact IH |].
      apply List.Forall_forall. intros y Hy.
      apply (Permutation_in _ (Permutation_sym (insert_desc_after_perm r l))) in Hy.
      destruct Hy as [<- | Hy]; [exact E |].
      apply (proj1 (List.Forall_forall _ _) Hx y Hy).
Qed.

Lemma sort_desc_ties_reversed_sorted (l : list Listing.t) :
  StronglySorted Listing.by_descending_score (Example.sort_desc_ties_reversed l).
Proof.
  induction l as [| r l IH]; simpl; [constructor | apply insert_desc_after_sorted, IH].
Qed.

(** On two rows of equal score the order of the page is the one
    [sort_values] produces: both example sorts return a descending
    permutation of their input, the first keeps the two rows in their
    input order and the second swaps them. *)
Lemma tie_order_follows_sort_values :
  let streets sort :=
    List.map Listing.street
      (Server.properties
         (fst (Server.search_properties Example.exp_bound sort
                 Example.noon_2025_06_01 Example.self Kwargs.empty
                 (Example.store_of Example.twins)))) in
  let scores sort :=
    List.map Listing.madlan_match_score
      (Server.properties
         (fst (Server.search_properties Example.exp_bound sort
                 Example.noon_2025_06_01 Example.self Kwargs.empty
                 (Example.store_of Example.twins)))) in
  scores Example.sort_desc = [Some 58.3; Some 58.3] /\
  streets Example.sort_desc = ["Herzliya 1"; "Herzliya 2"]%string /\
  streets Example.sort_desc_ties_reversed = ["Herzliya 2"; "Herzliya 1"]%string.
Proof.
  cbv zeta. repeat split; vm_compute; reflexivity.
Qed.

(** * Further properties of the search engine *)

(** ** What the filters guarantee *)

Lemma with_score_fields (s : Q) (c : Listing.t) :
  Listing.property_price (Listing.with_score s c) = Listing.property_price c /\
  Listing.property_rooms (Listing.with_score s c) = Listing.property_rooms c /\
  Listing.nearest_school_distance_km (Listing.with_score s c)
    = Listing.nearest_school_distance_km c /\
  Listing.nearest_clinic_distance_km (Listing.with_score s c)
    = Listing.nearest_clinic_distance_km c /\
  Listing.bulletin_has_parking (Listing.with_score s c) = Listing.bulletin_has_parking c /\
  Listing.bulletin_has_elevator (Listing.with_score s c) = Listing.bulletin_has_elevator c /\
  Listing.bulletin_has_balconies (Listing.with_score s c)
    = Listing.bulletin_has_balconies c.
Proof. repeat split; reflexivity. Qed.

Lemma leb_le (x y : Q) : Py.leb x y = true <-> x <= y.
Proof. unfold Py.leb. apply Qle_bool_iff. Qed.

Lemma bool_eqb_true (b : bool) : Bool.eqb b true = true -> b = true.
Proof. destruct b; [reflexivity | discriminate]. Qed.

(** Every candidate passes the mask of every block whose condition holds. *)
Lemma candidates_pass_filters (kwargs : Kwargs.t) (d : DataFrame.t) (c : Listing.t) :
  In c (DataFrame.rows (fst (Server.candidates kwargs d))) ->
  (Kwargs.truthy_num (Kwargs.max_price kwargs) = true ->
   Listing.property_price c <= Kwargs.num (Kwargs.max_price kwargs)) /\
  (Kwargs.truthy_num (Kwargs.min_price kwargs) = true ->
   Kwargs.num (Kwargs.min_price kwargs) <= Listing.property_price c) /\
  (Kwargs.truthy_num (Kwargs.rooms kwargs) = true ->
   Kwargs.num (Kwargs.rooms kwargs) <= Listing.property_rooms c) /\
  (Kwargs.truthy_flag (Kwargs.near_schools kwargs) = true ->
   Listing.nearest_school_distance_km c <= 1.5) /\
  (Kwargs.truthy_flag (Kwargs.near_medical kwargs) = true ->
   Listing.nearest_clinic_distance_km c <= 2.0) /\
  (Kwargs.truthy_flag (Kwargs.has_parking kwargs) = true ->
   Listing.bulletin_has_parking c = true) /\
  (Kwargs.truthy_flag (Kwargs.has_elevator kwargs) = true ->
   Listing.bulletin_has_elevator c = true) /\
  (Kwargs.truthy_flag (Kwargs.has_balcony kwargs) = true ->
   Listing.bulletin_has_balconies c = true).
Proof.
  unfold Server.candidates. intros H.
  repeat split; intros Hc;
    [ do 7 apply apply_step_rows_incl in H
    | do 6 apply apply_step_rows_incl in H
    | do 5 apply apply_step_rows_incl in H
    | do 4 apply apply_step_rows_incl in H
    | do 3 apply apply_step_rows_incl in H
    | do 2 apply apply_step_rows_incl in H
    | do 1 apply apply_step_rows_incl in H
    | ];
    (apply apply_step_mask in H; [| exact Hc]); simpl in H;
    first [ apply leb_le, H | apply bool_eqb_true, H ].
Qed.

(** With an explicit transaction type and the column present, every
    candidate has that type. *)
Lemma candidates_explicit_type (kwargs : Kwargs.t) (d : DataFrame.t) (c : Listing.t)
    (t : string) :
  Kwargs.transaction_type kwargs = Some t -> Str.truthy t = true ->
  DataFrame.has_column "transaction_type" d = true ->
  In c (DataFrame.rows (fst (Server.candidates kwargs d))) ->
  Listing.transaction_type c = t.
Proof.
  intros Ht Htruthy Hcol Hc.
  apply candidates_incl_after_transaction in Hc.
  unfold Server.after_transaction in Hc.
  apply apply_step_rows_incl in Hc.
  apply apply_step_mask in Hc.
  - simpl in Hc. rewrite Ht in Hc. simpl in Hc. apply String.eqb_eq in Hc. exact Hc.
  - simpl. rewrite Ht. simpl. rewrite Htruthy. exact Hcol.
Qed.

Lemma filter_length_le {A} (f : A -> bool) (l : list A) :
  (length (List.filter f l) <= length l)%nat.
Proof.
  induction l as [| x l IH]; simpl; [lia |]. destruct (f x); simpl; lia.
Qed.

Lemma apply_step_length (s : Server.Step) (st : DataFrame.t * list Server.FilterDesc) :
  (length (DataFrame.rows (fst (Server.apply_step s st)))
   <= length (DataFrame.rows (fst st)))%nat.
Proof.
  unfold Server.apply_step. destruct (Server.step_cond s (fst st)); simpl; [| lia].
  apply filter_length_le.
Qed.

Lemma candidates_length (kwargs : Kwargs.t) (d : DataFrame.t) :
  (length (DataFrame.rows (fst (Server.candidates kwargs d)))
   <= length (DataFrame.rows d))%nat.
Proof.
  unfold Server.candidates, Server.after_transaction.
  do 10 (eapply Nat.le_trans; [apply apply_step_length |]).
  cbn [fst]. rewrite fix_boolean_cols_id. lia.
Qed.

Lemma assign_scores_length (f : Listing.t -> Q) (rs : list Listing.t) :
  length (DataFrame.assign_scores (List.map f rs) rs) = length rs.
Proof. rewrite assign_scores_map. apply length_map. Qed.

Section SearchExtras.

Variable np_exp : Q -> Q.
Variable sort_values : list Listing.t -> list Listing.t.
Variable now : Z.

Hypothesis sort_values_perm : forall l, Permutation l (sort_values l).
Hypothesis sort_values_sorted :
  forall l, StronglySorted Listing.by_descending_score (sort_values l).
Hypothesis np_exp_nonneg : forall x, 0 <= np_exp x.

Abbreviation search_properties := (Server.search_properties np_exp sort_values now).
Abbreviation calculate_madlan_match_score :=
  (Server.calculate_madlan_match_score np_exp now).

(** X1: The returned rows satisfy every requested filter: the price bounds,
    the minimum number of rooms, the distance limits of 1.5 km to a school
    and 2 km to a clinic, and the required features. *)
Theorem search_results_satisfy_filters
    (self : Server.t) (kwargs : Kwargs.t)
    (h0 : gmap Store.ref DataFrame.t) (d0 : DataFrame.t) (r : Listing.t) :
  h0 !! Server.properties_df self = Some d0 ->
  In r (Server.properties (fst (search_properties self kwargs h0))) ->
  (forall p, Kwargs.max_price kwargs = Some p -> Py.truthy p = true ->
             Listing.property_price r <= p) /\
  (forall p, Kwargs.min_price kwargs = Some p -> Py.truthy p = true ->
             p <= Listing.property_price r) /\
  (forall n, Kwargs.rooms kwargs = Some n -> Py.truthy n = true ->
             n <= Listing.property_rooms r) /\
  (Kwargs.near_schools kwargs = Some true ->
   Listing.nearest_school_distance_km r <= 1.5) /\
  (Kwargs.near_medical kwargs = Some true ->
   Listing.nearest_clinic_distance_km r <= 2.0) /\
  (Kwargs.has_parking kwargs = Some true -> Listing.bulletin_has_parking r = true) /\
  (Kwargs.has_elevator kwargs = Some true -> Listing.bulletin_has_elevator r = true) /\
  (Kwargs.has_balcony kwargs = Some true -> Listing.bulletin_has_balconies r = true).
Proof using sort_values_perm.
  intros H0 Hr.
  destruct (search_properties_run np_exp sort_values now self kwargs h0 d0 H0)
    as [Hres _].
  rewrite Hres in Hr. unfold Server.search_result in Hr.
  cbn [Server.properties] in Hr.
  apply (page_of_rows np_exp sort_values now sort_values_perm) in Hr.
  destruct Hr as (c & Hc & ->).
  destruct (candidates_pass_filters kwargs d0 c Hc)
    as (Hmax & Hmin & Hrooms & Hs & Hm & Hp & He & Hb).
  repeat split.
  - intros p Hp' Ht. rewrite Hp' in Hmax. apply Hmax, Ht.
  - intros p Hp' Ht. rewrite Hp' in Hmin. apply Hmin, Ht.
  - intros n Hn Ht. rewrite Hn in Hrooms. apply Hrooms, Ht.
  - intros Hk. rewrite Hk in Hs. apply Hs. reflexivity.
  - intros Hk. rewrite Hk in Hm. apply Hm. reflexivity.
  - intros Hk. rewrite Hk in Hp. apply Hp. reflexivity.
  - intros Hk. rewrite Hk in He. apply He. reflexivity.
  - intros Hk. rewrite Hk in Hb. apply Hb. reflexivity.
Qed.

Lemma calculate_madlan_match_score_range
    (row : Listing.t) (kwargs : Kwargs.t) (pool : DataFrame.t) :
  0 <= calculate_madlan_match_score row kwargs pool <= 100.
Proof using np_exp_nonneg.
  rewrite calculate_madlan_match_score_blocks. split.
  - apply min100_round1_nonneg, float_nonneg_add.
    + apply metadata_score_nonneg.
    + apply (context_score_nonneg np_exp np_exp_nonneg).
  - apply min100_round1_le_100.
Qed.

Lemma page_of_length (kwargs : Kwargs.t) (pool cand : DataFrame.t) :
  let page := Server.page_of np_exp sort_values now kwargs pool cand in
  (length page <= length (DataFrame.rows cand))%nat /\
  ((0 <= Server.limit_of kwargs)%Z ->
   (Z.of_nat (length page) <= Server.limit_of kwargs)%Z).
Proof using sort_values_perm.
  cbv zeta. unfold Server.page_of, DataFrame.head. cbn [DataFrame.rows].
  assert (Hlen : length (sort_values (DataFrame.rows (Server.scored np_exp now kwargs pool cand)))
                 = length (DataFrame.rows cand)).
  { rewrite <- (Permutation_length (sort_values_perm _)).
    unfold Server.scored. simpl. apply assign_scores_length. }
  split.
  - rewrite <- Hlen. destruct (0 <=? Server.limit_of kwargs)%Z;
      rewrite length_firstn; lia.
  - intros Hpos. apply Z.leb_le in Hpos. rewrite Hpos.
    rewrite length_firstn. apply Z.leb_le in Hpos. lia.
Qed.

(** X2: Every returned row is a row of the dataset, unchanged but for its
    match score, which is the one computed for it and lies in [0,100];
    [total_found] is the number of rows returned, which exceeds neither
    the size of the dataset nor a non-negative [limit] (10 when none is
    given). *)
Theorem search_results_from_dataset
    (self : Server.t) (kwargs : Kwargs.t)
    (h0 : gmap Store.ref DataFrame.t) (d0 : DataFrame.t) :
  h0 !! Server.properties_df self = Some d0 ->
  let res := fst (search_properties self kwargs h0) in
  (forall r, In r (Server.properties res) ->
     exists c, In c (DataFrame.rows d0) /\
       r = Listing.with_score (calculate_madlan_match_score c kwargs d0) c /\
       0 <= Listing.score r <= 100) /\
  Server.total_found res = length (Server.properties res) /\
  (Server.total_found res <= length (DataFrame.rows d0))%nat /\
  (forall n, Kwargs.limit kwargs = Some n -> (0 <= n)%Z ->
     (Z.of_nat (Server.total_found res) <= n)%Z) /\
  (Kwargs.limit kwargs = None -> (Server.total_found res <= 10)%nat).
Proof using sort_values_perm np_exp_nonneg.
  intros H0 res.
  destruct (search_properties_run np_exp sort_values now self kwargs h0 d0 H0)
    as [Hres _].
  fold res in Hres. rewrite Hres. unfold Server.search_result.
  cbn [Server.properties Server.total_found].
  destruct (page_of_length kwargs d0 (fst (Server.candidates kwargs d0)))
    as [Hle Hlimit].
  split; [| split; [reflexivity | split; [| split]]].
  - intros r Hr.
    apply (page_of_rows np_exp sort_values now sort_values_perm) in Hr.
    destruct Hr as (c & Hc & ->). exists c.
    split; [apply (candidates_incl kwargs d0 c Hc) |].
    split; [reflexivity |].
    apply calculate_madlan_match_score_range.
  - eapply Nat.le_trans; [exact Hle | apply candidates_length].
  - intros n Hn Hpos. unfold Server.limit_of in Hlimit. rewrite Hn in Hlimit.
    apply Hlimit, Hpos.
  - intros Hn. unfold Server.limit_of in Hlimit. rewrite Hn in Hlimit.
    specialize (Hlimit ltac:(lia)). lia.
Qed.

(** X3: The page is in descending order of match score: no row is followed by
    a row with a higher score, and the first row has the highest score of
    the page. *)
Theorem search_results_descending
    (self : Server.t) (kwargs : Kwargs.t)
    (h0 : gmap Store.ref DataFrame.t) (d0 : DataFrame.t) :
  h0 !! Server.properties_df self = Some d0 ->
  let page := Server.properties (fst (search_properties self kwargs h0)) in
  StronglySorted Listing.by_descending_score page /\
  (forall first rest r, page = first :: rest -> In r page ->
     Listing.score r <= Listing.score first).
Proof using sort_values_sorted.
  intros H0 page.
  destruct (search_properties_run np_exp sort_values now self kwargs h0 d0 H0)
    as [Hres _].
  assert (Hs : StronglySorted Listing.by_descending_score page).
  { subst page. rewrite Hres. unfold Server.search_result. cbn [Server.properties].
    apply (page_sorted_by_descending_score np_exp sort_values now sort_values_sorted). }
  split; [exact Hs |].
  intros first rest r Hpage Hr. rewrite Hpage in Hs, Hr.
  inversion Hs as [| x l _ Hall]; subst.
  destruct Hr as [<- | Hr]; [apply Qle_refl |].
  apply (proj1 (List.Forall_forall _ _) Hall r Hr).
Qed.

(** X4: On a dataset whose [transaction_type] column was filled by
    [classify_transaction_type], a search for [To Let] returns only
    listings priced below 100,000 and a search for [For Sale] only
    listings priced at 100,000 or more. *)
Theorem search_by_type_splits_at_threshold
    (self : Server.t) (kwargs : Kwargs.t)
    (h0 : gmap Store.ref DataFrame.t) (d0 : DataFrame.t) :
  h0 !! Server.properties_df self = Some d0 ->
  DataFrame.has_column "transaction_type" d0 = true ->
  (forall c, In c (DataFrame.rows d0) ->
     Listing.transaction_type c
     = Install.classify_transaction_type (Listing.property_price c)) ->
  let page := Server.properties (fst (search_properties self kwargs h0)) in
  (Kwargs.transaction_type kwargs = Some "To Let"%string ->
   forall r, In r page -> Listing.property_price r < 100000) /\
  (Kwargs.transaction_type kwargs = Some "For Sale"%string ->
   forall r, In r page -> 100000 <= Listing.property_price r).
Proof using sort_values_perm.
  intros H0 Hcol Hclass page.
  destruct (search_properties_run np_exp sort_values now self kwargs h0 d0 H0)
    as [Hres _].
  assert (Hpage : forall t r, Kwargs.transaction_type kwargs = Some t ->
            Str.truthy t = true -> In r page ->
            Install.classify_transaction_type (Listing.property_price r) = t).
  { intros t r Ht Htruthy Hr. subst page. rewrite Hres in Hr.
    unfold Server.search_result in Hr. cbn [Server.properties] in Hr.
    apply (page_of_rows np_exp sort_values now sort_values_perm) in Hr.
    destruct Hr as (c & Hc & ->).
    destruct (with_score_fields
                (Server.calculate_madlan_match_score np_exp now c kwargs d0) c)
      as (-> & _).
    rewrite <- (Hclass c (candidates_incl kwargs d0 c Hc)).
    apply (candidates_explicit_type kwargs d0 c t Ht Htruthy Hcol Hc). }
  split; intros Ht r Hr; specialize (Hpage _ r Ht eq_refl Hr);
    unfold Install.classify_transaction_type in Hpage;
    destruct (Py.ltb (Listing.property_price r) 100000) eqn:E;
    try discriminate Hpage.
  - apply ltb_lt, E.
  - apply ltb_ge, E.
Qed.

End SearchExtras.

Lemma search_results_satisfy_filters_witness :
  List.Forall (fun r => 1500000 <= Listing.property_price r)
    (Server.properties
       (fst (Server.search_properties Example.exp_bound Example.sort_desc
               Example.noon_2025_06_01 Example.self
               (Kwargs.with_min_price 1500000 Kwargs.empty)
               (Example.store_of Example.fallback_data)))).
Proof.
  apply List.Forall_forall. intros r Hr.
  destruct (search_results_satisfy_filters Example.exp_bound Example.sort_desc
              Example.noon_2025_06_01 sort_desc_perm Example.self
              (Kwargs.with_min_price 1500000 Kwargs.empty)
              (Example.store_of Example.fallback_data) Example.fallback_data r
              (example_dataset_lookup Example.fallback_data) Hr)
    as (_ & Hmin & _).
  apply (Hmin 1500000 eq_refl eq_refl).
Defined.

Lemma search_results_from_dataset_witness :
  (Server.total_found
     (fst (Server.search_properties Example.exp_bound Example.sort_desc
             Example.noon_2025_06_01 Example.self Kwargs.empty
             (Example.store_of Example.fallback_data))) <= 10)%nat.
Proof.
  destruct (search_results_from_dataset Example.exp_bound Example.sort_desc
              Example.noon_2025_06_01 sort_desc_perm exp_bound_nonneg Example.self
              Kwargs.empty (Example.store_of Example.fallback_data)
              Example.fallback_data (example_dataset_lookup Example.fallback_data))
    as (_ & _ & _ & _ & Hdefault).
  apply Hdefault. reflexivity.
Defined.

Lemma search_results_descending_witness :
  StronglySorted Listing.by_descending_score
    (Server.properties
       (fst (Server.search_properties Example.exp_bound Example.sort_desc
               Example.noon_2025_06_01 Example.self Kwargs.empty
               (Example.store_of Example.fallback_data)))).
Proof.
  exact (proj1 (search_results_descending Example.exp_bound Example.sort_desc
                  Example.noon_2025_06_01 sort_desc_sorted Example.self Kwargs.empty
                  (Example.store_of Example.fallback_data) Example.fallback_data
                  (example_dataset_lookup Example.fallback_data))).
Defined.

Lemma search_by_type_splits_at_threshold_witness :
  List.Forall (fun r => 100000 <= Listing.property_price r)
    (Server.properties
       (fst (Server.search_properties Example.exp_bound Example.sort_desc
               Example.noon_2025_06_01 Example.self
               (Kwargs.with_transaction_type "For Sale" Kwargs.empty)
               (Example.store_of Example.fallback_data)))).
Proof.
  apply List.Forall_forall.
  refine (proj2 (search_by_type_splits_at_threshold Example.exp_bound Example.sort_desc
                   Example.noon_2025_06_01 sort_desc_perm Example.self
                   (Kwargs.with_transaction_type "For Sale" Kwargs.empty)
                   (Example.store_of Example.fallback_data) Example.fallback_data
                   (example_dataset_lookup Example.fallback_data) eq_refl _) eq_refl).
  intros c [<- | [<- | [<- | []]]]; reflexivity.
Defined.

(** * Travel times and the nearest amenities *)

(** ** The formulas as floors *)

Lemma int_mono (x y : Q) : 0 <= x -> x <= y -> (Py.int x <= Py.int y)%Z.
Proof.
  intros Hx Hxy. rewrite !int_nonneg_floor by lra. apply Qfloor_resp_le, Hxy.
Qed.

Lemma walk_base_floor (d : Q) :
  0 <= d -> Py.int (d / Proximity.base_walk_speed_kmh * 60) = Qfloor (d * (40 # 3)).
Proof.
  intros Hd. rewrite int_nonneg_floor by (apply walk_minutes_nonneg, Hd).
  apply Qfloor_comp. unfold Proximity.base_walk_speed_kmh. field.
Qed.

Lemma drive_base_floor (d : Q) :
  0 <= d -> Py.int (d / Amenities.base_drive_speed_kmh * 60) = Qfloor (d * (30 # 11)).
Proof.
  intros Hd.
  assert (Heq : d / Amenities.base_drive_speed_kmh * 60 == d * (30 # 11)).
  { unfold Amenities.base_drive_speed_kmh. field. }
  rewrite int_nonneg_floor by (rewrite Heq; lra).
  apply Qfloor_comp, Heq.
Qed.

Lemma bus_base_floor (d : Q) : 0 <= d -> Py.int (d / 18 * 60) = Qfloor (d * (10 # 3)).
Proof.
  intros Hd.
  assert (Heq : d / 18 * 60 == d * (10 # 3)) by field.
  rewrite int_nonneg_floor by (rewrite Heq; lra).
  apply Qfloor_comp, Heq.
Qed.

(** The floor of [x], bracketed, for arithmetic over [Z]. *)
Lemma floor_spec (x : Q) (z : Z) :
  Qfloor x = z <-> inject_Z z <= x /\ x < inject_Z (z + 1).
Proof.
  split.
  - intros <-. split; [apply Qfloor_le | apply Qlt_floor].
  - intros [Hlo Hhi].
    pose proof (Qfloor_le x) as Hl. pose proof (Qlt_floor x) as Hh.
    assert (H1 : (z < Qfloor x + 1)%Z) by (rewrite Zlt_Qlt; lra).
    assert (H2 : (Qfloor x < z + 1)%Z) by (rewrite Zlt_Qlt; lra).
    lia.
Qed.

Lemma floor_ge (x : Q) (z : Z) : inject_Z z <= x -> (z <= Qfloor x)%Z.
Proof.
  intros H. pose proof (Qlt_floor x) as Hh.
  assert (z < Qfloor x + 1)%Z by (rewrite Zlt_Qlt; lra). lia.
Qed.

Lemma floor_lt (x : Q) (z : Z) : x < inject_Z z -> (Qfloor x < z)%Z.
Proof.
  intros H. pose proof (Qfloor_le x) as Hl. rewrite Zlt_Qlt. lra.
Qed.

Lemma floor_nonneg (x : Q) : 0 <= x -> (0 <= Qfloor x)%Z.
Proof. intros H. apply floor_ge. exact H. Qed.

(** The three times, with the tests on [distance_km] decided. *)
Lemma walk_time_unfold (d : Q) :
  0 <= d ->
  Proximity.walk_time_minutes d
  = (Z.max 1 (Qfloor (d * (40 # 3)))
     + (if Qlt_le_dec 0.5 d then Qfloor (d * 3) else 0))%Z.
Proof.
  intros Hd. unfold Proximity.walk_time_minutes. rewrite walk_base_floor by exact Hd.
  destruct (Qlt_le_dec 0.5 d) as [H | H].
  - apply ltb_lt in H. rewrite H. rewrite int_nonneg_floor by lra. reflexivity.
  - apply ltb_ge in H. rewrite H. lia.
Qed.

Lemma drive_time_unfold (d : Q) :
  0 <= d ->
  Amenities.drive_time_minutes d
  = (Z.max 2 (Qfloor (d * (30 # 11)))
     + (if Qlt_le_dec 0.8 d then Qfloor (d * 2) else 0))%Z.
Proof.
  intros Hd. unfold Amenities.drive_time_minutes. rewrite drive_base_floor by exact Hd.
  destruct (Qlt_le_dec 0.8 d) as [H | H].
  - apply ltb_lt in H. rewrite H. rewrite int_nonneg_floor by lra. reflexivity.
  - apply ltb_ge in H. rewrite H. lia.
Qed.

(** ** Monotonicity *)

(** X8: A farther amenity is never reported with a shorter walking time. *)
Theorem walk_time_monotone (d1 d2 : Q) :
  0 <= d1 -> d1 <= d2 ->
  (Proximity.walk_time_minutes d1 <= Proximity.walk_time_minutes d2)%Z.
Proof.
  intros H1 H12. rewrite !walk_time_unfold by lra.
  assert (Hb : (Qfloor (d1 * (40 # 3)) <= Qfloor (d2 * (40 # 3)))%Z)
    by (apply Qfloor_resp_le; lra).
  assert (Hp : (Qfloor (d1 * 3) <= Qfloor (d2 * 3))%Z) by (apply Qfloor_resp_le; lra).
  assert (H0 : (0 <= Qfloor (d2 * 3))%Z) by (apply floor_nonneg; lra).
  destruct (Qlt_le_dec 0.5 d1), (Qlt_le_dec 0.5 d2); try lia. lra.
Qed.

Lemma walk_time_monotone_witness :
  (Proximity.walk_time_minutes 0.4 <= Proximity.walk_time_minutes 1.2)%Z.
Proof.
  apply (walk_time_monotone 0.4 1.2); unfold Qle; simpl; lia.
Defined.

(** X9: The driving time is at least two minutes, and a farther amenity is
    never reported with a shorter one. *)
Theorem drive_time_monotone (d1 d2 : Q) :
  0 <= d1 -> d1 <= d2 ->
  (2 <= Amenities.drive_time_minutes d1 <= Amenities.drive_time_minutes d2)%Z.
Proof.
  intros H1 H12. rewrite !drive_time_unfold by lra.
  assert (Hb : (Qfloor (d1 * (30 # 11)) <= Qfloor (d2 * (30 # 11)))%Z)
    by (apply Qfloor_resp_le; lra).
  assert (Hp : (Qfloor (d1 * 2) <= Qfloor (d2 * 2))%Z) by (apply Qfloor_resp_le; lra).
  assert (H0 : (0 <= Qfloor (d1 * 2))%Z) by (apply floor_nonneg; lra).
  assert (H0' : (0 <= Qfloor (d2 * 2))%Z) by (apply floor_nonneg; lra).
  destruct (Qlt_le_dec 0.8 d1), (Qlt_le_dec 0.8 d2); try lia. lra.
Qed.

Lemma drive_time_monotone_witness :
  (2 <= Amenities.drive_time_minutes 0.4 <= Amenities.drive_time_minutes 3)%Z.
Proof.
  apply (drive_time_monotone 0.4 3); unfold Qle; simpl; lia.
Defined.

(** ** Driving against walking *)

(** X10: Driving is reported as no slower than walking exactly from 150 m on:
    below that the walk is one minute and the drive two. *)
Theorem drive_not_slower_than_walk (d : Q) :
  0 <= d ->
  ((Amenities.drive_time_minutes d <= Proximity.walk_time_minutes d)%Z <-> 0.15 <= d).
Proof.
  intros Hd. rewrite walk_time_unfold, drive_time_unfold by exact Hd.
  assert (Hbase : (Qfloor (d * (30 # 11)) <= Qfloor (d * (40 # 3)))%Z)
    by (apply Qfloor_resp_le; lra).
  assert (Hpen : (Qfloor (d * 2) <= Qfloor (d * 3))%Z) by (apply Qfloor_resp_le; lra).
  assert (H0 : (0 <= Qfloor (d * 3))%Z) by (apply floor_nonneg; lra).
  split.
  - intros H. destruct (Qlt_le_dec d 0.15) as [Hlt | Hge]; [| exact Hge].
    exfalso.
    assert (Hw : (Qfloor (d * (40 # 3)) < 2)%Z) by (apply floor_lt; unfold inject_Z; lra).
    assert (H0d : (0 <= Qfloor (d * 2))%Z) by (apply floor_nonneg; lra).
    destruct (Qlt_le_dec 0.5 d), (Qlt_le_dec 0.8 d); try lra; lia.
  - intros Hge.
    assert (Hw : (2 <= Qfloor (d * (40 # 3)))%Z)
      by (apply floor_ge; unfold inject_Z; lra).
    destruct (Qlt_le_dec 0.5 d), (Qlt_le_dec 0.8 d); try lra; lia.
Qed.

Lemma drive_not_slower_than_walk_witness :
  (Amenities.drive_time_minutes 0.15 <= Proximity.walk_time_minutes 0.15)%Z.
Proof.
  apply (drive_not_slower_than_walk 0.15); unfold Qle; simpl; lia.
Defined.

(** ** Public transport and the accessibility rating *)

Lemma rating_fair (d : Q) :
  1.5 <= d -> Amenities.accessibility_rating d = "Fair - Longer commute"%string.
Proof.
  intros H. unfold Amenities.accessibility_rating.
  assert (E1 : Py.ltb d 0.3 = false) by (apply ltb_ge; lra).
  assert (E2 : Py.ltb d 0.8 = false) by (apply ltb_ge; lra).
  assert (E3 : Py.ltb d 1.5 = false) by (apply ltb_ge; lra).
  rewrite E1, E2, E3. reflexivity.
Qed.

Lemma floor_bounds (x : Q) :
  inject_Z (Qfloor x) <= x /\ x < inject_Z (Qfloor x) + 1.
Proof.
  split; [apply Qfloor_le |].
  pose proof (Qlt_floor x) as H. rewrite inject_Z_plus in H. exact H.
Qed.

(** X11: A public-transport time is reported only beyond 1.5 km, that is only
    for amenities rated "Fair - Longer commute"; it is then at least 21
    minutes, shorter than the walking time and, up to 10 km, longer than
    the driving time. *)
Theorem public_transport_only_for_long_trips (d : Q) :
  0 <= d ->
  (d <= 1.5 -> Amenities.public_transport_time d = None) /\
  (forall t, Amenities.public_transport_time d = Some t ->
     1.5 < d /\
     (21 <= t)%Z /\
     (t < Proximity.walk_time_minutes d)%Z /\
     (d <= 10 -> (Amenities.drive_time_minutes d < t)%Z) /\
     Amenities.accessibility_rating d = "Fair - Longer commute"%string).
Proof.
  intros Hd. unfold Amenities.public_transport_time. split.
  - intros H. apply ltb_ge in H. rewrite H. reflexivity.
  - intros t Ht. destruct (Py.ltb 1.5 d) eqn:E; [| discriminate].
    apply ltb_lt in E. cbv zeta in Ht. injection Ht as <-.
    rewrite bus_base_floor by exact Hd.
    rewrite walk_time_unfold, drive_time_unfold by exact Hd.
    destruct (Qlt_le_dec 0.5 d); [| lra]. destruct (Qlt_le_dec 0.8 d); [| lra].
    destruct (floor_bounds (d * (10 # 3))) as [Hc1 Hc2].
    destruct (floor_bounds (d * (40 # 3))) as [Ha1 Ha2].
    destruct (floor_bounds (d * 3)) as [Hb1 Hb2].
    destruct (floor_bounds (d * (30 # 11))) as [Hx1 Hx2].
    destruct (floor_bounds (d * 2)) as [Hy1 Hy2].
    assert (Hc5 : (5 <= Qfloor (d * (10 # 3)))%Z)
      by (apply floor_ge; unfold inject_Z; lra).
    assert (Ha : (20 <= Qfloor (d * (40 # 3)))%Z)
      by (apply floor_ge; unfold inject_Z; lra).
    assert (Hx : (4 <= Qfloor (d * (30 # 11)))%Z)
      by (apply floor_ge; unfold inject_Z; lra).
    split; [exact E |]. split; [lia |]. split; [| split].
    + assert (H : (16 + Qfloor (d * (10 # 3))
                   < Qfloor (d * (40 # 3)) + Qfloor (d * 3))%Z).
      { rewrite Zlt_Qlt, !inject_Z_plus. change (inject_Z 16) with 16. lra. }
      lia.
    + intros H10.
      assert (H : (Qfloor (d * (30 # 11)) + Qfloor (d * 2)
                   < 16 + Qfloor (d * (10 # 3)))%Z).
      { rewrite Zlt_Qlt, !inject_Z_plus. change (inject_Z 16) with 16. lra. }
      lia.
    + apply rating_fair. lra.
Qed.

Lemma public_transport_only_for_long_trips_witness :
  (21 <= 27 < Proximity.walk_time_minutes 3.4)%Z /\
  Amenities.public_transport_time 1.5 = None.
Proof.
  assert (H0 : 0 <= 3.4) by (unfold Qle; simpl; lia).
  assert (H1 : 0 <= 1.5) by (unfold Qle; simpl; lia).
  destruct (proj2 (public_transport_only_for_long_trips 3.4 H0) 27%Z eq_refl)
    as (_ & Ht & Hw & _).
  split; [split; assumption |].
  apply (proj1 (public_transport_only_for_long_trips 1.5 H1)).
  unfold Qle; simpl; lia.
Defined.

(** X12: The rating follows half-open bands of the distance ([0.3], [0.8] and
    [1.5] belong to the band above them), and each band has its range of
    walking times: 1 to 3 minutes, 4 to 12, 12 to 23, and 24 or more. *)
Theorem accessibility_rating_bands (d : Q) :
  0 <= d ->
  let w := Proximity.walk_time_minutes d in
  (d < 0.3 ->
   Amenities.accessibility_rating d = "Excellent - Very close"%string /\
   (1 <= w <= 3)%Z) /\
  (0.3 <= d -> d < 0.8 ->
   Amenities.accessibility_rating d = "Very Good - Walking distance"%string /\
   (4 <= w <= 12)%Z) /\
  (0.8 <= d -> d < 1.5 ->
   Amenities.accessibility_rating d = "Good - Short commute"%string /\
   (12 <= w <= 23)%Z) /\
  (1.5 <= d ->
   Amenities.accessibility_rating d = "Fair - Longer commute"%string /\
   (24 <= w)%Z).
Proof.
  intros Hd w. subst w. rewrite walk_time_unfold by exact Hd.
  unfold Amenities.accessibility_rating.
  pose proof (floor_nonneg (d * (40 # 3)) ltac:(lra)) as Ha0.
  pose proof (floor_nonneg (d * 3) ltac:(lra)) as Hb0.
  repeat split.
  - apply ltb_lt in H. rewrite H. reflexivity.
  - destruct (Qlt_le_dec 0.5 d); lia.
  - assert ((Qfloor (d * (40 # 3)) < 4)%Z) by (apply floor_lt; unfold inject_Z; lra).
    destruct (Qlt_le_dec 0.5 d); [lra | lia].
  - assert (E1 : Py.ltb d 0.3 = false) by (apply ltb_ge; lra).
    assert (E2 : Py.ltb d 0.8 = true) by (apply ltb_lt; lra).
    rewrite E1, E2. reflexivity.
  - assert ((4 <= Qfloor (d * (40 # 3)))%Z) by (apply floor_ge; unfold inject_Z; lra).
    destruct (Qlt_le_dec 0.5 d); lia.
  - assert ((Qfloor (d * (40 # 3)) < 11)%Z) by (apply floor_lt; unfold inject_Z; lra).
    assert ((Qfloor (d * 3) < 3)%Z) by (apply floor_lt; unfold inject_Z; lra).
    destruct (Qlt_le_dec 0.5 d); lia.
  - assert (E1 : Py.ltb d 0.3 = false) by (apply ltb_ge; lra).
    assert (E2 : Py.ltb d 0.8 = false) by (apply ltb_ge; lra).
    assert (E3 : Py.ltb d 1.5 = true) by (apply ltb_lt; lra).
    rewrite E1, E2, E3. reflexivity.
  - assert ((10 <= Qfloor (d * (40 # 3)))%Z) by (apply floor_ge; unfold inject_Z; lra).
    assert ((2 <= Qfloor (d * 3))%Z) by (apply floor_ge; unfold inject_Z; lra).
    destruct (Qlt_le_dec 0.5 d); [lia | lra].
  - assert ((Qfloor (d * (40 # 3)) < 20)%Z) by (apply floor_lt; unfold inject_Z; lra).
    assert ((Qfloor (d * 3) < 5)%Z) by (apply floor_lt; unfold inject_Z; lra).
    destruct (Qlt_le_dec 0.5 d); lia.
  - apply rating_fair. assumption.
  - assert ((20 <= Qfloor (d * (40 # 3)))%Z) by (apply floor_ge; unfold inject_Z; lra).
    assert ((4 <= Qfloor (d * 3))%Z) by (apply floor_ge; unfold inject_Z; lra).
    destruct (Qlt_le_dec 0.5 d); [lia | lra].
Qed.

Lemma accessibility_rating_bands_witness :
  Amenities.accessibility_rating 0.3 = "Very Good - Walking distance"%string /\
  (4 <= Proximity.walk_time_minutes 0.3 <= 12)%Z.
Proof.
  assert (H0 : 0 <= 0.3) by (unfold Qle; simpl; lia).
  destruct (accessibility_rating_bands 0.3 H0) as (_ & Hband & _).
  apply Hband; [unfold Qle | unfold Qlt]; simpl; lia.
Defined.

(** ** The two walking times of the report *)

(** X13: The walking time of the comparison section adds the terrain minutes
    at every distance, the one of the amenity list only beyond 0.5 km: the
    two agree except for distances from 1/3 km to 0.5 km, where the
    comparison section reports one minute more. *)
Theorem closest_walk_time_differs (d : Q) :
  0 <= d ->
  Amenities.closest_walk_time d
  = (Proximity.walk_time_minutes d
     + (if Qle_bool (1 # 3) d && Qle_bool d (1 # 2) then 1 else 0))%Z.
Proof.
  intros Hd. rewrite walk_time_unfold by exact Hd.
  unfold Amenities.closest_walk_time.
  change 4.5 with Proximity.base_walk_speed_kmh.
  rewrite walk_base_floor by exact Hd.
  rewrite (int_nonneg_floor (d * 3)) by lra.
  destruct (Qlt_le_dec 0.5 d) as [Hfar | Hnear].
  - assert (E : Qle_bool d (1 # 2) = false).
    { destruct (Qle_bool d (1 # 2)) eqn:E; [| reflexivity].
      apply Qle_bool_iff in E. lra. }
    rewrite E, andb_false_r. lia.
  - assert (E : Qle_bool d (1 # 2) = true) by (apply Qle_bool_iff; lra).
    rewrite E, andb_true_r.
    destruct (Qle_bool (1 # 3) d) eqn:E3.
    + apply Qle_bool_iff in E3.
      assert (Qfloor (d * 3) = 1%Z); [| lia].
      apply floor_spec.
      change (inject_Z 1) with 1. change (inject_Z (1 + 1)) with 2. split; lra.
    + assert (Hlt : d < 1 # 3).
      { apply Qnot_le_lt. intros H. apply Qle_bool_iff in H. congruence. }
      assert (Qfloor (d * 3) = 0%Z); [| lia].
      apply floor_spec.
      change (inject_Z 0) with 0. change (inject_Z (0 + 1)) with 1. split; lra.
Qed.

Lemma closest_walk_time_differs_witness :
  Amenities.closest_walk_time 0.4 = (Proximity.walk_time_minutes 0.4 + 1)%Z.
Proof.
  rewrite (closest_walk_time_differs 0.4); [reflexivity |].
  unfold Qle; simpl; lia.
Defined.

(** ** Kilometres and metres of one entry *)

(** X14: The metres are truncated and the kilometres rounded to three places,
    so the two reported figures agree up to one metre: the rounded
    kilometres are the metres or one metre more. *)
Theorem distance_meters_within_a_metre (d : Q) :
  0 <= d ->
  inject_Z (Amenities.distance_meters d) <= Amenities.round_ndigits d 3 * 1000 /\
  Amenities.round_ndigits d 3 * 1000 <= inject_Z (Amenities.distance_meters d + 1).
Proof.
  intros Hd. unfold Amenities.distance_meters, Amenities.round_ndigits.
  rewrite int_nonneg_floor by lra.
  change (inject_Z (10 ^ Z.of_nat 3)) with 1000.
  change (Z.to_pos (10 ^ Z.of_nat 3)) with 1000%positive.
  pose proof (round_half_even_bounds (d * 1000)) as [Hlo Hhi].
  set (r := Py.round_half_even (d * 1000)) in *.
  assert (Heq : (r # 1000) * 1000 == inject_Z r).
  { unfold Qeq, Qmult, inject_Z. cbn [Qnum Qden].
    change (Z.pos (1000 * 1)) with 1000%Z. lia. }
  rewrite Heq. rewrite <- !Zle_Qle. split; lia.
Qed.

Lemma distance_meters_within_a_metre_witness :
  inject_Z (Amenities.distance_meters 1.2345)
  <= Amenities.round_ndigits 1.2345 3 * 1000 /\
  Amenities.round_ndigits 1.2345 3 * 1000
  <= inject_Z (Amenities.distance_meters 1.2345 + 1).
Proof.
  apply (distance_meters_within_a_metre 1.2345). unfold Qle; simpl; lia.
Defined.

(** * Market statistics *)

(** [int] truncates toward zero, which keeps the order. *)
Lemma int_monotone (x y : Q) : x <= y -> (Py.int x <= Py.int y)%Z.
Proof.
  intros Hxy. destruct (Qlt_le_dec x 0) as [Hx | Hx].
  - destruct (Qlt_le_dec y 0) as [Hy | Hy].
    + rewrite !int_nonpos_ceiling by lra. apply Qceiling_resp_le, Hxy.
    + rewrite (int_nonpos_ceiling x) by lra. rewrite (int_nonneg_floor y) by exact Hy.
      assert (Qceiling x <= 0)%Z.
      { change 0%Z with (Qceiling 0). apply Qceiling_resp_le. lra. }
      assert (0 <= Qfloor y)%Z.
      { change 0%Z with (Qfloor 0). apply Qfloor_resp_le. exact Hy. }
      lia.
  - rewrite !int_nonneg_floor by lra. apply Qfloor_resp_le, Hxy.
Qed.

Lemma col_min_fold (rest : list Q) (m : Q) :
  let r := fold_left (fun m y => if Py.ltb y m then y else m) rest m in
  r <= m /\ forall y, In y rest -> r <= y.
Proof.
  cbv zeta. revert m. induction rest as [| x rest IH]; intros m; simpl.
  - split; [lra | contradiction].
  - destruct (Py.ltb x m) eqn:E.
    + apply ltb_lt in E. destruct (IH x) as [Hle Hall].
      split; [lra |]. intros y [<- | Hy]; [exact Hle | exact (Hall y Hy)].
    + apply ltb_ge in E. destruct (IH m) as [Hle Hall].
      split; [exact Hle |]. intros y [<- | Hy]; [lra | exact (Hall y Hy)].
Qed.

Lemma col_max_fold (rest : list Q) (m : Q) :
  let r := fold_left (fun m y => if Py.ltb m y then y else m) rest m in
  m <= r /\ forall y, In y rest -> y <= r.
Proof.
  cbv zeta. revert m. induction rest as [| x rest IH]; intros m; simpl.
  - split; [lra | contradiction].
  - destruct (Py.ltb m x) eqn:E.
    + apply ltb_lt in E. destruct (IH x) as [Hle Hall].
      split; [lra |]. intros y [<- | Hy]; [exact Hle | exact (Hall y Hy)].
    + apply ltb_ge in E. destruct (IH m) as [Hle Hall].
      split; [exact Hle |]. intros y [<- | Hy]; [lra | exact (Hall y Hy)].
Qed.

Lemma col_min_le (col : list Q) (x : Q) : In x col -> Server.col_min col <= x.
Proof.
  destruct col as [| a rest]; [contradiction |]. simpl.
  destruct (col_min_fold rest a) as [Hle Hall]. cbv zeta in *.
  intros [<- | Hx]; [exact Hle | exact (Hall x Hx)].
Qed.

Lemma col_max_ge (col : list Q) (x : Q) : In x col -> x <= Server.col_max col.
Proof.
  destruct col as [| a rest]; [contradiction |]. simpl.
  destruct (col_max_fold rest a) as [Hle Hall]. cbv zeta in *.
  intros [<- | Hx]; [exact Hle | exact (Hall x Hx)].
Qed.

Lemma sum_bounds (col : list Q) (lo hi : Q) :
  (forall x, In x col -> lo <= x <= hi) ->
  lo * inject_Z (Z.of_nat (length col)) <= fold_right Qplus 0 col
  /\ fold_right Qplus 0 col <= hi * inject_Z (Z.of_nat (length col)).
Proof.
  induction col as [| a col IH]; intros H.
  - cbn [fold_right length]. change (inject_Z (Z.of_nat 0)) with 0. split; lra.
  - destruct IH as [IH1 IH2]; [intros x Hx; apply H; right; exact Hx |].
    destruct (H a (or_introl eq_refl)) as [Ha1 Ha2].
    cbn [fold_right length]. rewrite Nat2Z.inj_succ, <- Z.add_1_r, inject_Z_plus.
    change (inject_Z 1) with 1. split; lra.
Qed.

Lemma mean_between (col : list Q) :
  col <> [] -> Server.col_min col <= Server.mean col <= Server.col_max col.
Proof.
  intros Hne. unfold Server.mean.
  assert (Hn : 0 < inject_Z (Z.of_nat (length col))).
  { change 0 with (inject_Z 0). rewrite <- Zlt_Qlt.
    destruct col; [congruence | simpl; lia]. }
  destruct (sum_bounds col (Server.col_min col) (Server.col_max col)) as [H1 H2].
  { intros x Hx. split; [apply col_min_le | apply col_max_ge]; exact Hx. }
  split.
  - apply Qle_shift_div_l; assumption.
  - apply Qle_shift_div_r; assumption.
Qed.

(** X7: The price figures of [market_stats] bracket the page they are
    computed from: the minimum is not above the average, the average not
    above the maximum, and the whole part of every price of the page lies
    between the two; an empty page gives zeros. *)
Theorem market_stats_bracket_page (page : list Listing.t) :
  let stats := Server.market_stats_of page in
  (Server.min_price stats <= Server.avg_price stats <= Server.max_price stats)%Z /\
  (forall r, In r page ->
     (Server.min_price stats <= Py.int (Listing.property_price r)
      <= Server.max_price stats)%Z) /\
  (page = [] -> stats = Server.mkStats 0 0 0 0).
Proof.
  cbv zeta. destruct page as [| r0 page]; [simpl; repeat split; try lia; contradiction |].
  unfold Server.market_stats_of. cbv zeta.
  cbn [Server.min_price Server.avg_price Server.max_price].
  set (prices := List.map Listing.property_price (r0 :: page)).
  destruct (mean_between prices) as [Hlo Hhi]; [discriminate |].
  split; [split; apply int_monotone; assumption |].
  split; [| discriminate].
  intros r Hr.
  assert (Hin : In (Listing.property_price r) prices).
  { subst prices. apply in_map. exact Hr. }
  split; apply int_monotone; [apply col_min_le | apply col_max_ge]; exact Hin.
Qed.

(** * The nearest amenities *)

Lemma insert_by_distance_perm (x : Amenities.AmenityInfo) (l : list Amenities.AmenityInfo) :
  Permutation (x :: l) (Amenities.insert_by_distance x l).
Proof.
  induction l as [| y l IH]; simpl; [apply Permutation_refl |].
  destruct (Py.leb (Amenities.distance_km x) (Amenities.distance_km y)).
  - apply Permutation_refl.
  - eapply Permutation_trans; [apply perm_swap |].
    apply perm_skip, IH.
Qed.

Lemma sort_by_distance_perm (l : list Amenities.AmenityInfo) :
  Permutation l (Amenities.sort_by_distance l).
Proof.
  induction l as [| x l IH]; simpl; [apply perm_nil |].
  eapply Permutation_trans; [apply perm_skip, IH |].
  apply insert_by_distance_perm.
Qed.

Lemma insert_by_distance_sorted (x : Amenities.AmenityInfo) (l : list Amenities.AmenityInfo) :
  StronglySorted (fun a b => Amenities.distance_km a <= Amenities.distance_km b) l ->
  StronglySorted (fun a b => Amenities.distance_km a <= Amenities.distance_km b)
    (Amenities.insert_by_distance x l).
Proof.
  intros Hs. induction Hs as [| y l Hs IH Hy]; simpl.
  - constructor; constructor.
  - destruct (Py.leb (Amenities.distance_km x) (Amenities.distance_km y)) eqn:E.
    + apply Qle_bool_iff in E. constructor; [constructor; assumption |].
      constructor; [exact E |].
      apply List.Forall_forall. intros z Hz.
      pose proof (proj1 (List.Forall_forall _ _) Hy z Hz) as Hyz.
      simpl in Hyz. lra.
    + assert (Hlt : Amenities.distance_km y < Amenities.distance_km x).
      { apply Qnot_le_lt. intros H. apply Qle_bool_iff in H.
        unfold Py.leb in E. congruence. }
      constructor; [exact IH |].
      apply List.Forall_forall. intros z Hz.
      apply (Permutation_in _ (Permutation_sym (insert_by_distance_perm x l))) in Hz.
      destruct Hz as [<- | Hz].
      * lra.
      * exact (proj1 (List.Forall_forall _ _) Hy z Hz).
Qed.

Lemma sort_by_distance_sorted (l : list Amenities.AmenityInfo) :
  StronglySorted (fun a b => Amenities.distance_km a <= Amenities.distance_km b)
    (Amenities.sort_by_distance l).
Proof.
  induction l as [| x l IH]; simpl; [constructor |].
  apply insert_by_distance_sorted, IH.
Qed.

Lemma strongly_sorted_app {A} (R : A -> A -> Prop) (l1 l2 : list A) :
  StronglySorted R (l1 ++ l2) ->
  forall a b, In a l1 -> In b l2 -> R a b.
Proof.
  induction l1 as [| x l1 IH]; simpl; intros Hs a b Ha Hb; [contradiction |].
  inversion Hs as [| ? ? Hs' Hx]; subst.
  destruct Ha as [<- | Ha].
  - apply (proj1 (List.Forall_forall _ _) Hx). apply in_or_app. right. exact Hb.
  - apply (IH Hs' a b Ha Hb).
Qed.

(** A slice [l[:n]] is a prefix of [l]. *)
Lemma slice_to_firstn {A} (n : Z) (l : list A) :
  Amenities.slice_to n l
  = firstn (if (0 <=? n)%Z then Z.to_nat n else length l - Z.to_nat (- n)) l.
Proof. unfold Amenities.slice_to. destruct (0 <=? n)%Z; reflexivity. Qed.

Lemma slice_to_length {A} (n : Z) (l : list A) :
  length (Amenities.slice_to n l)
  = if (0 <=? n)%Z then Nat.min (Z.to_nat n) (length l)
    else (length l - Z.to_nat (- n))%nat.
Proof.
  unfold Amenities.slice_to. destruct (0 <=? n)%Z; rewrite length_firstn; lia.
Qed.

(** The catalogue has three categories, of six, four and three entries;
    any other key gives the empty list. *)
Lemma get_or_empty_cases (amenity_type : string) :
  (amenity_type = "schools"%string /\
   length (Amenities.get_or_empty Amenities.AMENITY_DATA amenity_type) = 6%nat) \/
  (amenity_type = "medical"%string /\
   length (Amenities.get_or_empty Amenities.AMENITY_DATA amenity_type) = 4%nat) \/
  (amenity_type = "transport"%string /\
   length (Amenities.get_or_empty Amenities.AMENITY_DATA amenity_type) = 3%nat) \/
  (~ In amenity_type ["schools"; "medical"; "transport"]%string /\
   Amenities.get_or_empty Amenities.AMENITY_DATA amenity_type = []).
Proof.
  unfold Amenities.AMENITY_DATA. cbn [Amenities.get_or_empty].
  destruct (String.eqb_spec "schools" amenity_type) as [<- | H1];
    [left; split; reflexivity |].
  destruct (String.eqb_spec "medical" amenity_type) as [<- | H2];
    [right; left; split; reflexivity |].
  destruct (String.eqb_spec "transport" amenity_type) as [<- | H3];
    [right; right; left; split; reflexivity |].
  right; right; right. split; [| reflexivity].
  intros [H | [H | [H | []]]]; congruence.
Qed.

Section NearestAmenities.

Variable geodesic_km : Q * Q -> Q * Q -> Q.

Abbreviation get_nearest_amenities := (Amenities.get_nearest_amenities geodesic_km).
Abbreviation amenity_info := (Amenities.amenity_info geodesic_km).

(** X15: The list returned by [get_nearest_amenities] is in ascending order of
    the rounded distance and holds the nearest entries of the category:
    the entries built for the catalogue split into the returned ones and
    the rest, and nothing in the rest is nearer than a returned entry. The
    number returned is the smaller of the limit and the size of the
    category; a negative limit leaves out that many of the farthest
    entries. *)
Theorem nearest_amenities_are_nearest (property_coords : Q * Q) (amenity_type : string)
    (limit : Z) :
  let found := get_nearest_amenities property_coords amenity_type limit in
  let all := List.map (amenity_info property_coords)
               (Amenities.get_or_empty Amenities.AMENITY_DATA amenity_type) in
  StronglySorted (fun a b => Amenities.distance_km a <= Amenities.distance_km b) found /\
  length found
  = (if (0 <=? limit)%Z then Nat.min (Z.to_nat limit) (length all)
     else (length all - Z.to_nat (- limit))%nat) /\
  exists rest,
    Permutation all (found ++ rest) /\
    forall a b, In a found -> In b rest ->
                Amenities.distance_km a <= Amenities.distance_km b.
Proof using Type.
  intros found all. subst found. unfold Amenities.get_nearest_amenities. cbv zeta.
  fold all.
  pose proof (sort_by_distance_sorted all) as Hs.
  pose proof (sort_by_distance_perm all) as Hp.
  split; [| split].
  - rewrite slice_to_firstn. apply firstn_strongly_sorted, Hs.
  - rewrite slice_to_length. rewrite <- (Permutation_length Hp). reflexivity.
  - rewrite slice_to_firstn.
    set (k := if (0 <=? limit)%Z then Z.to_nat limit
              else (length (Amenities.sort_by_distance all) - Z.to_nat (- limit))%nat).
    exists (skipn k (Amenities.sort_by_distance all)). split.
    + rewrite firstn_skipn. exact Hp.
    + apply strongly_sorted_app. rewrite firstn_skipn. exact Hs.
Qed.

(** X16: A smaller limit gives a prefix of what a larger limit gives; from
    limit 6 on the whole category is returned (the report asks for 10 to
    count the schools and medical facilities within 2 km); and with a
    positive limit the list is empty exactly for a category other than
    ['schools'], ['medical'] and ['transport']. *)
Theorem nearest_amenities_limit (property_coords : Q * Q) (amenity_type : string)
    (k k' : Z) :
  (0 < k <= k')%Z ->
  get_nearest_amenities property_coords amenity_type k
  = firstn (Z.to_nat k) (get_nearest_amenities property_coords amenity_type k') /\
  ((6 <= k)%Z ->
   Permutation
     (List.map (amenity_info property_coords)
        (Amenities.get_or_empty Amenities.AMENITY_DATA amenity_type))
     (get_nearest_amenities property_coords amenity_type k)) /\
  (get_nearest_amenities property_coords amenity_type k = []
   <-> ~ In amenity_type ["schools"; "medical"; "transport"]%string).
Proof using Type.
  intros [Hk Hkk']. unfold Amenities.get_nearest_amenities. cbv zeta.
  set (all := List.map (amenity_info property_coords)
                (Amenities.get_or_empty Amenities.AMENITY_DATA amenity_type)).
  pose proof (sort_by_distance_perm all) as Hp.
  assert (Hlen : length (Amenities.sort_by_distance all)
                 = length (Amenities.get_or_empty Amenities.AMENITY_DATA amenity_type)).
  { rewrite <- (Permutation_length Hp). subst all. apply length_map. }
  unfold Amenities.slice_to.
  destruct (Z.leb_spec 0 k) as [_ | ?]; [| lia].
  destruct (Z.leb_spec 0 k') as [_ | ?]; [| lia].
  split; [| split].
  - rewrite firstn_firstn. f_equal. lia.
  - intros H6. rewrite firstn_all2; [exact Hp |].
    rewrite Hlen.
    destruct (get_or_empty_cases amenity_type)
      as [[_ E] | [[_ E] | [[_ E] | [_ E]]]]; rewrite E; simpl; lia.
  - destruct (get_or_empty_cases amenity_type)
      as [[-> E] | [[-> E] | [[-> E] | [Hnot E]]]].
    1-3: split;
      [ intros H; apply (f_equal (@length _)) in H;
        rewrite length_firstn, Hlen, E in H; simpl in H; lia
      | intros H; exfalso; apply H; simpl; tauto ].
    split; [intros _; exact Hnot |].
    intros _. subst all. rewrite E. simpl. apply firstn_nil.
Qed.

End NearestAmenities.

Lemma nearest_amenities_limit_witness :
  Permutation
    (List.map (Amenities.amenity_info Samples.taxicab_km (32.8, 34.99))
       (Amenities.get_or_empty Amenities.AMENITY_DATA "medical"))
    (Amenities.get_nearest_amenities Samples.taxicab_km (32.8, 34.99) "medical" 10).
Proof.
  apply (proj1 (proj2 (nearest_amenities_limit Samples.taxicab_km
                         (32.8, 34.99) "medical" 10 10 ltac:(lia)))).
  lia.
Defined.

(** * The nearest facilities of a listing *)

Lemma min_by_distance_fold (rest : list (string * Q)) (best : string * Q) :
  let r := fold_left (fun best y => if Py.ltb (snd y) (snd best) then y else best)
             rest best in
  (r = best \/ In r rest) /\ snd r <= snd best /\
  forall y, In y rest -> snd r <= snd y.
Proof.
  cbv zeta. revert best. induction rest as [| x rest IH]; intros best; simpl.
  - split; [left; reflexivity |]. split; [lra | contradiction].
  - destruct (Py.ltb (snd x) (snd best)) eqn:E.
    + apply ltb_lt in E. destruct (IH x) as (Hin & Hle & Hall).
      split; [destruct Hin as [-> | Hin]; auto |].
      split; [lra |].
      intros y [<- | Hy]; [exact Hle | exact (Hall y Hy)].
    + apply ltb_ge in E. destruct (IH best) as (Hin & Hle & Hall).
      split; [destruct Hin as [-> | Hin]; auto |].
      split; [exact Hle |].
      intros y [<- | Hy]; [lra | exact (Hall y Hy)].
Qed.

(** [min] with a key returns an entry of the list that no entry beats;
    it fails only on the empty list. *)
Lemma min_by_distance_spec (l : list (string * Q)) :
  l <> [] ->
  exists b, Facilities.min_by_distance l = Some b /\ In b l /\
            forall x, In x l -> snd b <= snd x.
Proof.
  destruct l as [| x rest]; [congruence |]. intros _.
  destruct (min_by_distance_fold rest x) as (Hin & Hle & Hall). cbv zeta in *.
  eexists. split; [reflexivity |]. split.
  - destruct Hin as [-> | Hin]; [left; reflexivity | right; exact Hin].
  - intros y [<- | Hy]; [exact Hle | exact (Hall y Hy)].
Qed.

Lemma nearest_of_facilities (geodesic_km : Q * Q -> Q * Q -> Q) (coords : Q * Q)
    (facilities : list (string * (Q * Q))) :
  facilities <> [] ->
  exists facility,
    In facility facilities /\
    Facilities.min_by_distance (Facilities.distances_from geodesic_km coords facilities)
    = Some (fst facility, geodesic_km coords (snd facility)) /\
    forall other, In other facilities ->
      geodesic_km coords (snd facility) <= geodesic_km coords (snd other).
Proof.
  intros Hne.
  destruct (min_by_distance_spec (Facilities.distances_from geodesic_km coords facilities))
    as (b & Eb & Hin & Hmin).
  { unfold Facilities.distances_from. destruct facilities; [congruence | discriminate]. }
  unfold Facilities.distances_from in Hin. apply in_map_iff in Hin.
  destruct Hin as (facility & <- & Hf). exists facility.
  split; [exact Hf |]. split; [exact Eb |].
  intros other Ho.
  apply (Hmin (fst other, geodesic_km coords (snd other))).
  unfold Facilities.distances_from. apply in_map_iff. exists other. auto.
Qed.

Lemma calculate_row_coordinates (geodesic_km : Q * Q -> Q * Q -> Q) (row : Listing.t) :
  Listing.lat (Facilities.calculate_row geodesic_km row) = Listing.lat row /\
  Listing.lon (Facilities.calculate_row geodesic_km row) = Listing.lon row.
Proof.
  unfold Facilities.calculate_row. cbv zeta.
  destruct (Listing.lat row) eqn:Elat, (Listing.lon row) eqn:Elon;
    split; cbn [Facilities.with_facilities Listing.lat Listing.lon]; assumption.
Qed.

Lemma calculate_row_unplaced (geodesic_km : Q * Q -> Q * Q -> Q) (row : Listing.t) :
  Listing.lat row = None \/ Listing.lon row = None ->
  Facilities.calculate_row geodesic_km row
  = Facilities.with_facilities "Unknown" 999.0 "Unknown" 999.0 row.
Proof.
  unfold Facilities.calculate_row. cbv zeta.
  intros [-> | ->]; [reflexivity |]. destruct (Listing.lat row); reflexivity.
Qed.

(** X17: For a listing that has both coordinates, [calculate_nearest_facilities]
    records one of the four schools and one of the three clinics of its
    lists, each at the smallest geodesic distance from the listing, with
    the distance rounded to two places; the other cells of the row are
    kept. *)
Theorem nearest_facilities_of_placed_listing
    (geodesic_km : Q * Q -> Q * Q -> Q) (row : Listing.t) (prop_lat prop_lon : Q) :
  Listing.lat row = Some prop_lat -> Listing.lon row = Some prop_lon ->
  exists school clinic,
    In school Facilities.HAIFA_SCHOOLS /\ In clinic Facilities.HAIFA_CLINICS /\
    Facilities.calculate_row geodesic_km row
    = Facilities.with_facilities
        (fst school)
        (Amenities.round_ndigits (geodesic_km (prop_lat, prop_lon) (snd school)) 2)
        (fst clinic)
        (Amenities.round_ndigits (geodesic_km (prop_lat, prop_lon) (snd clinic)) 2)
        row /\
    (forall other, In other Facilities.HAIFA_SCHOOLS ->
       geodesic_km (prop_lat, prop_lon) (snd school)
       <= geodesic_km (prop_lat, prop_lon) (snd other)) /\
    (forall other, In other Facilities.HAIFA_CLINICS ->
       geodesic_km (prop_lat, prop_lon) (snd clinic)
       <= geodesic_km (prop_lat, prop_lon) (snd other)).
Proof.
  intros Hlat Hlon.
  destruct (nearest_of_facilities geodesic_km (prop_lat, prop_lon) Facilities.HAIFA_SCHOOLS)
    as (school & Hs & Es & Hsmin); [discriminate |].
  destruct (nearest_of_facilities geodesic_km (prop_lat, prop_lon) Facilities.HAIFA_CLINICS)
    as (clinic & Hc & Ec & Hcmin); [discriminate |].
  exists school, clinic.
  split; [exact Hs |]. split; [exact Hc |].
  split; [| split; assumption].
  unfold Facilities.calculate_row. cbv zeta. rewrite Hlat, Hlon, Es, Ec.
  reflexivity.
Qed.

Lemma nearest_facilities_of_placed_listing_witness :
  exists school clinic,
    In school Facilities.HAIFA_SCHOOLS /\ In clinic Facilities.HAIFA_CLINICS /\
    Facilities.calculate_row Samples.taxicab_km Example.cheap_far
    = Facilities.with_facilities
        (fst school)
        (Amenities.round_ndigits
           (Samples.taxicab_km (32.811234, 34.991456) (snd school)) 2)
        (fst clinic)
        (Amenities.round_ndigits
           (Samples.taxicab_km (32.811234, 34.991456) (snd clinic)) 2)
        Example.cheap_far.
Proof.
  destruct (nearest_facilities_of_placed_listing Samples.taxicab_km Example.cheap_far
              32.811234 34.991456 eq_refl eq_refl)
    as (school & clinic & Hs & Hc & E & _).
  exists school, clinic. auto.
Defined.

Section UnplacedListings.

Variable np_exp : Q -> Q.
Variable sort_values : list Listing.t -> list Listing.t.
Variable now : Z.
Variable geodesic_km : Q * Q -> Q * Q -> Q.

Hypothesis sort_values_perm : forall l, Permutation l (sort_values l).

(** X6: On a dataset prepared by [calculate_nearest_facilities], a search
    with [near_schools] or [near_medical] returns only listings that have
    both coordinates: a listing without them keeps the distance 999 and
    passes neither filter. *)
Theorem unplaced_listings_never_near
    (self : Server.t) (kwargs : Kwargs.t)
    (h0 : gmap Store.ref DataFrame.t) (d : DataFrame.t) (r : Listing.t) :
  h0 !! Server.properties_df self
  = Some (Facilities.calculate_nearest_facilities geodesic_km d) ->
  Kwargs.near_schools kwargs = Some true \/ Kwargs.near_medical kwargs = Some true ->
  In r (Server.properties
          (fst (Server.search_properties np_exp sort_values now self kwargs h0))) ->
  exists prop_lat prop_lon,
    Listing.lat r = Some prop_lat /\ Listing.lon r = Some prop_lon.
Proof using sort_values_perm.
  intros H0 Hnear Hr.
  destruct (search_properties_run np_exp sort_values now self kwargs h0 _ H0)
    as [Hres _].
  rewrite Hres in Hr. unfold Server.search_result in Hr.
  cbn [Server.properties] in Hr.
  apply (page_of_rows np_exp sort_values now sort_values_perm) in Hr.
  destruct Hr as (c & Hc & ->).
  destruct (candidates_pass_filters kwargs _ c Hc)
    as (_ & _ & _ & Hschool & Hclinic & _).
  apply candidates_incl in Hc. cbn [Facilities.calculate_nearest_facilities
                                      DataFrame.rows] in Hc.
  apply in_map_iff in Hc. destruct Hc as (c0 & <- & _).
  change (Listing.lat (Listing.with_score ?s ?x)) with (Listing.lat x).
  change (Listing.lon (Listing.with_score ?s ?x)) with (Listing.lon x).
  destruct (calculate_row_coordinates geodesic_km c0) as [-> ->].
  destruct (Listing.lat c0) as [la |] eqn:Ela, (Listing.lon c0) as [lo |] eqn:Elo;
    [exists la, lo; split; reflexivity | | |];
    exfalso;
    (rewrite calculate_row_unplaced in Hschool, Hclinic by (rewrite ?Ela, ?Elo; auto));
    cbn [Facilities.with_facilities Listing.nearest_school_distance_km
         Listing.nearest_clinic_distance_km] in Hschool, Hclinic;
    (destruct Hnear as [Hk | Hk]; rewrite Hk in *;
     [ specialize (Hschool eq_refl); revert Hschool
     | specialize (Hclinic eq_refl); revert Hclinic ];
     vm_compute; intros H; apply H; reflexivity).
Qed.

End UnplacedListings.

Lemma unplaced_listings_never_near_witness :
  List.Forall
    (fun r => exists prop_lat prop_lon,
                Listing.lat r = Some prop_lat /\ Listing.lon r = Some prop_lon)
    (Server.properties
       (fst (Server.search_properties Example.exp_bound Example.sort_desc
               Example.noon_2025_06_01 Example.self
               (Kwargs.with_near_schools true Kwargs.empty)
               (Example.store_of
                  (Facilities.calculate_nearest_facilities Samples.taxicab_km
                     Samples.raw_data))))).
Proof.
  apply List.Forall_forall. intros r Hr.
  apply (unplaced_listings_never_near Example.exp_bound Example.sort_desc
           Example.noon_2025_06_01 Samples.taxicab_km sort_desc_perm Example.self
           (Kwargs.with_near_schools true Kwargs.empty)
           (Example.store_of
              (Facilities.calculate_nearest_facilities Samples.taxicab_km
                 Samples.raw_data))
           Samples.raw_data r (example_dataset_lookup _)); [| exact Hr].
  left. reflexivity.
Defined.

(** * The report: score levels and suggestions *)

Lemma share_below_nonempty (col : list Q) (v : Q) :
  col <> [] -> exists p, Float.share_below col v = Some p /\ 0 <= p <= 1.
Proof.
  intros Hne. destruct col as [| x col]; [congruence |].
  eexists. split; [reflexivity |].
  apply (share_below_bounds (x :: col) v). reflexivity.
Qed.

Lemma recency_points_le_10 (now : Z) (row : Listing.t) :
  (forall t, Listing.publish_date row = Some t -> (t <= now)%Z) ->
  Server.recency_points now row <= 10.
Proof.
  intros Hdate. unfold Server.recency_points.
  destruct (Listing.publish_date row) as [t |]; [| lra].
  specialize (Hdate t eq_refl). cbv zeta.
  assert (Hdays : (0 <= (now - t) / Server.microseconds_per_day)%Z).
  { apply Z.div_pos; [lia | reflexivity]. }
  set (days_old := ((now - t) / Server.microseconds_per_day)%Z) in *.
  assert (Hq : 0 <= inject_Z days_old / 365).
  { apply div_nonneg; [| lra]. change 0 with (inject_Z 0). rewrite <- Zle_Qle. exact Hdays. }
  unfold Py.max. destruct (Py.ltb 0 (10 * (1 - inject_Z days_old / 365))); lra.
Qed.

(** On a pool that is not empty the metadata part of the score is a
    number, of at most 40 points and the recency points. *)
Lemma metadata_score_upper (now : Z) (row : Listing.t) (pool : DataFrame.t) :
  DataFrame.rows pool <> [] ->
  exists m, Server.metadata_score now row pool = Some m /\
            0 <= m <= 40 + Server.recency_points now row.
Proof.
  intros Hne.
  destruct (share_below_nonempty
              (List.map Listing.property_price (DataFrame.rows pool))
              (Listing.property_price row)) as (p & Ep & Hp).
  { destruct (DataFrame.rows pool); [congruence | discriminate]. }
  destruct (share_below_nonempty
              (List.map Listing.property_builded_area (DataFrame.rows pool))
              (Listing.property_builded_area row)) as (q & Eq & Hq).
  { destruct (DataFrame.rows pool); [congruence | discriminate]. }
  pose proof (recency_points_nonneg now row) as Hr.
  unfold Server.metadata_score, Server.price_block, Server.size_block,
    Server.feature_block.
  cbv zeta. rewrite Ep, Eq.
  destruct (1 <? length (DataFrame.rows pool))%nat,
    (Py.ltb 0 (Listing.property_builded_area row)),
    (Listing.bulletin_has_parking row), (Listing.bulletin_has_elevator row),
    (Listing.bulletin_has_balconies row);
    cbn [Float.add Float.mul Float.sub Float.lift2];
    (eexists; split; [reflexivity | lra]).
Qed.

Lemma get_score_level_below_80 (score : Q) :
  score < 80 ->
  In (Report.get_score_level score) ["Good Match"; "Fair Match"; "Basic Match"]%string.
Proof.
  intros H. unfold Report.get_score_level.
  assert (E : Py.leb 80 score = false).
  { unfold Py.leb. destruct (Qle_bool 80 score) eqn:E; [| reflexivity].
    apply Qle_bool_iff in E. lra. }
  rewrite E.
  destruct (Py.leb 70 score); [left; reflexivity |].
  destruct (Py.leb 50 score); [right; left; reflexivity |].
  right; right; left; reflexivity.
Qed.

Section ScoreLevels.

Variable np_exp : Q -> Q.
Variable sort_values : list Listing.t -> list Listing.t.
Variable now : Z.

Hypothesis sort_values_perm : forall l, Permutation l (sort_values l).

(** X5: Without [near_schools], a search on listings whose publish dates are
    not in the future gives every returned listing a score from 25 to 75:
    none is reported as an "Excellent Match". *)
Theorem no_excellent_match_without_near_schools
    (self : Server.t) (kwargs : Kwargs.t)
    (h0 : gmap Store.ref DataFrame.t) (d0 : DataFrame.t) (r : Listing.t) :
  h0 !! Server.properties_df self = Some d0 ->
  Kwargs.truthy_flag (Kwargs.near_schools kwargs) = false ->
  (forall c t, In c (DataFrame.rows d0) -> Listing.publish_date c = Some t ->
               (t <= now)%Z) ->
  In r (Server.properties
          (fst (Server.search_properties np_exp sort_values now self kwargs h0))) ->
  25 <= Listing.score r <= 75 /\
  In (Report.get_score_level (Listing.score r))
     ["Good Match"; "Fair Match"; "Basic Match"]%string.
Proof using sort_values_perm.
  intros H0 Hflag Hdates Hr.
  destruct (search_properties_run np_exp sort_values now self kwargs h0 d0 H0)
    as [Hres _].
  rewrite Hres in Hr. unfold Server.search_result in Hr.
  cbn [Server.properties] in Hr.
  apply (page_of_rows np_exp sort_values now sort_values_perm) in Hr.
  destruct Hr as (c & Hc & ->).
  apply candidates_incl in Hc.
  change (Listing.score (Listing.with_score ?s c)) with s.
  assert (Hrange : 25 <= Server.calculate_madlan_match_score np_exp now c kwargs d0 <= 75).
  { rewrite calculate_madlan_match_score_blocks.
    destruct (metadata_score_upper now c d0) as (m & Em & Hm0 & Hm).
    { intros E. rewrite E in Hc. exact Hc. }
    pose proof (recency_points_le_10 now c (fun t => Hdates c t Hc)) as Hrec.
    rewrite Em. unfold Server.context_score. rewrite Hflag.
    cbn [Float.add Float.lift2].
    split.
    - apply Qle_trans with (Float.min100_round1 (Some 25)); [vm_compute; discriminate |].
      apply min100_round1_mono. simpl. lra.
    - apply Qle_trans with (Float.min100_round1 (Some 75)); [| vm_compute; discriminate].
      apply min100_round1_mono. simpl. lra. }
  split; [exact Hrange |].
  apply get_score_level_below_80. lra.
Qed.

End ScoreLevels.

Lemma no_excellent_match_without_near_schools_witness :
  List.Forall (fun r => 25 <= Listing.score r <= 75)
    (Server.properties
       (fst (Server.search_properties Example.exp_bound Example.sort_desc
               Example.noon_2025_06_01 Example.self Kwargs.empty
               (Example.store_of Example.fallback_data)))).
Proof.
  apply List.Forall_forall. intros r Hr.
  refine (proj1 (no_excellent_match_without_near_schools Example.exp_bound
                   Example.sort_desc Example.noon_2025_06_01 sort_desc_perm Example.self
                   Kwargs.empty (Example.store_of Example.fallback_data)
                   Example.fallback_data r
                   (example_dataset_lookup Example.fallback_data) eq_refl _ Hr)).
  intros c t [<- | [<- | [<- | []]]] [= <-]; vm_compute; discriminate.
Defined.

(** ** Suggestions *)

Lemma transaction_suggestions_length (current : option string) :
  (1 <= length (Report.transaction_suggestions current) <= 2)%nat.
Proof.
  unfold Report.transaction_suggestions. cbv zeta.
  destruct current as [t |].
  - destruct (String.eqb t "For Sale"); [simpl; lia |].
    destruct (String.eqb t "To Let"); simpl; lia.
  - simpl. lia.
Qed.

Lemma transaction_suggestions_not_general (current : option string) (s : string) :
  In s (Report.transaction_suggestions current) -> ~ In s Report.general_suggestions.
Proof.
  unfold Report.transaction_suggestions. cbv zeta.
  assert (H : forall l : list string,
             (forall x, In x l -> ~ In x Report.general_suggestions) ->
             In s l -> ~ In s Report.general_suggestions) by (intros l Hl; apply Hl).
  destruct current as [t |];
    [destruct (String.eqb t "For Sale"); [| destruct (String.eqb t "To Let")] |];
    apply H; intros x Hx; simpl in Hx;
    repeat (destruct Hx as [<- | Hx]; [intros Hg; simpl in Hg;
            repeat (destruct Hg as [Hg | Hg]; [discriminate Hg |]); exact Hg |]);
    contradiction.
Qed.

(** X18: [get_enhanced_suggestions] returns six to eight suggestions, so the
    report always prints six. *)
Theorem suggestions_count (filters : list string) (properties : list Listing.t)
    (mentioned_amenities : list string) :
  (6 <= length (Report.get_enhanced_suggestions filters properties mentioned_amenities)
   <= 8)%nat /\
  length (Report.printed_suggestions filters properties mentioned_amenities) = 6%nat.
Proof.
  unfold Report.printed_suggestions, Report.get_enhanced_suggestions. cbv zeta.
  pose proof (transaction_suggestions_length (Report.current_transaction filters)) as HT.
  set (T := Report.transaction_suggestions (Report.current_transaction filters)) in *.
  destruct (Intent.mentions "schools" mentioned_amenities),
    (Intent.mentions "medical" mentioned_amenities),
    (Intent.mentions "transport" mentioned_amenities),
    (length properties <? 5)%nat, (8 <? length properties)%nat;
    rewrite !length_firstn, !length_app;
    cbn [length app Report.school_suggestions Report.medical_suggestions
         Report.transport_suggestions Report.few_results_suggestions
         Report.many_results_suggestions Report.general_suggestions]; lia.
Qed.

(** X19: When the search mentions both schools and medical facilities, the six
    printed suggestions all come from the transaction, school and medical
    groups: none of the five suggestions that the code means to include
    always is printed. *)
Theorem general_suggestions_not_printed (filters : list string)
    (properties : list Listing.t) (mentioned_amenities : list string) (s : string) :
  Intent.mentions "schools" mentioned_amenities = true ->
  Intent.mentions "medical" mentioned_amenities = true ->
  In s (Report.printed_suggestions filters properties mentioned_amenities) ->
  In s (Report.transaction_suggestions (Report.current_transaction filters)
        ++ Report.school_suggestions ++ Report.medical_suggestions) /\
  ~ In s Report.general_suggestions.
Proof.
  intros Hs Hm Hin.
  unfold Report.printed_suggestions, Report.get_enhanced_suggestions in Hin.
  cbv zeta in Hin. rewrite Hs, Hm in Hin.
  pose proof (transaction_suggestions_length (Report.current_transaction filters)) as HT.
  set (T := Report.transaction_suggestions (Report.current_transaction filters)) in *.
  rewrite firstn_firstn in Hin. change (Nat.min 6 8) with 6%nat in Hin.
  assert (Hpre : In s (([] ++ T) ++ Report.school_suggestions)
                 \/ In s Report.medical_suggestions).
  { destruct (Intent.mentions "transport" mentioned_amenities),
      (length properties <? 5)%nat, (8 <? length properties)%nat;
      rewrite <- !app_assoc in Hin; cbn [app] in Hin;
      rewrite firstn_app in Hin; apply in_app_or in Hin;
      (destruct Hin as [Hin | Hin];
       [ apply firstn_incl in Hin; left; apply in_or_app; left; exact Hin |]);
      replace (6 - length T)%nat with (5 - (length T - 1))%nat in Hin by lia;
      cbn [Report.school_suggestions app] in Hin;
      destruct (length T - 1)%nat as [| [| n]] eqn:E; try lia;
      cbn [Nat.sub firstn] in Hin;
      repeat (destruct Hin as [<- | Hin];
              [ first [ left; apply in_or_app; right; simpl; tauto
                      | right; simpl; tauto ] |]);
      contradiction. }
  assert (Hin' : In s (T ++ Report.school_suggestions ++ Report.medical_suggestions)).
  { destruct Hpre as [H | H].
    - cbn [app] in H. apply in_app_or in H. apply in_or_app.
      destruct H as [H | H]; [left; exact H | right; apply in_or_app; left; exact H].
    - apply in_or_app. right. apply in_or_app. right. exact H. }
  split; [exact Hin' |].
  apply in_app_or in Hin'. destruct Hin' as [H | H].
  - subst T. apply (transaction_suggestions_not_general _ _ H).
  - simpl in H.
    repeat (destruct H as [<- | H]; [intros Hg; simpl in Hg;
            repeat (destruct Hg as [Hg | Hg]; [discriminate Hg |]); exact Hg |]).
    contradiction.
Qed.

Lemma general_suggestions_not_printed_witness :
  List.Forall
    (fun s => In s (Report.transaction_suggestions (Report.current_transaction [])
                    ++ Report.school_suggestions ++ Report.medical_suggestions))
    (Report.printed_suggestions [] [] ["schools"; "medical"]%string).
Proof.
  apply List.Forall_forall. intros s Hs.
  exact (proj1 (general_suggestions_not_printed [] [] ["schools"; "medical"]%string s
                  eq_refl eq_refl Hs)).
Defined.

(** * The query classifier *)

Lemma mentions_in (amenity : string) (l : list string) :
  Intent.mentions amenity l = true <-> In amenity l.
Proof.
  unfold Intent.mentions. rewrite existsb_exists. split.
  - intros (x & Hx & E). apply String.eqb_eq in E. subst x. exact Hx.
  - intros H. exists amenity. split; [exact H | apply String.eqb_refl].
Qed.

Lemma nodup_snoc {A} (a : A) (l : list A) :
  List.NoDup l -> ~ In a l -> List.NoDup (l ++ [a]).
Proof.
  induction 1 as [| x l Hx Hnd IH]; simpl; intros Ha.
  - constructor; [intros [] | constructor].
  - constructor.
    + intros H. apply in_app_or in H. destruct H as [H | [<- | []]]; [exact (Hx H) |].
      apply Ha. left. reflexivity.
    + apply IH. intros H. apply Ha. right. exact H.
Qed.

(** The step [if flag and a not in l: l.append(a)]. *)
Lemma append_missing (flag : bool) (a : string) (l : list string) :
  let l' := if flag && negb (Intent.mentions a l) then l ++ [a] else l in
  (List.NoDup l -> List.NoDup l') /\
  (forall target, incl l target -> In a target -> incl l' target) /\
  (flag = true -> In a l') /\
  incl l l' /\
  (l' = [] -> l = [] /\ flag = false).
Proof.
  cbv zeta. destruct flag; simpl.
  - destruct (Intent.mentions a l) eqn:E; simpl.
    + apply mentions_in in E.
      split; [auto |]. split; [auto |]. split; [auto |].
      split; [apply incl_refl |].
      intros ->. contradiction.
    + assert (Hnot : ~ In a l).
      { intros H. apply mentions_in in H. congruence. }
      split; [intros Hnd; apply nodup_snoc; assumption |].
      split.
      { intros target Hl Ha. apply incl_app; [exact Hl |].
        intros x [<- | []]. exact Ha. }
      split; [intros _; apply in_or_app; right; left; reflexivity |].
      split; [apply incl_appl, incl_refl |].
      intros H. apply app_eq_nil in H. destruct H as [_ H]. discriminate H.
  - split; [auto |]. split; [auto |]. split; [discriminate |].
    split; [apply incl_refl | auto].
Qed.

(** The categories whose keywords occur in the query, in the order of
    [amenity_patterns]. *)
Lemma keyword_amenities (query_text : string) :
  let found :=
    List.map fst (List.filter (fun p => Str.any_in (snd p) query_text)
                    Intent.amenity_patterns) in
  List.NoDup found /\ incl found ["schools"; "medical"; "transport"]%string.
Proof.
  cbv zeta. unfold Intent.amenity_patterns. cbn [List.filter List.map fst snd].
  repeat match goal with
         | |- context [Str.any_in ?k query_text] =>
             destruct (Str.any_in k query_text)
         end;
    cbn [List.map fst];
    (split; [repeat constructor; simpl; intuition discriminate
            | intros x Hx; simpl in *; intuition ]).
Qed.

(** X20: Whatever the query says, the amenities found are distinct categories
    among ['schools'], ['medical'] and ['transport']; a [near_schools] or
    [near_medical] flag puts its category among them; the format is
    ['data'] only for a data query that is no listing query and mentions
    no amenity, so never with one of the two flags; and the transaction
    type found is ['For Sale'], ['To Let'] or none. *)
Theorem intent_invariants (search_params : Kwargs.t) :
  let intent := Intent.detect_query_intent_and_amenities search_params in
  List.NoDup (Intent.mentioned_amenities intent) /\
  incl (Intent.mentioned_amenities intent) ["schools"; "medical"; "transport"]%string /\
  (Kwargs.truthy_flag (Kwargs.near_schools search_params)
   || Kwargs.truthy_flag (Kwargs.near_medical search_params) = true ->
   Intent.format_mode intent = Intent.listings) /\
  (Kwargs.truthy_flag (Kwargs.near_schools search_params) = true ->
   In "schools"%string (Intent.mentioned_amenities intent)) /\
  (Kwargs.truthy_flag (Kwargs.near_medical search_params) = true ->
   In "medical"%string (Intent.mentioned_amenities intent)) /\
  (Intent.format_mode intent = Intent.data <->
   Intent.is_data_query intent = true /\ Intent.is_listing_query intent = false /\
   Intent.mentioned_amenities intent = []) /\
  In (Intent.detected_transaction intent)
     [None; Some "For Sale"; Some "To Let"]%string.
Proof.
  unfold Intent.detect_query_intent_and_amenities. cbv zeta.
  set (q := Str.lower (Kwargs.str (Kwargs._query_text search_params))).
  cbn [Intent.mentioned_amenities Intent.format_mode Intent.is_data_query
       Intent.is_listing_query Intent.detected_transaction].
  destruct (keyword_amenities q) as [Hnd0 Hincl0]. cbv zeta in Hnd0, Hincl0.
  set (m0 := List.map fst (List.filter (fun p => Str.any_in (snd p) q)
                             Intent.amenity_patterns)) in *.
  destruct (append_missing (Kwargs.truthy_flag (Kwargs.near_schools search_params))
              "schools" m0) as (Hnd1 & Hincl1 & Hin1 & Hsub1 & Hnil1).
  cbv zeta in Hnd1, Hincl1, Hin1, Hsub1, Hnil1.
  set (m1 := if Kwargs.truthy_flag (Kwargs.near_schools search_params)
                && negb (Intent.mentions "schools" m0)
             then m0 ++ ["schools"%string] else m0) in *.
  destruct (append_missing (Kwargs.truthy_flag (Kwargs.near_medical search_params))
              "medical" m1) as (Hnd2 & Hincl2 & Hin2 & Hsub2 & Hnil2).
  cbv zeta in Hnd2, Hincl2, Hin2, Hsub2, Hnil2.
  set (m2 := if Kwargs.truthy_flag (Kwargs.near_medical search_params)
                && negb (Intent.mentions "medical" m1)
             then m1 ++ ["medical"%string] else m1) in *.
  assert (Hmode : (if Str.any_in Intent.data_indicators q
                      && negb (Str.any_in Intent.listing_indicators q)
                      && match m2 with [] => true | _ :: _ => false end
                   then Intent.data else Intent.listings) = Intent.data
                  <-> Str.any_in Intent.data_indicators q = true /\
                      Str.any_in Intent.listing_indicators q = false /\ m2 = []).
  { destruct (Str.any_in Intent.data_indicators q),
      (Str.any_in Intent.listing_indicators q), m2; simpl;
      split; try discriminate; try tauto;
      intros (H1 & H2 & H3); discriminate. }
  split; [apply Hnd2, Hnd1, Hnd0 |].
  split; [apply Hincl2; [apply Hincl1; [exact Hincl0 |] |]; simpl; tauto |].
  split.
  { intros Hflags.
    assert (Hcases : forall f, f = Intent.data \/ f = Intent.listings)
      by (intros []; auto).
    match goal with |- ?f = _ => destruct (Hcases f) as [E | E] end; [| exact E].
    exfalso. apply Hmode in E. destruct E as (_ & _ & E).
    destruct (Hnil2 E) as [E1 Hf2]. destruct (Hnil1 E1) as [_ Hf1].
    rewrite Hf1, Hf2 in Hflags. discriminate Hflags. }
  split; [intros H; apply Hsub2, Hin1, H |].
  split; [exact Hin2 |].
  split; [exact Hmode |].
  unfold Intent.transaction_keywords. cbn [Intent.detect_transaction].
  repeat match goal with
         | |- context [Str.any_in ?k q] => destruct (Str.any_in k q)
         end; simpl; tauto.
Qed.

(** * Further properties of the dispatcher *)

Section DispatcherExtras.

Variable State : Type.
Variable data_loaded : State -> bool.
Variable call_tool : State -> Json.t -> (Dispatcher.Exception + string) * State.
Variable json_loads : string -> Dispatcher.Exception + Json.t.

Abbreviation handle_request := (Dispatcher.handle_request State data_loaded call_tool).
Abbreviation handle_line :=
  (Dispatcher.handle_line State data_loaded call_tool json_loads).
Abbreviation main := (Dispatcher.main State data_loaded call_tool json_loads).

Lemma get_obj (key : string) (default_value : Json.t) (members : gmap string Json.t) :
  Dispatcher.get key default_value (Json.Obj members)
  = inr (default default_value (members !! key)).
Proof using Type. unfold Dispatcher.get. destruct (members !! key); reflexivity. Qed.

(** The reply to a request object, by cases: what is answered, and the
    server afterwards. *)
Lemma handle_request_cases (self : State) (members : gmap string Json.t) :
  let request_id := default Json.Null (members !! "id"%string) in
  let method := default (Json.Str "") (members !! "method"%string) in
  exists response self',
    handle_request self (Json.Obj members) = (inr response, self') /\
    ((response = Dispatcher.SKIP_RESPONSE /\
      Json.is_str "notifications/initialized" method = true /\ self' = self) \/
     (exists body, response = Dispatcher.Result request_id body /\
                   (self' = self \/
                    data_loaded self = true /\ Json.is_str "tools/call" method = true /\
                    exists arguments, self' = snd (call_tool self arguments))) \/
     (exists code message, response = Dispatcher.Error request_id code message /\
                   (self' = self \/
                    data_loaded self = true /\ Json.is_str "tools/call" method = true /\
                    exists arguments, self' = snd (call_tool self arguments)))).
Proof using Type.
  cbv zeta.
  unfold Dispatcher.handle_request, Dispatcher.handle_request_body.
  rewrite !get_obj.
  set (method := default (Json.Str "") (members !! "method"%string)).
  set (request_id := default Json.Null (members !! "id"%string)).
  destruct (Json.is_str "initialize" method);
    [do 2 eexists; split; [reflexivity |]; right; left; eauto |].
  destruct (Json.is_str "notifications/initialized" method) eqn:Enot;
    [do 2 eexists; split; [reflexivity |]; left; auto |].
  destruct (Json.is_str "tools/list" method);
    [do 2 eexists; split; [reflexivity |]; right; left; eauto |].
  destruct (Json.is_str "tools/call" method) eqn:Ecall;
    [| do 2 eexists; split; [reflexivity |]; right; right; eauto ].
  destruct (data_loaded self) eqn:Eloaded; cbn [negb];
    [| do 2 eexists; split; [reflexivity |]; right; left; eauto ].
  unfold Dispatcher.getitem.
  destruct (members !! "params"%string) as [params |];
    [| do 2 eexists; split; [reflexivity |]; right; right; eauto ].
  destruct params as [| | | | | pm];
    try (do 2 eexists; split; [reflexivity |]; right; right; eauto; fail).
  destruct (pm !! "name"%string) as [tool_name |];
    [| do 2 eexists; split; [reflexivity |]; right; right; eauto ].
  rewrite get_obj.
  destruct (Json.is_str "Madlan_MCP" tool_name);
    [| do 2 eexists; split; [reflexivity |]; right; right; eauto ].
  destruct (call_tool self (default (Json.Obj ∅) (pm !! "arguments"%string)))
    as [[e | text] self'] eqn:Etool;
    do 2 eexists; (split; [reflexivity |]).
  - right; right. do 2 eexists. split; [reflexivity |]. right.
    split; [reflexivity |]. split; [reflexivity |].
    eexists. rewrite Etool. reflexivity.
  - right; left. eexists. split; [reflexivity |]. right.
    split; [reflexivity |]. split; [reflexivity |].
    eexists. rewrite Etool. reflexivity.
Qed.

(** X21: [handle_request] never raises on a request that is a JSON object, and
    its reply carries the [id] of the request ([null] when there is
    none); no reply is made to the notification
    [notifications/initialized] only. The server changes, if at all, by
    the tool call of a [tools/call] request on a server whose data is
    loaded. *)
Theorem replies_carry_request_id (self : State) (members : gmap string Json.t) :
  let request_id := default Json.Null (members !! "id"%string) in
  let method := default (Json.Str "") (members !! "method"%string) in
  exists response,
    fst (handle_request self (Json.Obj members)) = inr response /\
    ((response = Dispatcher.SKIP_RESPONSE /\
      method = Json.Str "notifications/initialized") \/
     (exists body, response = Dispatcher.Result request_id body) \/
     (exists code message, response = Dispatcher.Error request_id code message)) /\
    (snd (handle_request self (Json.Obj members)) = self \/
     data_loaded self = true /\ method = Json.Str "tools/call" /\
     exists arguments,
       snd (handle_request self (Json.Obj members)) = snd (call_tool self arguments)).
Proof using Type.
  intros request_id method.
  assert (Hstr : forall s v, Json.is_str s v = true -> v = Json.Str s).
  { intros s [] H; try discriminate H. simpl in H. apply String.eqb_eq in H.
    subst. reflexivity. }
  destruct (handle_request_cases self members) as (response & self' & Hreq & Hcases).
  cbv zeta in Hcases. fold request_id method in Hcases.
  exists response. rewrite Hreq. cbn [fst snd]. split; [reflexivity |].
  destruct Hcases as [(-> & Hm & ->) | [(body & -> & Hs) | (code & msg & -> & Hs)]].
  - split; [left; split; [reflexivity | apply Hstr, Hm] | left; reflexivity].
  - split; [right; left; eauto |].
    destruct Hs as [-> | (Hl & Hm & args & ->)]; [left; reflexivity |].
    right. split; [exact Hl |]. split; [apply Hstr, Hm | eauto].
  - split; [right; right; eauto |].
    destruct Hs as [-> | (Hl & Hm & args & ->)]; [left; reflexivity |].
    right. split; [exact Hl |]. split; [apply Hstr, Hm | eauto].
Qed.

(** X22: A [tools/call] request that cannot reach the tool leaves the server
    as it was: before the data is loaded every such request, whatever its
    parameters, is answered with the text "Data not loaded"; afterwards a
    request without [params] gets the internal error -32603 and a request
    for a tool other than [Madlan_MCP] the error -32601 "Unknown tool". *)
Theorem tools_call_without_tool (self : State) (members : gmap string Json.t) :
  members !! "method"%string = Some (Json.Str "tools/call") ->
  let request_id := default Json.Null (members !! "id"%string) in
  (data_loaded self = false ->
   handle_request self (Json.Obj members)
   = (inr (Dispatcher.Result request_id
             (Dispatcher.Content "Data not loaded. Please run install.py first.")),
      self)) /\
  (data_loaded self = true -> members !! "params"%string = None ->
   exists detail,
     handle_request self (Json.Obj members)
     = (inr (Dispatcher.Error request_id (-32603) (Dispatcher.InternalError detail)),
        self)) /\
  (data_loaded self = true ->
   forall pm tool_name,
     members !! "params"%string = Some (Json.Obj pm) ->
     pm !! "name"%string = Some tool_name ->
     tool_name <> Json.Str "Madlan_MCP" ->
     handle_request self (Json.Obj members)
     = (inr (Dispatcher.Error request_id (-32601) (Dispatcher.UnknownTool tool_name)),
        self)).
Proof using Type.
  intros Hmethod request_id.
  unfold Dispatcher.handle_request, Dispatcher.handle_request_body.
  rewrite !get_obj. rewrite Hmethod. fold request_id.
  cbn [default from_option id Json.is_str String.eqb Ascii.eqb Bool.eqb].
  split; [| split].
  - intros ->. reflexivity.
  - intros -> Hparams. unfold Dispatcher.getitem. rewrite Hparams.
    cbn [negb]. eexists. reflexivity.
  - intros -> pm tool_name Hparams Hname Htool.
    unfold Dispatcher.getitem. rewrite Hparams, Hname. cbn [negb].
    rewrite get_obj. rewrite is_str_false by exact Htool. reflexivity.
Qed.

Lemma handle_line_length (server : State) (line : string) :
  (length (fst (handle_line server line)) <= 1)%nat /\
  ~ In Dispatcher.SKIP_RESPONSE (fst (handle_line server line)).
Proof using Type.
  unfold Dispatcher.handle_line. cbv zeta.
  destruct (String.eqb (Dispatcher.strip line) ""); [simpl; split; [lia | tauto] |].
  destruct (json_loads (Dispatcher.strip line)) as [[msg | msg] | request].
  - simpl. split; [lia |]. intros [H | []]. discriminate H.
  - simpl. split; [lia |]. intros [H | []]. discriminate H.
  - destruct (Dispatcher.handle_request State data_loaded call_tool server request)
      as [[e | []] server']; simpl; (split; [lia |]); try tauto;
      intros [H | []]; discriminate H.
Qed.

(** X23: The loop prints at most one reply per line and never the marker
    [SKIP_RESPONSE]; reading two inputs one after the other is reading
    the first and then, with the server it leaves, the second; and blank
    lines change nothing. *)
Theorem main_line_by_line (server : State) (stdin1 stdin2 : list string) (blank : string) :
  Dispatcher.strip blank = ""%string ->
  (length (fst (main server stdin1)) <= length stdin1)%nat /\
  ~ In Dispatcher.SKIP_RESPONSE (fst (main server stdin1)) /\
  main server (stdin1 ++ stdin2)
  = (fst (main server stdin1) ++ fst (main (snd (main server stdin1)) stdin2),
     snd (main (snd (main server stdin1)) stdin2)) /\
  main server (stdin1 ++ blank :: stdin2) = main server (stdin1 ++ stdin2).
Proof using Type.
  intros Hblank.
  assert (Happ : forall l1 l2 s,
            main s (l1 ++ l2)
            = (fst (main s l1) ++ fst (main (snd (main s l1)) l2),
               snd (main (snd (main s l1)) l2))).
  { induction l1 as [| line l1 IH]; intros l2 s.
    - simpl. destruct (Dispatcher.main _ _ _ _ s l2). reflexivity.
    - rewrite <- app_comm_cons, !main_cons. rewrite IH. cbn [fst snd].
      rewrite app_assoc. reflexivity. }
  split; [| split; [| split]].
  - revert server. induction stdin1 as [| line rest IH]; intros server; [simpl; lia |].
    rewrite main_cons. cbn [fst]. rewrite length_app.
    pose proof (proj1 (handle_line_length server line)).
    specialize (IH (snd (handle_line server line))). simpl. lia.
  - revert server. induction stdin1 as [| line rest IH]; intros server; [simpl; tauto |].
    rewrite main_cons. cbn [fst]. intros H. apply in_app_or in H.
    destruct H as [H | H].
    + exact (proj2 (handle_line_length server line) H).
    + exact (IH _ H).
  - apply Happ.
  - rewrite !Happ. rewrite (main_cons State data_loaded call_tool json_loads _ blank stdin2).
    assert (Hb : forall s, handle_line s blank = ([], s)).
    { intros s. unfold Dispatcher.handle_line. cbv zeta. rewrite Hblank. reflexivity. }
    rewrite Hb. cbn [fst snd app].
    destruct (main (snd (main server stdin1)) stdin2). reflexivity.
Qed.

End DispatcherExtras.

Lemma tools_call_without_tool_witness :
  Dispatcher.handle_request unit (fun _ => false) Example.constant_tool tt
    (Json.Obj {[ "method"%string := Json.Str "tools/call" ]})
  = (inr (Dispatcher.Result
            (default Json.Null
               (({[ "method"%string := Json.Str "tools/call" ]} : gmap string Json.t)
                  !! "id"%string))
            (Dispatcher.Content "Data not loaded. Please run install.py first.")),
     tt).
Proof.
  apply (proj1 (tools_call_without_tool unit (fun _ => false) Example.constant_tool tt
                  {[ "method"%string := Json.Str "tools/call" ]}
                  (lookup_singleton_eq _ _))).
  reflexivity.
Defined.

Lemma main_line_by_line_witness :
  Dispatcher.main unit (fun _ => true) Example.constant_tool Example.two_line_decoder tt
    (["{}"%string] ++ "  "%string :: ["[]"%string])
  = Dispatcher.main unit (fun _ => true) Example.constant_tool Example.two_line_decoder tt
      (["{}"%string] ++ ["[]"%string]).
Proof.
  exact (proj2 (proj2 (proj2
           (main_line_by_line unit (fun _ => true) Example.constant_tool
              Example.two_line_decoder tt ["{}"%string] ["[]"%string] "  "%string
              eq_refl)))).
Defined.

(** * The installer: geocoding *)

Lemma round_ndigits_mono (x y : Q) (ndigits : nat) :
  x <= y -> Amenities.round_ndigits x ndigits <= Amenities.round_ndigits y ndigits.
Proof.
  intros Hxy. unfold Amenities.round_ndigits, Qle. cbn [Qnum Qden].
  apply Z.mul_le_mono_nonneg_r; [lia |].
  apply round_half_even_mono.
  apply Qmult_le_compat_r; [exact Hxy |].
  change 0 with (inject_Z 0). rewrite <- Zle_Qle. apply Z.pow_nonneg. lia.
Qed.

(** A value rounded to six places is a whole number of millionths. *)
Lemma round_ndigits_6_decimals (x : Q) :
  Amenities.round_ndigits x 6 * 1000000
  == inject_Z (Py.round_half_even (x * 1000000)).
Proof.
  unfold Amenities.round_ndigits.
  change (inject_Z (10 ^ Z.of_nat 6)) with 1000000.
  change (Z.to_pos (10 ^ Z.of_nat 6)) with 1000000%positive.
  set (r := Py.round_half_even (x * 1000000)).
  unfold Qeq, Qmult, inject_Z. cbn [Qnum Qden].
  change (Z.pos (1000000 * 1)) with 1000000%Z. lia.
Qed.

Section Geocoding.

Variable nominatim : string -> option (Q * Q * Q).

Lemma first_result_decimals (queries : list string) (lat lon confidence : Q) :
  Geocode.first_result nominatim queries = Some (lat, lon, confidence) ->
  (exists q a b, In q queries /\ nominatim q = Some (a, b, confidence) /\
                 lat = Amenities.round_ndigits a 6 /\
                 lon = Amenities.round_ndigits b 6).
Proof using Type.
  induction queries as [| q rest IH]; simpl; [discriminate |].
  destruct (nominatim q) as [[[a b] c] |] eqn:E.
  - intros [= <- <- <-]. exists q, a, b. auto.
  - intros H. destruct (IH H) as (q' & a & b & Hq & Hn & Hl).
    exists q', a, b. auto.
Qed.

Lemma first_result_none (queries : list string) :
  (forall q, In q queries -> nominatim q = None) ->
  Geocode.first_result nominatim queries = None.
Proof using Type.
  induction queries as [| q rest IH]; simpl; [reflexivity |].
  intros H. rewrite (H q) by (left; reflexivity).
  apply IH. intros q' Hq'. apply H. right. exact Hq'.
Qed.

(** X24: The coordinates returned by [geocode_with_nominatim] always have at
    most six decimal places. When none of the three queries gives a
    result, they lie within 0.05 degrees of the centre of Haifa
    (32.794046, 34.989571) and the confidence is 0.1. *)
Theorem geocode_precision_and_fallback
    (uniform_lat uniform_lon : Q) (street neighborhood city country : string) :
  - (0.05) <= uniform_lat <= 0.05 ->
  - (0.05) <= uniform_lon <= 0.05 ->
  let found :=
    Geocode.geocode_with_nominatim nominatim uniform_lat uniform_lon
      street neighborhood city country in
  (exists millionths_lat millionths_lon,
     fst (fst found) * 1000000 == inject_Z millionths_lat /\
     snd (fst found) * 1000000 == inject_Z millionths_lon) /\
  ((forall q, In q (Geocode.search_queries street neighborhood city country) ->
              nominatim q = None) ->
   32.744046 <= fst (fst found) <= 32.844046 /\
   34.939571 <= snd (fst found) <= 35.039571 /\
   snd found = 0.1).
Proof using Type.
  intros Hlat Hlon found. subst found. unfold Geocode.geocode_with_nominatim.
  split.
  - destruct (Geocode.first_result nominatim
                (Geocode.search_queries street neighborhood city country))
      as [[[lat lon] c] |] eqn:E.
    + apply first_result_decimals in E.
      destruct E as (q & a & b & _ & _ & -> & ->).
      cbn [fst snd]. do 2 eexists. split; apply round_ndigits_6_decimals.
    + cbv zeta. cbn [fst snd]. do 2 eexists. split; apply round_ndigits_6_decimals.
  - intros Hnone. rewrite (first_result_none _ Hnone). cbv zeta. cbn [fst snd].
    unfold Geocode.base_lat, Geocode.base_lon.
    assert (E1 : Amenities.round_ndigits (32.794046 - 0.05) 6 == 32.744046)
      by (vm_compute; reflexivity).
    assert (E2 : Amenities.round_ndigits (32.794046 + 0.05) 6 == 32.844046)
      by (vm_compute; reflexivity).
    assert (E3 : Amenities.round_ndigits (34.989571 - 0.05) 6 == 34.939571)
      by (vm_compute; reflexivity).
    assert (E4 : Amenities.round_ndigits (34.989571 + 0.05) 6 == 35.039571)
      by (vm_compute; reflexivity).
    pose proof (round_ndigits_mono (32.794046 - 0.05) (32.794046 + uniform_lat) 6
                  ltac:(lra)).
    pose proof (round_ndigits_mono (32.794046 + uniform_lat) (32.794046 + 0.05) 6
                  ltac:(lra)).
    pose proof (round_ndigits_mono (34.989571 - 0.05) (34.989571 + uniform_lon) 6
                  ltac:(lra)).
    pose proof (round_ndigits_mono (34.989571 + uniform_lon) (34.989571 + 0.05) 6
                  ltac:(lra)).
    repeat split; try reflexivity; lra.
Qed.

End Geocoding.

Lemma geocode_precision_and_fallback_witness :
  32.744046
  <= fst (fst (Geocode.geocode_with_nominatim Samples.no_answer 0.0123456789 (- (0.05))
                 "Herzl 15" "Hadar" "Haifa" "Israel"))
  <= 32.844046.
Proof.
  refine (proj1 (proj2 (geocode_precision_and_fallback Samples.no_answer
                          0.0123456789 (- (0.05)) "Herzl 15" "Hadar" "Haifa" "Israel"
                          _ _) _)).
  - unfold Qle; simpl; lia.
  - unfold Qle; simpl; lia.
  - reflexivity.
Defined.

(** * The installer: finding Python *)

Section DetectPython.

Variable version_of : string -> option (Z * Z).

Lemma detect_python_among_spec (commands : list string) :
  match Installer.detect_python_among version_of commands with
  | (Some cmd, Some (major, minor), ok) =>
      exists before after,
        commands = before ++ cmd :: after /\
        (forall c, In c before -> version_of c = None) /\
        version_of cmd = Some (major, minor) /\
        ok = (3 <=? major)%Z && (8 <=? minor)%Z
  | (None, None, false) => forall c, In c commands -> version_of c = None
  | _ => False
  end.
Proof using Type.
  induction commands as [| cmd rest IH]; simpl; [intros c [] |].
  destruct (version_of cmd) as [[major minor] |] eqn:E.
  - destruct ((3 <=? major)%Z && (8 <=? minor)%Z) eqn:Eok;
      exists [], rest; repeat split; auto; intros c [].
  - destruct (Installer.detect_python_among version_of rest)
      as [[[c |] [[major minor] |]] ok]; try contradiction.
    + destruct IH as (before & after & -> & Hb & Hv & Hok).
      exists (cmd :: before), after. repeat split; auto.
      intros c' [<- | Hc']; [exact E | exact (Hb c' Hc')].
    + destruct ok; [contradiction |].
      intros c [<- | Hc]; [exact E | exact (IH c Hc)].
Qed.

(** X25: [detect_python] takes the first of [python3], [python], [py] that
    reports a version, whether or not a later one is newer, and finds
    none only when none reports one. It calls the version compatible when
    the major number is at least 3 and the minor number at least 8, which
    differs from "3.8 or later" exactly for a major number above 3 with a
    minor number below 8. *)
Theorem detect_python_first_answer :
  (fst (fst (Installer.detect_python version_of)) = None <->
   forall c, In c Installer.python_commands -> version_of c = None) /\
  (forall cmd version is_compatible,
     Installer.detect_python version_of = (Some cmd, version, is_compatible) ->
     exists before after major minor,
       Installer.python_commands = before ++ cmd :: after /\
       (forall c, In c before -> version_of c = None) /\
       version_of cmd = Some (major, minor) /\
       version = Some (major, minor) /\
       (is_compatible = true <-> (3 <= major /\ 8 <= minor)%Z) /\
       (is_compatible = false ->
        ((3 < major \/ 3 = major /\ 8 <= minor)%Z <-> (3 < major /\ minor < 8)%Z))).
Proof using Type.
  unfold Installer.detect_python.
  pose proof (detect_python_among_spec Installer.python_commands) as H.
  destruct (Installer.detect_python_among version_of Installer.python_commands)
    as [[[cmd |] [[major minor] |]] ok]; try contradiction.
  - destruct H as (before & after & Hc & Hb & Hv & ->). split.
    + cbn [fst]. split; [discriminate |]. intros Hnone.
      rewrite Hnone in Hv; [discriminate Hv |].
      rewrite Hc. apply in_or_app. right. left. reflexivity.
    + intros cmd' version is_compatible [= <- <- <-].
      exists before, after, major, minor.
      split; [exact Hc |]. split; [exact Hb |]. split; [exact Hv |].
      split; [reflexivity |].
      destruct (Z.leb_spec 3 major), (Z.leb_spec 8 minor); simpl;
        (split; [split; intros; try discriminate; try reflexivity; lia |]);
        intros; try discriminate; lia.
  - destruct ok; [contradiction |]. split.
    + cbn [fst]. split; [intros _; exact H | reflexivity].
    + intros cmd' version is_compatible [=].
Qed.

End DetectPython.
